(** * Bunny-Unispace: the provider adapter and the Garage workflow sequencer

    A shallow embedding of [src/services/aiService.ts] (the provider
    adapter, class [AIServiceManager]) and of the [GarageWorkflow]
    component (the stage sequencer), followed by the properties the
    specification states about them.

    Conventions of the embedding:
    - a JavaScript string is a [string]: a sequence of code units, here
      restricted to the code units below 256;
    - an optional property ([x?: T], or a value reached through [?.]) is an
      [option]; [undefined] and [null] are both [None];
    - an [async] function is run to completion: the [await] of the HTTP call
      is one step, the answer being supplied by a network oracle that also
      sees how many requests were issued before;
    - React state is a record, and a handler runs against the snapshot of the
      state its render closed over, while its functional updates
      ([setX(prev => ...)]) act on the current state. *)

From stdpp Require Import gmap strings list fin_maps.
From Stdlib Require Import ZArith.

(** ** JavaScript primitives used by the sources *)

Module Js.

(** [a || b] on a possibly undefined string: the empty string is falsy. *)
Definition or_else (v : option string) (d : string) : string :=
  match v with
  | Some s => if String.eqb s "" then d else s
  | None => d
  end.

(** [a || b] where [b] may itself be undefined. *)
Definition or_opt (v d : option string) : option string :=
  match v with
  | Some s => if String.eqb s "" then d else Some s
  | None => d
  end.

(** The truthy part of a possibly undefined string: [if (!v) ...]. *)
Definition truthy (v : option string) : option string :=
  match v with
  | Some s => if String.eqb s "" then None else Some s
  | None => None
  end.

(** [`${v}`] for a possibly undefined string. *)
Definition show (v : option string) : string := default "undefined" v.

Definition LF : string := String (Ascii.ascii_of_nat 10) "".
Definition DQUOTE : string := String (Ascii.ascii_of_nat 34) "".

(** WhiteSpace and LineTerminator code units below 256: TAB, LF, VT, FF,
    CR, SP and NBSP. *)
Definition isWhiteSpace (c : Ascii.ascii) : bool :=
  let n := Ascii.nat_of_ascii c in
  (((9 <=? n) && (n <=? 13)) || (n =? 32) || (n =? 160))%nat.

Fixpoint trimStart (s : string) : string :=
  match s with
  | "" => ""
  | String c s' => if isWhiteSpace c then trimStart s' else s
  end.

(** [trimEnd] keeps a character when it is not white space or when
    something remains after it. *)
Fixpoint trimEnd (s : string) : string :=
  match s with
  | "" => ""
  | String c s' =>
      match trimEnd s' with
      | "" => if isWhiteSpace c then "" else String c ""
      | t => String c t
      end
  end.

Definition trim (s : string) : string := trimEnd (trimStart s).

(** A JavaScript number holding a count, or NaN. Token counts are integers
    far below 2^53, where the addition of doubles is exact. *)
Inductive number : Type :=
| Num (z : Z)
| NaN.

(** [a + b] on possibly undefined numbers: ToNumber(undefined) is NaN, and
    NaN absorbs. *)
Definition add (a b : option number) : number :=
  match a, b with
  | Some (Num x), Some (Num y) => Num (x + y)
  | _, _ => NaN
  end.

(** What an exception carries, as far as the sources look at it:
    [error.message] and [error.response?.data?.error?.message]. *)
Record Error : Type := mkError {
  response_data_error_message : option string;
  message : string
}.

Definition new_Error (msg : string) : Error :=
  {| response_data_error_message := None; message := msg |}.

(** Reading index 0 of [undefined] (V8's wording of the TypeError). *)
Definition TypeError_index0 : Error :=
  new_Error "Cannot read properties of undefined (reading '0')".

(** Reading property [name] of [undefined]. *)
Definition TypeError_name : Error :=
  new_Error "Cannot read properties of undefined (reading 'name')".

Inductive Result (A : Type) : Type :=
| Ok (a : A)
| Throw (e : Error).
Arguments Ok {A} a.
Arguments Throw {A} e.

End Js.

(** ** [src/services/aiService.ts] *)

Module AIService.
Import Js.

Record AIResponse : Type := {
  content : string;
  service : string;
  (* timestamp: new Date() is left out: wall-clock time *)
  tokens : option number;
  model : option string
}.

Definition DEFAULT_MODELS : gmap string string :=
  <["openai" := "gpt-4o-mini"]>
  (<["anthropic" := "claude-3-haiku-20240307"]>
  (<["google" := "gemini-1.5-flash"]>
  (<["groq" := "llama3-8b-8192"]> ∅))).

(** A [File] handed to [fileToBase64]: its MIME type and what the reader
    produces ([None] when [reader.onerror] fires). *)
Record File : Type := {
  type : string;
  base64 : option string
}.

(** *** Requests *)

Inductive Part : Type :=
| text_part (text : string)
| inline_data (mime_type data : string).

(** The three request bodies; [max_tokens: 2048] and [temperature: 0.7]
    are constants of the source and not repeated here. *)
Inductive Body : Type :=
| chat_completions (model : option string) (user_content : string)
| messages (model : option string) (user_content : string)
| generateContent (parts : list Part).

Record Request : Type := {
  url : string;
  headers : list (string * string);
  body : Body
}.

(** *** Response payloads, one shape per provider *)

Module OpenAI.
Record Message : Type := { content : option string }.
Record Choice : Type := { message : option Message }.
Record Usage : Type := { total_tokens : option number }.
Record Data : Type := {
  choices : option (list Choice);
  usage : option Usage;
  model : option string
}.
End OpenAI.

Module Anthropic.
Record Block : Type := { text : option string }.
Record Usage : Type := {
  input_tokens : option number;
  output_tokens : option number
}.
Record Data : Type := {
  content : option (list Block);
  usage : option Usage;
  model : option string
}.
End Anthropic.

Module Google.
Record Part : Type := { text : option string }.
Record Content : Type := { parts : option (list Part) }.
Record Candidate : Type := { content : option Content }.
Record UsageMetadata : Type := { totalTokenCount : option number }.
Record Data : Type := {
  candidates : option (list Candidate);
  usageMetadata : option UsageMetadata
}.

(** [candidates?.[0]?.content?.parts?.[0]?.text] *)
Definition text_of (data : Data) : option string :=
  c0 ← (l ← candidates data; l !! 0);
  p0 ← (l ← (c ← content c0; parts c); l !! 0);
  text p0.
End Google.

(** What [await axios.post(...)] gives: the payload of a 2xx answer, or
    the thrown error. *)
Inductive Http (D : Type) : Type :=
| resolved (data : D)
| rejected (error : Error).
Arguments resolved {D} data.
Arguments rejected {D} error.

(** The network: for each endpoint, the answer to a request given the
    number of requests issued before it. *)
Record Network : Type := {
  openai_api : nat → Request → Http OpenAI.Data;
  anthropic_api : nat → Request → Http Anthropic.Data;
  google_api : nat → Request → Http Google.Data;
  groq_api : nat → Request → Http OpenAI.Data
}.

(** An asynchronous call run to completion: it reads and extends the log
    of requests issued, and returns or throws. *)
Definition Async (A : Type) : Type := list Request → Result A * list Request.

Definition ret {A} (a : A) : Async A := λ log, (Ok a, log).
Definition throw {A} (e : Error) : Async A := λ log, (Throw e, log).
Definition bind {A B} (m : Async A) (k : A → Async B) : Async B :=
  λ log, match m log with
         | (Ok a, log') => k a log'
         | (Throw e, log') => (Throw e, log')
         end.
Definition try_catch {A} (m : Async A) (h : Error → Async A) : Async A :=
  λ log, match m log with
         | (Ok a, log') => (Ok a, log')
         | (Throw e, log') => h e log'
         end.

Notation "x <- m ;; k" := (bind m (λ x, k))
  (at level 100, m at next level, right associativity).

Definition axios_post {D} (api : nat → Request → Http D) (req : Request)
  : Async D :=
  λ log, match api (length log) req with
         | resolved data => (Ok data, log ++ [req])
         | rejected error => (Throw error, log ++ [req])
         end.

(** [a[0]] on a possibly undefined array: a TypeError on [undefined]. *)
Definition index0 {A} (a : option (list A)) : Async (option A) :=
  match a with
  | Some l => ret (l !! 0)
  | None => throw TypeError_index0
  end.

(** [`${error.response?.data?.error?.message || error.message}`] *)
Definition error_text (error : Error) : string :=
  or_else (response_data_error_message error) (message error).

Section Manager.
Variable net : Network.

Definition openai_request (prompt apiKey : string) (model : option string)
  : Request :=
  {| url := "https://api.openai.com/v1/chat/completions";
     headers := [("Authorization", "Bearer " +:+ apiKey);
                 ("Content-Type", "application/json")];
     body := chat_completions model prompt |}.

Definition callOpenAI (prompt apiKey : string) (model : option string)
  : Async AIResponse :=
  try_catch
    (response <- axios_post (openai_api net) (openai_request prompt apiKey model);;
     c0 <- index0 (OpenAI.choices response);;
     ret {| content := or_else ((c0 ≫= OpenAI.message) ≫= OpenAI.content) "No response";
            service := "openai";
            tokens := OpenAI.usage response ≫= OpenAI.total_tokens;
            model := OpenAI.model response |})
    (λ error, throw (new_Error ("OpenAI Error: " +:+ error_text error))).

Definition anthropic_request (prompt apiKey : string) (model : option string)
  : Request :=
  {| url := "https://api.anthropic.com/v1/messages";
     headers := [("x-api-key", apiKey);
                 ("Content-Type", "application/json");
                 ("anthropic-version", "2023-06-01")];
     body := messages model prompt |}.

Definition callAnthropic (prompt apiKey : string) (model : option string)
  : Async AIResponse :=
  try_catch
    (response <- axios_post (anthropic_api net) (anthropic_request prompt apiKey model);;
     b0 <- index0 (Anthropic.content response);;
     ret {| content := or_else (b0 ≫= Anthropic.text) "No response";
            service := "anthropic";
            tokens := Some (add (Anthropic.usage response ≫= Anthropic.input_tokens)
                                (Anthropic.usage response ≫= Anthropic.output_tokens));
            model := Anthropic.model response |})
    (λ error, throw (new_Error ("Claude Error: " +:+ error_text error))).

Definition google_request (parts : list Part) (apiKey : string)
    (model : option string) : Request :=
  {| url := "https://generativelanguage.googleapis.com/v1beta/models/"
            +:+ show model +:+ ":generateContent?key=" +:+ apiKey;
     headers := [("Content-Type", "application/json")];
     body := generateContent parts |}.

Definition callGoogle (prompt apiKey : string) (model : option string)
    (image : option File) : Async AIResponse :=
  parts <- match image with
          | None => ret [text_part prompt]
          | Some f =>
              match base64 f with
              | Some base64Data =>
                  ret [text_part prompt; inline_data (type f) base64Data]
              | None => throw (new_Error "Failed to process image file.")
              end
          end;;
  try_catch
    (response <- axios_post (google_api net) (google_request parts apiKey model);;
     ret {| content :=
              or_else (Google.text_of response) "No response";
            service := "google";
            tokens := Google.usageMetadata response ≫= Google.totalTokenCount;
            model := model |})
    (λ error, throw (new_Error ("Gemini Error: " +:+ error_text error))).

Definition groq_request (prompt apiKey : string) (model : option string)
  : Request :=
  {| url := "https://api.groq.com/openai/v1/chat/completions";
     headers := [("Authorization", "Bearer " +:+ apiKey);
                 ("Content-Type", "application/json")];
     body := chat_completions model prompt |}.

Definition callGroq (prompt apiKey : string) (model : option string)
  : Async AIResponse :=
  try_catch
    (response <- axios_post (groq_api net) (groq_request prompt apiKey model);;
     c0 <- index0 (OpenAI.choices response);;
     ret {| content := or_else ((c0 ≫= OpenAI.message) ≫= OpenAI.content) "No response";
            service := "groq";
            tokens := OpenAI.usage response ≫= OpenAI.total_tokens;
            model := OpenAI.model response |})
    (λ error, throw (new_Error ("Groq Error: " +:+ error_text error))).

Definition callAIService (serviceId prompt apiKey : string)
    (model : option string) (image : option File) : Async AIResponse :=
  let serviceModel := or_opt model (DEFAULT_MODELS !! serviceId) in
  if String.eqb serviceId "openai" then callOpenAI prompt apiKey serviceModel
  else if String.eqb serviceId "anthropic" then callAnthropic prompt apiKey serviceModel
  else if String.eqb serviceId "google" then callGoogle prompt apiKey serviceModel image
  else if String.eqb serviceId "groq" then callGroq prompt apiKey serviceModel
  else throw (new_Error ("Unsupported AI service: " +:+ serviceId)).

(** [testConnection]: one real call with the prompt "Hello"; any thrown
    error becomes [false]. *)
Definition testConnection (serviceId apiKey : string) (model : option string)
  : list Request → bool * list Request :=
  λ log, match callAIService serviceId "Hello" apiKey model None log with
         | (Ok _, log') => (true, log')
         | (Throw _, log') => (false, log')
         end.

End Manager.

End AIService.

(** ** [src/contexts/AppContext.tsx]: the connections read by the workflow *)

Module AppContext.

Inductive ConnectionStatus : Type :=
| connected | connecting | disconnected | error.

Record AIConnection : Type := {
  id : string;
  status : ConnectionStatus;
  apiKey : option string;
  email : option string;
  model : option string
}.

End AppContext.

(** ** [GaragePage]: the four workflow templates offered to the user *)

Module GaragePage.

Record GarageOption : Type := {
  id : string;
  title : string;
  description : string;
  color : string;
  roles : list string
}.

Definition build : GarageOption :=
  {| id := "build";
     title := "Create/Build App";
     description := "Collaborative development with specialized AI roles.";
     color := "#4F46E5";
     roles := ["Prompt Refiner"; "Backend Developer"; "Frontend Designer";
               "Code Reviewer"; "Doc Specialist"] |}.

Definition research : GarageOption :=
  {| id := "research";
     title := "Research & Analysis";
     description := "Comprehensive research with data collection and analysis.";
     color := "#059669";
     roles := ["Coordinator"; "Data Collector"; "Analyst"; "Fact Checker";
               "Report Writer"] |}.

Definition math : GarageOption :=
  {| id := "math";
     title := "Solve Math Problem";
     description := "Complex problem solving with step-by-step verification.";
     color := "#DC2626";
     roles := ["Interpreter"; "Strategist"; "Calculator"; "Verifier";
               "Explainer"] |}.

Definition ideas : GarageOption :=
  {| id := "ideas";
     title := "Creative Ideation";
     description := "Brainstorming new concepts with feasibility analysis.";
     color := "#7C2D12";
     roles := ["Coordinator"; "Generator"; "Analyst"; "Refiner"; "Planner"] |}.

Definition GARAGE_OPTIONS : list GarageOption :=
  [build; research; math; ideas].

End GaragePage.

(** ** [GarageWorkflow]: the stage sequencer *)

Module GarageWorkflow.
Import Js.

Inductive Status : Type :=
| pending | processing | completed | user_input.

Record WorkflowStep : Type := {
  id : string;
  role : string;
  roleName : string;
  assignedAI : option string;
  prompt : string;
  response : option string;
  status : Status
}.

Record RoleInfo : Type := {
  name : string;
  description : string
}.

(** An object literal whose key order matters ([Object.keys]): the list of
    its entries, in insertion order. *)
Fixpoint get {V} (o : list (string * V)) (key : string) : option V :=
  match o with
  | [] => None
  | (k, v) :: o' => if String.eqb k key then Some v else get o' key
  end.

Definition ROLE_DEFINITIONS : list (string * list (string * RoleInfo)) :=
  [ ("build",
     [ ("A", {| name := "Prompt Refiner"; description := "Refines user requirements and creates detailed specifications" |});
       ("B", {| name := "Backend Developer"; description := "Creates backend code, APIs, and database structure" |});
       ("C", {| name := "Frontend Designer"; description := "Builds UI/UX and frontend components" |});
       ("D", {| name := "Code Reviewer"; description := "Reviews, optimizes, and fixes code issues" |});
       ("E", {| name := "Documentation Specialist"; description := "Creates documentation and explanations" |}) ]);
    ("research",
     [ ("A", {| name := "Research Coordinator"; description := "Defines research scope and methodology" |});
       ("B", {| name := "Data Collector"; description := "Gathers information from multiple sources" |});
       ("C", {| name := "Research Analyst"; description := "Analyzes and synthesizes findings" |});
       ("D", {| name := "Fact Checker"; description := "Verifies accuracy and credibility" |});
       ("E", {| name := "Report Writer"; description := "Creates final comprehensive report" |}) ]);
    ("math",
     [ ("A", {| name := "Problem Interpreter"; description := "Understands and structures mathematical problems" |});
       ("B", {| name := "Solution Strategist"; description := "Develops solution approaches and methods" |});
       ("C", {| name := "Calculator"; description := "Performs calculations and computations" |});
       ("D", {| name := "Verification Specialist"; description := "Checks accuracy and alternative methods" |});
       ("E", {| name := "Explainer"; description := "Provides clear step-by-step explanations" |}) ]);
    ("ideas",
     [ ("A", {| name := "Idea Coordinator"; description := "Structures and clarifies creative concepts" |});
       ("B", {| name := "Creative Generator"; description := "Brainstorms and expands ideas" |});
       ("C", {| name := "Feasibility Analyst"; description := "Evaluates practicality and market potential" |});
       ("D", {| name := "Idea Refiner"; description := "Polishes and improves concepts" |});
       ("E", {| name := "Implementation Planner"; description := "Creates actionable next steps" |}) ]) ].

(** The [useState] cells of the component. *)
Record State : Type := {
  roleAssignments : gmap string string;
  workflowSteps : list WorkflowStep;
  currentStep : nat;
  userPrompt : string;
  workflowStarted : bool;
  additionalInput : string;
  showAddMore : bool
}.

Inductive Toast : Type :=
| toast_error (msg : string)
| toast_success (msg : string).

(** A callback handed to [setTimeout] by [processStep]: the render snapshot
    it closed over, the stage that finished, its answer and its index. *)
Record Timer : Type := {
  closure : State;
  finished : WorkflowStep;
  answer : string;
  finishedIndex : nat
}.

(** The component and its surroundings: the current state, the
    notifications shown, the HTTP requests issued, the timers pending. *)
Record World : Type := {
  state : State;
  toasts : list Toast;
  requests : list AIService.Request;
  timers : list Timer
}.

(** *** State setters *)

Definition withState (f : State → State) (w : World) : World :=
  {| state := f (state w); toasts := toasts w;
     requests := requests w; timers := timers w |}.

Definition setWorkflowSteps (f : list WorkflowStep → list WorkflowStep)
  : World → World :=
  withState (λ s,
    {| roleAssignments := roleAssignments s;
       workflowSteps := f (workflowSteps s);
       currentStep := currentStep s;
       userPrompt := userPrompt s;
       workflowStarted := workflowStarted s;
       additionalInput := additionalInput s;
       showAddMore := showAddMore s |}).

Definition setRoleAssignments (f : gmap string string → gmap string string)
  : World → World :=
  withState (λ s,
    {| roleAssignments := f (roleAssignments s);
       workflowSteps := workflowSteps s;
       currentStep := currentStep s;
       userPrompt := userPrompt s;
       workflowStarted := workflowStarted s;
       additionalInput := additionalInput s;
       showAddMore := showAddMore s |}).

Definition setCurrentStep (n : nat) : World → World :=
  withState (λ s,
    {| roleAssignments := roleAssignments s;
       workflowSteps := workflowSteps s;
       currentStep := n;
       userPrompt := userPrompt s;
       workflowStarted := workflowStarted s;
       additionalInput := additionalInput s;
       showAddMore := showAddMore s |}).

Definition setUserPrompt (p : string) : World → World :=
  withState (λ s,
    {| roleAssignments := roleAssignments s;
       workflowSteps := workflowSteps s;
       currentStep := currentStep s;
       userPrompt := p;
       workflowStarted := workflowStarted s;
       additionalInput := additionalInput s;
       showAddMore := showAddMore s |}).

Definition setWorkflowStarted (b : bool) : World → World :=
  withState (λ s,
    {| roleAssignments := roleAssignments s;
       workflowSteps := workflowSteps s;
       currentStep := currentStep s;
       userPrompt := userPrompt s;
       workflowStarted := b;
       additionalInput := additionalInput s;
       showAddMore := showAddMore s |}).

Definition setAdditionalInput (p : string) : World → World :=
  withState (λ s,
    {| roleAssignments := roleAssignments s;
       workflowSteps := workflowSteps s;
       currentStep := currentStep s;
       userPrompt := userPrompt s;
       workflowStarted := workflowStarted s;
       additionalInput := p;
       showAddMore := showAddMore s |}).

Definition setShowAddMore (b : bool) : World → World :=
  withState (λ s,
    {| roleAssignments := roleAssignments s;
       workflowSteps := workflowSteps s;
       currentStep := currentStep s;
       userPrompt := userPrompt s;
       workflowStarted := workflowStarted s;
       additionalInput := additionalInput s;
       showAddMore := b |}).

Definition toast (t : Toast) (w : World) : World :=
  {| state := state w; toasts := toasts w ++ [t];
     requests := requests w; timers := timers w |}.

Definition setRequests (log : list AIService.Request) (w : World) : World :=
  {| state := state w; toasts := toasts w;
     requests := log; timers := timers w |}.

Definition setTimeout (t : Timer) (w : World) : World :=
  {| state := state w; toasts := toasts w;
     requests := requests w; timers := timers w ++ [t] |}.

Definition setTimers (ts : list Timer) (w : World) : World :=
  {| state := state w; toasts := toasts w;
     requests := requests w; timers := ts |}.

(** [{ ...s, status: 'processing', prompt: inputPrompt }] *)
Definition startProcessing (inputPrompt : string) (s : WorkflowStep)
  : WorkflowStep :=
  {| id := id s; role := role s; roleName := roleName s;
     assignedAI := assignedAI s; prompt := inputPrompt;
     response := response s; status := processing |}.

(** [{ ...s, status: newStatus, response: response.content }] *)
Definition finish (newStatus : Status) (content : string) (s : WorkflowStep)
  : WorkflowStep :=
  {| id := id s; role := role s; roleName := roleName s;
     assignedAI := assignedAI s; prompt := prompt s;
     response := Some content; status := newStatus |}.

(** [{ ...s, status: 'pending' }] *)
Definition backToPending (s : WorkflowStep) : WorkflowStep :=
  {| id := id s; role := role s; roleName := roleName s;
     assignedAI := assignedAI s; prompt := prompt s;
     response := response s; status := pending |}.

(** [prev.map((s, i) => i === stepIndex ? f(s) : s)] *)
Definition mapAt (stepIndex : nat) (f : WorkflowStep → WorkflowStep)
    (prev : list WorkflowStep) : list WorkflowStep :=
  imap (λ i s, if decide (i = stepIndex) then f s else s) prev.

Section Component.
(** The props and context of one mounted component. *)
Variable selectedOption : GaragePage.GarageOption.
Variable connections : gmap string AppContext.AIConnection.
Variable net : AIService.Network.

(** [ROLE_DEFINITIONS[selectedOption.id] || {}] *)
Definition roles : list (string * RoleInfo) :=
  default [] (get ROLE_DEFINITIONS (GaragePage.id selectedOption)).

(** [Object.keys(roles).map(roleId => ({ id: roleId, role: roleId,
    roleName: roles[roleId].name, prompt: '', status: 'pending' }))],
    written over the entries of [roles]. *)
Definition initialSteps : list WorkflowStep :=
  map (λ entry : string * RoleInfo,
         {| id := entry.1; role := entry.1; roleName := name entry.2;
            assignedAI := None; prompt := ""; response := None;
            status := pending |})
      roles.

(** The state after mounting, once the effect has run. *)
Definition mounted : World :=
  {| state := {| roleAssignments := ∅; workflowSteps := initialSteps;
                 currentStep := 0; userPrompt := "";
                 workflowStarted := false; additionalInput := "";
                 showAddMore := false |};
     toasts := []; requests := []; timers := [] |}.

Definition handleRoleAssignment (roleId aiId : string) : World → World :=
  setRoleAssignments (λ prev, <[roleId := aiId]> prev).

(** [Object.keys(roleAssignments).filter(role => roleAssignments[role])] *)
Definition assignedRoles (roleAssignments : gmap string string)
  : list string :=
  List.filter (λ role, bool_decide (is_Some (truthy (roleAssignments !! role))))
              (map fst (map_to_list roleAssignments)).

Definition validateSetup (env : State) : bool :=
  (2 <=? length (assignedRoles (roleAssignments env)))
  && (0 <? String.length (trim (userPrompt env))).

Definition createRolePrompt (step : WorkflowStep) (inputPrompt : string)
    (stepIndex : nat) : Result string :=
  let roleContext := get roles (role step) in
  if stepIndex =? 0 then
    match roleContext with
    | Some roleContext =>
        Ok ("You are a " +:+ name roleContext +:+ ". Your role: "
            +:+ description roleContext +:+ ". The overall goal is to "
            +:+ GaragePage.title selectedOption +:+ ". User Request: "
            +:+ DQUOTE +:+ inputPrompt +:+ DQUOTE
            +:+ ". Please refine and structure this request into clear objectives for the team.")
    | None => Throw TypeError_name
    end
  else Ok inputPrompt.

Definition createNextStepPrompt (env : State) (currentStep : WorkflowStep)
    (currentResponse : string) (nextStepIndex : nat) : Result string :=
  match workflowSteps env !! nextStepIndex with
  | None => Throw (new_Error "Cannot read properties of undefined (reading 'role')")
  | Some nextStep =>
      match get roles (role nextStep) with
      | None => Throw TypeError_name
      | Some nextRole =>
          Ok ("You are a " +:+ name nextRole +:+ ". Your role: "
              +:+ description nextRole
              +:+ ". The previous step was completed by "
              +:+ roleName currentStep +:+ ", who provided the following: "
              +:+ DQUOTE +:+ currentResponse +:+ DQUOTE
              +:+ ". Based on this, please perform your task.")
      end
  end.

(** The [catch] block of [processStep]. *)
Definition processStep_catch (step : WorkflowStep) (stepIndex : nat)
    (error : Error) (w : World) : World :=
  setWorkflowSteps (mapAt stepIndex backToPending)
    (toast (toast_error ("Error in " +:+ roleName step +:+ ": " +:+ message error)) w).

(** What follows the [await] in the [try] block of [processStep]. *)
Definition processStep_then (env : State) (step : WorkflowStep)
    (stepIndex : nat) (response : AIService.AIResponse) (w : World) : World :=
  let newStatus := if stepIndex =? 0 then user_input else completed in
  let w := setWorkflowSteps
             (mapAt stepIndex (finish newStatus (AIService.content response))) w in
  match newStatus with
  | user_input => setShowAddMore true w
  | _ =>
      if stepIndex <? length (workflowSteps env) - 1 then
        setTimeout {| closure := env; finished := step;
                      answer := AIService.content response;
                      finishedIndex := stepIndex |} w
      else toast (toast_success "Workflow completed successfully!") w
  end.

(** [processStep], called from a handler or timer that closed over the
    render snapshot [env]. *)
Definition processStep (env : State) (stepIndex : nat)
    (inputPrompt : string) (w : World) : World :=
  match workflowSteps env !! stepIndex with
  | None => w
  | Some step =>
      match truthy (roleAssignments env !! role step) with
      | None => toast (toast_error ("No AI assigned to role " +:+ role step)) w
      | Some assignedAIId =>
          let connection := connections !! assignedAIId in
          match truthy (connection ≫= AppContext.apiKey) with
          | None => toast (toast_error ("API key not found for " +:+ assignedAIId)) w
          | Some apiKey =>
              let w := setWorkflowSteps (mapAt stepIndex (startProcessing inputPrompt)) w in
              let w := setCurrentStep stepIndex w in
              match createRolePrompt step inputPrompt stepIndex with
              | Throw error => processStep_catch step stepIndex error w
              | Ok rolePrompt =>
                  match AIService.callAIService net assignedAIId rolePrompt apiKey
                          (connection ≫= AppContext.model) None (requests w) with
                  | (Ok response, log) =>
                      processStep_then env step stepIndex response (setRequests log w)
                  | (Throw error, log) =>
                      processStep_catch step stepIndex error (setRequests log w)
                  end
              end
          end
      end
  end.

Definition startWorkflow (w : World) : World :=
  let env := state w in
  if negb (validateSetup env) then
    toast (toast_error "Please assign at least 2 AIs and enter a task description!") w
  else
    processStep env 0 (userPrompt env) (setWorkflowStarted true w).

Definition handleAddMore (w : World) : World :=
  let env := state w in
  if String.eqb (trim (additionalInput env)) "" then
    toast (toast_error "Please enter additional requirements!") w
  else
    let currentPromptForStep0 :=
      or_else (prompt <$> List.find (λ s, String.eqb (id s) "A") (workflowSteps env))
              (userPrompt env) in
    let combinedPrompt :=
      currentPromptForStep0 +:+ LF +:+ LF +:+ "Additional requirements: "
      +:+ additionalInput env in
    processStep env 0 combinedPrompt
      (setShowAddMore false (setAdditionalInput "" w)).

(** An exception escaping the handler ([currentStepData] undefined, or
    [createNextStepPrompt] throwing) leaves what was set before it. *)
Definition handlePassToNext (w : World) : World :=
  let env := state w in
  match workflowSteps env !! currentStep env with
  | None => w
  | Some currentStepData =>
      match truthy (response currentStepData) with
      | None => w
      | Some currentResponse =>
          let w := setShowAddMore false w in
          match createNextStepPrompt env currentStepData currentResponse
                  (currentStep env + 1) with
          | Throw _ => w
          | Ok nextPrompt => processStep env (currentStep env + 1) nextPrompt w
          end
      end
  end.

Definition resetWorkflow (w : World) : World :=
  let w := setWorkflowStarted false w in
  let w := setCurrentStep 0 w in
  let w := setUserPrompt "" w in
  let w := setAdditionalInput "" w in
  let w := setShowAddMore false w in
  let w := setRoleAssignments (λ _, ∅) w in
  setWorkflowSteps (λ _, initialSteps) w.

(** The callback of the [setTimeout] in [processStep]. *)
Definition fire (t : Timer) (w : World) : World :=
  match createNextStepPrompt (closure t) (finished t) (answer t)
          (finishedIndex t + 1) with
  | Throw _ => w
  | Ok nextPrompt => processStep (closure t) (finishedIndex t + 1) nextPrompt w
  end.

(** The event loop runs the oldest pending timer. *)
Definition tick (w : World) : World :=
  match timers w with
  | [] => w
  | t :: ts => fire t (setTimers ts w)
  end.

Fixpoint run (n : nat) (w : World) : World :=
  match n with
  | 0 => w
  | S n => run n (tick w)
  end.

End Component.

End GarageWorkflow.

(** ** Notions used to state the properties *)

Module Spec.
Import Js AIService.

(** [sub] occurs verbatim, as one contiguous piece, inside [s]. *)
Definition embeds (sub s : string) : Prop :=
  ∃ pre post, s = pre +:+ sub +:+ post.

(** The text field of each payload shape, as the adapter reads it after
    the array it indexes without a guard is known to exist. *)
Definition openai_text (data : OpenAI.Data) : option string :=
  c0 ← (l ← OpenAI.choices data; l !! 0);
  m ← OpenAI.message c0;
  OpenAI.content m.

Definition anthropic_text (data : Anthropic.Data) : option string :=
  b0 ← (l ← Anthropic.content data; l !! 0);
  Anthropic.text b0.

(** The parts [callGoogle] sends, when the image (if any) can be read. *)
Definition google_parts (prompt : string) (image : option File)
  : option (list Part) :=
  match image with
  | None => Some [text_part prompt]
  | Some f => base64Data ← base64 f;
              Some [text_part prompt; inline_data (type f) base64Data]
  end.

(** The prompt a request carries. *)
Definition prompt_of (req : Request) : option string :=
  match body req with
  | chat_completions _ c => Some c
  | messages _ c => Some c
  | generateContent (text_part t :: _) => Some t
  | generateContent _ => None
  end.

(** [Answered net log serviceId prompt apiKey model image text]: the
    request that [callAIService] issues for a supported provider gets a
    well-formed payload, whose text field holds [text]. Well-formed means
    that the array the adapter indexes without [?.] is present. *)
Inductive Answered (net : Network) (log : list Request)
    (prompt apiKey : string) (model : option string) (image : option File)
  : string → option string → Prop :=
| answered_openai data :
    openai_api net (length log)
      (openai_request prompt apiKey (or_opt model (DEFAULT_MODELS !! "openai")))
      = resolved data →
    is_Some (OpenAI.choices data) →
    Answered net log prompt apiKey model image "openai" (openai_text data)
| answered_anthropic data :
    anthropic_api net (length log)
      (anthropic_request prompt apiKey (or_opt model (DEFAULT_MODELS !! "anthropic")))
      = resolved data →
    is_Some (Anthropic.content data) →
    Answered net log prompt apiKey model image "anthropic" (anthropic_text data)
| answered_google data parts :
    google_parts prompt image = Some parts →
    google_api net (length log)
      (google_request parts apiKey (or_opt model (DEFAULT_MODELS !! "google")))
      = resolved data →
    Answered net log prompt apiKey model image "google" (Google.text_of data)
| answered_groq data :
    groq_api net (length log)
      (groq_request prompt apiKey (or_opt model (DEFAULT_MODELS !! "groq")))
      = resolved data →
    is_Some (OpenAI.choices data) →
    Answered net log prompt apiKey model image "groq" (openai_text data).

Definition supported (serviceId : string) : Prop :=
  serviceId ∈ ["openai"; "anthropic"; "google"; "groq"].

Section Workflow.
Import GarageWorkflow.
Variable selectedOption : GaragePage.GarageOption.
Variable connections : gmap string AppContext.AIConnection.
Variable net : Network.

(** [Runs env stepIndex inputPrompt w step rolePrompt outcome]: called
    from the snapshot [env] in the world [w], [processStep] gets as far
    as the provider: a stage [step] exists at [stepIndex], its role has
    a provider with a credential, the prompt renders to [rolePrompt],
    and the adapter's answer is [outcome]. *)
Definition Runs (env : State) (stepIndex : nat) (inputPrompt : string)
    (w : World) (step : WorkflowStep) (rolePrompt : string)
    (outcome : Result AIResponse * list Request) : Prop :=
  ∃ assignedAIId apiKey,
    workflowSteps env !! stepIndex = Some step
    ∧ truthy (roleAssignments env !! role step) = Some assignedAIId
    ∧ truthy (connections !! assignedAIId ≫= AppContext.apiKey) = Some apiKey
    ∧ createRolePrompt selectedOption step inputPrompt stepIndex = Ok rolePrompt
    ∧ callAIService net assignedAIId rolePrompt apiKey
        (connections !! assignedAIId ≫= AppContext.model) None (requests w)
      = outcome.

(** A call for stage [j] rewrites at most stage [j] of the list, leaves
    the assignments, the started flag and the task untouched, schedules at
    most one timer (for stage [j]) and issues at most one request. *)
Record Frame (env : State) (j : nat) (w w' : World) : Prop := {
  frame_steps : ∃ f, workflowSteps (state w')
                     = mapAt j f (workflowSteps (state w));
  frame_roleAssignments : roleAssignments (state w') = roleAssignments (state w);
  frame_workflowStarted : workflowStarted (state w') = workflowStarted (state w);
  frame_userPrompt : userPrompt (state w') = userPrompt (state w);
  frame_timers : timers w' = timers w
                 ∨ ∃ t, timers w' = timers w ++ [t] ∧ finishedIndex t = j;
  frame_requests : requests w' = requests w
                   ∨ ∃ req, requests w' = requests w ++ [req]
}.

(** The timers pending in [w] all belong to stages from [stepIndex] on. *)
Definition timers_from (stepIndex : nat) (w : World) : Prop :=
  Forall (λ t, stepIndex ≤ finishedIndex t) (timers w).
End Workflow.

(** The reading of the specification under which [processStep] reports an
    error both when no stage exists at the index and when the stage's role
    has no provider, changing nothing else. *)
Definition every_rejection_is_reported : Prop :=
  ∀ selectedOption connections net env stepIndex inputPrompt w,
    (GarageWorkflow.workflowSteps env !! stepIndex = None
     ∨ ∃ step, GarageWorkflow.workflowSteps env !! stepIndex = Some step
               ∧ truthy (GarageWorkflow.roleAssignments env !! GarageWorkflow.role step) = None) →
    let w' := GarageWorkflow.processStep selectedOption connections net
                env stepIndex inputPrompt w in
    GarageWorkflow.state w' = GarageWorkflow.state w
    ∧ GarageWorkflow.requests w' = GarageWorkflow.requests w
    ∧ ∃ msg, GarageWorkflow.toasts w'
             = GarageWorkflow.toasts w ++ [GarageWorkflow.toast_error msg].

End Spec.

(** ** Concrete inputs *)

Module Sample.
Import Js AIService.

Definition openai_data (t : option string) : OpenAI.Data :=
  {| OpenAI.choices := Some [ {| OpenAI.message := Some {| OpenAI.content := t |} |} ];
     OpenAI.usage := Some {| OpenAI.total_tokens := Some (Num 42) |};
     OpenAI.model := Some "gpt-4o-mini" |}.

Definition anthropic_data (t : string) (u : option Anthropic.Usage)
  : Anthropic.Data :=
  {| Anthropic.content := Some [ {| Anthropic.text := Some t |} ];
     Anthropic.usage := u;
     Anthropic.model := Some "claude-3-haiku-20240307" |}.

Definition google_data : Google.Data :=
  {| Google.candidates := None; Google.usageMetadata := None |}.

(** OpenAI answers its first request with the text ["refined"] and later
    ones with ["refined again"], Anthropic answers with ["backend"] and a
    usage of 10 + 20 tokens, Gemini with no candidates, and Groq fails
    with a provider message. *)
Definition net : Network :=
  {| openai_api := λ n _,
       resolved (openai_data (Some (if n =? 0 then "refined" else "refined again")));
     anthropic_api := λ _ _,
       resolved (anthropic_data "backend"
                   (Some {| Anthropic.input_tokens := Some (Num 10);
                            Anthropic.output_tokens := Some (Num 20) |}));
     google_api := λ _ _, resolved google_data;
     groq_api := λ _ _,
       rejected {| response_data_error_message := Some "Invalid API Key";
                   message := "Request failed with status code 401" |} |}.

(** As [net], but the Anthropic answer carries no [usage]. *)
Definition net_no_usage : Network :=
  {| openai_api := openai_api net;
     anthropic_api := λ _ _, resolved (anthropic_data "hi" None);
     google_api := google_api net;
     groq_api := groq_api net |}.

Import GarageWorkflow.

Definition connection (serviceId : string) : AppContext.AIConnection :=
  {| AppContext.id := serviceId;
     AppContext.status := AppContext.connected;
     AppContext.apiKey := Some ("key-" +:+ serviceId);
     AppContext.email := None;
     AppContext.model := None |}.

Definition connections : gmap string AppContext.AIConnection :=
  <["openai" := connection "openai"]>
  (<["anthropic" := connection "anthropic"]>
  (<["groq" := connection "groq"]> ∅)).

(** A set-up for [option]: roles A, B and C are given OpenAI, Anthropic
    and Groq, roles D and E nothing, and the task is typed in. *)
Definition ready (option : GaragePage.GarageOption) : World :=
  setUserPrompt "build a todo app"
    (handleRoleAssignment "C" "groq"
       (handleRoleAssignment "B" "anthropic"
          (handleRoleAssignment "A" "openai" (mounted option)))).

(** Only role A has a provider. *)
Definition one_role : World :=
  setUserPrompt "build me an app"
    (handleRoleAssignment "A" "openai" (mounted GaragePage.build)).

(** The run has been started and stage 0 has answered. *)
Definition started : World :=
  startWorkflow GaragePage.build connections net (ready GaragePage.build).

(** The user has then typed a refinement. *)
Definition refining : World := setAdditionalInput "add dark mode" started.

(** What the adapter returns for the answers of [net]. *)
Definition first_answer : AIResponse :=
  {| content := "refined"; service := "openai";
     tokens := Some (Num 42); model := Some "gpt-4o-mini" |}.

Definition second_answer : AIResponse :=
  {| content := "backend"; service := "anthropic";
     tokens := Some (Num 30); model := Some "claude-3-haiku-20240307" |}.

Definition refined_answer : AIResponse :=
  {| content := "refined again"; service := "openai";
     tokens := Some (Num 42); model := Some "gpt-4o-mini" |}.

Definition groq_error : Error := new_Error "Groq Error: Invalid API Key".

(** The roles and stages of the build template. *)
Definition role_A : RoleInfo :=
  {| name := "Prompt Refiner";
     description := "Refines user requirements and creates detailed specifications" |}.

Definition role_B : RoleInfo :=
  {| name := "Backend Developer";
     description := "Creates backend code, APIs, and database structure" |}.

Definition stage (roleId roleName : string) : WorkflowStep :=
  {| id := roleId; role := roleId; roleName := roleName; assignedAI := None;
     prompt := ""; response := None; status := pending |}.

(** Stage 0 once it has answered the task. *)
Definition stage_A_answered : WorkflowStep :=
  {| id := "A"; role := "A"; roleName := "Prompt Refiner"; assignedAI := None;
     prompt := "build a todo app"; response := Some "refined";
     status := user_input |}.

(** The prompt rendered for a stage of the build template, and the request
    log once the provider [ai] has been called with it from the world [w]. *)
Definition rendered (step : WorkflowStep) (inputPrompt : string) (i : nat)
  : string :=
  match createRolePrompt GaragePage.build step inputPrompt i with
  | Ok rolePrompt => rolePrompt
  | Throw _ => ""
  end.

Definition log_after (ai rolePrompt : string) (w : World) : list Request :=
  (callAIService net ai rolePrompt ("key-" +:+ ai) None None (requests w)).2.

(** The task joined with the refinement typed in [refining]. *)
Definition combined_prompt : string :=
  "build a todo app" +:+ LF +:+ LF +:+ "Additional requirements: "
  +:+ "add dark mode".

(** The prompt stage 1 is given once the user passes stage 0 on. *)
Definition second_prompt : string :=
  "You are a Backend Developer. Your role: Creates backend code, APIs, and database structure. The previous step was completed by Prompt Refiner, who provided the following: "
  +:+ DQUOTE +:+ "refined" +:+ DQUOTE
  +:+ ". Based on this, please perform your task.".

End Sample.

(** ** [src/services/aiService.ts]: the catalogue of services *)

Module AIServiceCatalog.

Record AIService : Type := {
  id : string;
  name : string;
  provider : string;
  icon : string;
  color : string;
  description : string;
  loginMethods : list string
}.

Definition AI_SERVICES : list AIService :=
  [ {| id := "openai"; name := "ChatGPT"; provider := "OpenAI";
       icon := "FiCpu"; color := "#00A67E";
       description := "OpenAI's ChatGPT with GPT-4 access";
       loginMethods := ["api_key"] |};
    {| id := "anthropic"; name := "Claude"; provider := "Anthropic";
       icon := "FiMessageSquare"; color := "#CC785C";
       description := "Anthropic's Claude with advanced reasoning";
       loginMethods := ["api_key"] |};
    {| id := "google"; name := "Gemini"; provider := "Google";
       icon := "FiZap"; color := "#4285F4";
       description := "Google's Gemini Pro multimodal AI";
       loginMethods := ["api_key"] |};
    {| id := "groq"; name := "Groq"; provider := "Groq";
       icon := "FiFastForward"; color := "#F55036";
       description := "Ultra-fast inference with Groq LPU";
       loginMethods := ["api_key"] |} ].

(** [AI_SERVICES.find(s => s.id === serviceId)] *)
Definition find_service (serviceId : string) : option AIService :=
  List.find (λ s, String.eqb (id s) serviceId) AI_SERVICES.

End AIServiceCatalog.

(** ** Further notions about the adapter *)

Module AdapterSpec.
Import Js AIService.

(** What each adapter writes before the message of the error it rethrows. *)
Definition error_prefix (serviceId : string) : string :=
  if String.eqb serviceId "openai" then "OpenAI Error: "
  else if String.eqb serviceId "anthropic" then "Claude Error: "
  else if String.eqb serviceId "google" then "Gemini Error: "
  else "Groq Error: ".

(** [Rejected net log prompt apiKey model image serviceId error]: the request
    that [callAIService] issues for a supported provider fails with
    [error] (a transport failure or a non-2xx answer). *)
Inductive Rejected (net : Network) (log : list Request)
    (prompt apiKey : string) (model : option string) (image : option File)
  : string → Error → Prop :=
| rejected_openai error :
    openai_api net (length log)
      (openai_request prompt apiKey (or_opt model (DEFAULT_MODELS !! "openai")))
      = rejected error →
    Rejected net log prompt apiKey model image "openai" error
| rejected_anthropic error :
    anthropic_api net (length log)
      (anthropic_request prompt apiKey (or_opt model (DEFAULT_MODELS !! "anthropic")))
      = rejected error →
    Rejected net log prompt apiKey model image "anthropic" error
| rejected_google error parts :
    Spec.google_parts prompt image = Some parts →
    google_api net (length log)
      (google_request parts apiKey (or_opt model (DEFAULT_MODELS !! "google")))
      = rejected error →
    Rejected net log prompt apiKey model image "google" error
| rejected_groq error :
    groq_api net (length log)
      (groq_request prompt apiKey (or_opt model (DEFAULT_MODELS !! "groq")))
      = rejected error →
    Rejected net log prompt apiKey model image "groq" error.

(** [Malformed net log prompt apiKey model serviceId]: the provider answers
    with a 2xx payload that lacks the array the adapter indexes without a
    guard ([choices] for OpenAI and Groq, [content] for Anthropic). *)
Inductive Malformed (net : Network) (log : list Request)
    (prompt apiKey : string) (model : option string) : string → Prop :=
| malformed_openai data :
    openai_api net (length log)
      (openai_request prompt apiKey (or_opt model (DEFAULT_MODELS !! "openai")))
      = resolved data →
    OpenAI.choices data = None →
    Malformed net log prompt apiKey model "openai"
| malformed_anthropic data :
    anthropic_api net (length log)
      (anthropic_request prompt apiKey (or_opt model (DEFAULT_MODELS !! "anthropic")))
      = resolved data →
    Anthropic.content data = None →
    Malformed net log prompt apiKey model "anthropic"
| malformed_groq data :
    groq_api net (length log)
      (groq_request prompt apiKey (or_opt model (DEFAULT_MODELS !! "groq")))
      = resolved data →
    OpenAI.choices data = None →
    Malformed net log prompt apiKey model "groq".

End AdapterSpec.

(** ** Further concrete inputs *)

Module AdapterSample.
Import Js AIService.

(** OpenAI answers 200 with a payload that has no [choices]. *)
Definition net_malformed : Network :=
  {| openai_api := λ _ _,
       resolved {| OpenAI.choices := None; OpenAI.usage := None;
                   OpenAI.model := None |};
     anthropic_api := anthropic_api Sample.net;
     google_api := google_api Sample.net;
     groq_api := groq_api Sample.net |}.

(** The error with which Groq answers in [Sample.net]. *)
Definition groq_rejection : Error :=
  {| response_data_error_message := Some "Invalid API Key";
     message := "Request failed with status code 401" |}.

(** A picture that reads, and one whose reading fails. *)
Definition picture : File := {| type := "image/png"; base64 := Some "iVBORw0KGgo=" |}.
Definition broken_picture : File := {| type := "image/png"; base64 := None |}.

End AdapterSample.

(** ** Further notions about the sequencer *)

Module SequencerSpec.
Import Js GarageWorkflow.

(** What identifies a stage: the fields no operation rewrites. *)
Definition skeleton (s : WorkflowStep) : string * string * string :=
  (id s, role s, roleName s).

(** The three things [processStep] can do to the stage at index [j]: leave
    it, finish it with an answer, or put it back to pending. *)
Inductive Rewrite (j : nat) : (WorkflowStep → WorkflowStep) → Prop :=
| rewrite_keep : Rewrite j (λ s, s)
| rewrite_finish content inputPrompt :
    Rewrite j (λ s, finish (if j =? 0 then user_input else completed) content
                      (startProcessing inputPrompt s))
| rewrite_pending inputPrompt :
    Rewrite j (λ s, backToPending (startProcessing inputPrompt s)).

(** What can happen to a mounted component: the user's actions, whether or
    not the page currently shows the control for them, and the firing of
    the oldest timer. *)
Inductive Action : Type :=
| assign (roleId aiId : string)
| type_task (text : string)
| type_more (text : string)
| start
| add_more
| pass_to_next
| reset
| timer_fires.

Section Reachable.
Variable selectedOption : GaragePage.GarageOption.
Variable connections : gmap string AppContext.AIConnection.
Variable net : AIService.Network.

Definition perform (a : Action) (w : World) : World :=
  match a with
  | assign roleId aiId => handleRoleAssignment roleId aiId w
  | type_task text => setUserPrompt text w
  | type_more text => setAdditionalInput text w
  | start => startWorkflow selectedOption connections net w
  | add_more => handleAddMore selectedOption connections net w
  | pass_to_next => handlePassToNext selectedOption connections net w
  | reset => resetWorkflow selectedOption w
  | timer_fires => tick selectedOption connections net w
  end.

(** The world after a sequence of actions, the first of the list first. *)
Definition after (actions : list Action) (w : World) : World :=
  foldl (λ w a, perform a w) w actions.

End Reachable.

(** An upper bound on the timer firings still to come: a timer set for
    stage [i] of a list of [n] stages can be followed by at most [n - i]
    more. *)
Definition work (w : World) : nat :=
  sum_list (map (λ t, S (length (workflowSteps (closure t)) - finishedIndex t))
                (timers w)).

End SequencerSpec.

Module SequencerSample.
Import Js AIService GarageWorkflow.

(** Every role of the build template has a provider that answers. *)
Definition staffed : World :=
  setUserPrompt "build a todo app"
    (handleRoleAssignment "E" "openai"
       (handleRoleAssignment "D" "anthropic"
          (handleRoleAssignment "C" "openai"
             (handleRoleAssignment "B" "anthropic"
                (handleRoleAssignment "A" "openai" (mounted GaragePage.build)))))).

(** The run on [staffed] once stage 0 has answered and the user has passed
    it on: stage 1 has answered and the timer for stage 2 is pending. *)
Definition passed_on : World :=
  handlePassToNext GaragePage.build Sample.connections Sample.net
    (startWorkflow GaragePage.build Sample.connections Sample.net staffed).

(** Roles B and C have providers, role A has none. *)
Definition no_refiner : World :=
  setUserPrompt "build a todo app"
    (handleRoleAssignment "C" "groq"
       (handleRoleAssignment "B" "anthropic" (mounted GaragePage.build))).

(** Role A is given a provider for which no credential is stored. *)
Definition no_credential : World :=
  setUserPrompt "build a todo app"
    (handleRoleAssignment "B" "anthropic"
       (handleRoleAssignment "A" "google" (mounted GaragePage.build))).

(** [staffed] once started: stage 0 has answered. *)
Definition staffed_started : World :=
  startWorkflow GaragePage.build Sample.connections Sample.net staffed.

(** Stage 1 as it is in [passed_on]. *)
Definition stage_B_done : WorkflowStep :=
  {| id := "B"; role := "B"; roleName := "Backend Developer"; assignedAI := None;
     prompt := Sample.second_prompt; response := Some "backend";
     status := completed |}.

(** The timer pending in [passed_on]: set by stage 1 for stage 2. *)
Definition pending_timer : Timer :=
  {| closure := state staffed_started;
     finished := Sample.stage "B" "Backend Developer";
     answer := "backend";
     finishedIndex := 1 |}.

(** The prompt that timer renders for stage 2. *)
Definition third_prompt : string :=
  match createNextStepPrompt GaragePage.build (closure pending_timer)
          (finished pending_timer) (answer pending_timer) 2 with
  | Ok nextPrompt => nextPrompt
  | Throw _ => ""
  end.

(** The actions that lead from the mounted component to a run whose
    stage 1 has answered. *)
Definition session : list SequencerSpec.Action :=
  [SequencerSpec.assign "A" "openai"; SequencerSpec.assign "B" "anthropic";
   SequencerSpec.type_task "build a todo app"; SequencerSpec.start;
   SequencerSpec.pass_to_next; SequencerSpec.timer_fires].

End SequencerSample.

(** ** [src/contexts/AppContext.tsx]: the provider of theme and connections *)

Module AppProviders.
Import Js.

(** The provider's two state cells, the [localStorage] they are persisted
    to, the [data-theme] attribute of the document, the notifications
    shown, and whether a reload of the page has been scheduled. *)
Record Store : Type := {
  theme : string;
  connections : gmap string AppContext.AIConnection;
  localStorage : gmap string string;
  data_theme : string;
  toasts : list GarageWorkflow.Toast;
  reload_pending : bool
}.

(** [key.startsWith(prefix)] *)
Definition startsWith (key prefix : string) : bool := String.prefix prefix key.

(** [Object.keys(localStorage).forEach(key => { if (key.startsWith(prefix))
    localStorage.removeItem(key); })] *)
Definition remove_prefixed (prefix : string) (storage : gmap string string)
  : gmap string string :=
  foldl (λ storage key,
           if startsWith key prefix then delete key storage else storage)
        storage (map fst (map_to_list storage)).

Section Provider.
(** [JSON.stringify] and [JSON.parse] on the connections; [parse] gives
    [None] where [JSON.parse] throws. *)
Variable stringify : gmap string AppContext.AIConnection → string.
Variable parse : string → option (gmap string AppContext.AIConnection).

(** The effect on [theme]. *)
Definition persist_theme (s : Store) : Store :=
  {| theme := theme s; connections := connections s;
     localStorage := <["bunny-theme" := theme s]> (localStorage s);
     data_theme := theme s; toasts := toasts s;
     reload_pending := reload_pending s |}.

(** The effect on [connections]. *)
Definition persist_connections (s : Store) : Store :=
  {| theme := theme s; connections := connections s;
     localStorage := <["bunny-connections" := stringify (connections s)]> (localStorage s);
     data_theme := data_theme s; toasts := toasts s;
     reload_pending := reload_pending s |}.

(** The first render from what the browser has stored, followed by the two
    effects. There is no store when [JSON.parse] throws. *)
Definition mount (storage : gmap string string) : option Store :=
  let theme := or_else (storage !! "bunny-theme") "dark" in
  saved ← match truthy (storage !! "bunny-connections") with
          | Some saved => parse saved
          | None => Some ∅
          end;
  Some (persist_connections
          (persist_theme
             {| theme := theme; connections := saved; localStorage := storage;
                data_theme := ""; toasts := []; reload_pending := false |})).


Definition setConnections
    (f : gmap string AppContext.AIConnection → gmap string AppContext.AIConnection)
    (s : Store) : Store :=
  persist_connections
    {| theme := theme s; connections := f (connections s);
       localStorage := localStorage s; data_theme := data_theme s;
       toasts := toasts s; reload_pending := reload_pending s |}.

Definition setConnection (serviceId : string)
    (connection : AppContext.AIConnection) : Store → Store :=
  setConnections (λ prev, <[serviceId := connection]> prev).

Definition removeConnection (serviceId : string) : Store → Store :=
  setConnections (λ prev, delete serviceId prev).

Definition toast (t : GarageWorkflow.Toast) (s : Store) : Store :=
  {| theme := theme s; connections := connections s;
     localStorage := localStorage s; data_theme := data_theme s;
     toasts := toasts s ++ [t]; reload_pending := reload_pending s |}.

Definition setLocalStorage (storage : gmap string string) (s : Store) : Store :=
  {| theme := theme s; connections := connections s;
     localStorage := storage; data_theme := data_theme s;
     toasts := toasts s; reload_pending := reload_pending s |}.

Definition clearHistory (s : Store) : Store :=
  toast (GarageWorkflow.toast_success "Response history cleared!")
    (setLocalStorage (remove_prefixed "bunny-chat-history" (localStorage s)) s).

Definition resetAllSettings (s : Store) : Store :=
  let s := setLocalStorage (remove_prefixed "bunny-" (localStorage s)) s in
  let s := toast (GarageWorkflow.toast_success "All settings have been reset.") s in
  {| theme := theme s; connections := connections s;
     localStorage := localStorage s; data_theme := data_theme s;
     toasts := toasts s; reload_pending := true |}.

(** [window.location.reload()]: the page starts over from what is stored. *)
Definition reload (s : Store) : option Store := mount (localStorage s).

End Provider.

End AppProviders.

(** ** [SettingsPage]: connecting and disconnecting a service *)

Module SettingsPage.
Import Js.

Record Page : Type := {
  apiKeys : gmap string string;
  modelNames : gmap string string;
  loading : gmap string bool;
  store : AppProviders.Store;
  requests : list AIService.Request
}.

Definition setApiKeys (f : gmap string string → gmap string string) (p : Page) : Page :=
  {| apiKeys := f (apiKeys p); modelNames := modelNames p; loading := loading p;
     store := store p; requests := requests p |}.

Definition setModelNames (f : gmap string string → gmap string string) (p : Page) : Page :=
  {| apiKeys := apiKeys p; modelNames := f (modelNames p); loading := loading p;
     store := store p; requests := requests p |}.

Definition setLoading (f : gmap string bool → gmap string bool) (p : Page) : Page :=
  {| apiKeys := apiKeys p; modelNames := modelNames p; loading := f (loading p);
     store := store p; requests := requests p |}.

Definition withStore (f : AppProviders.Store → AppProviders.Store) (p : Page) : Page :=
  {| apiKeys := apiKeys p; modelNames := modelNames p; loading := loading p;
     store := f (store p); requests := requests p |}.

Definition setRequests (log : list AIService.Request) (p : Page) : Page :=
  {| apiKeys := apiKeys p; modelNames := modelNames p; loading := loading p;
     store := store p; requests := log |}.

Section Component.
Variable net : AIService.Network.
Variable stringify : gmap string AppContext.AIConnection → string.

Definition handleApiKeyChange (serviceId key : string) : Page → Page :=
  setApiKeys (λ prev, <[serviceId := key]> prev).

Definition handleModelNameChange (serviceId name : string) : Page → Page :=
  setModelNames (λ prev, <[serviceId := name]> prev).

(** [AI_SERVICES.find(s => s.id === serviceId)?.name || 'Service'] *)
Definition serviceName (serviceId : string) : string :=
  or_else (AIServiceCatalog.name <$> AIServiceCatalog.find_service serviceId) "Service".

(** [handleConnect]; [triggerHaptic] only makes the device vibrate. *)
Definition handleConnect (serviceId : string) (p : Page) : Page :=
  match truthy (apiKeys p !! serviceId) with
  | None =>
      withStore (AppProviders.toast (GarageWorkflow.toast_error "Please enter an API key.")) p
  | Some apiKey =>
      let model := or_opt (modelNames p !! serviceId)
                          (AIService.DEFAULT_MODELS !! serviceId) in
      let p := setLoading (λ prev, <[serviceId := true]> prev) p in
      let '(isConnected, log) :=
        AIService.testConnection net serviceId apiKey model (requests p) in
      let p := setRequests log p in
      let p := setLoading (λ prev, <[serviceId := false]> prev) p in
      if isConnected then
        let p := withStore
                   (AppProviders.setConnection stringify serviceId
                      {| AppContext.id := serviceId;
                         AppContext.status := AppContext.connected;
                         AppContext.apiKey := Some apiKey;
                         AppContext.email := None;
                         AppContext.model := model |}) p in
        withStore (AppProviders.toast
                     (GarageWorkflow.toast_success (serviceName serviceId +:+ " connected!"))) p
      else
        let p := withStore
                   (AppProviders.setConnection stringify serviceId
                      {| AppContext.id := serviceId;
                         AppContext.status := AppContext.error;
                         AppContext.apiKey := None;
                         AppContext.email := None;
                         AppContext.model := None |}) p in
        withStore (AppProviders.toast
                     (GarageWorkflow.toast_error
                        ("Failed to connect to " +:+ serviceName serviceId
                         +:+ ". Check API key and model name."))) p
  end.

Definition handleDisconnect (serviceId : string) (p : Page) : Page :=
  let p := withStore (AppProviders.removeConnection stringify serviceId) p in
  let p := setApiKeys (λ prev, <[serviceId := ""]> prev) p in
  let p := setModelNames (λ prev, <[serviceId := ""]> prev) p in
  withStore (AppProviders.toast
               (GarageWorkflow.toast_success (serviceName serviceId +:+ " disconnected."))) p.

End Component.

End SettingsPage.

(** ** [SettingsModal]: testing a key, disconnecting, clearing *)

Module SettingsModal.
Import Js.

Record Modal : Type := {
  activeTab : string;
  apiKeys : gmap string string;
  testingConnection : option string;
  store : AppProviders.Store;
  requests : list AIService.Request
}.

Definition setApiKeys (f : gmap string string → gmap string string) (m : Modal) : Modal :=
  {| activeTab := activeTab m; apiKeys := f (apiKeys m);
     testingConnection := testingConnection m; store := store m;
     requests := requests m |}.

Definition setTestingConnection (v : option string) (m : Modal) : Modal :=
  {| activeTab := activeTab m; apiKeys := apiKeys m;
     testingConnection := v; store := store m; requests := requests m |}.

Definition withStore (f : AppProviders.Store → AppProviders.Store) (m : Modal) : Modal :=
  {| activeTab := activeTab m; apiKeys := apiKeys m;
     testingConnection := testingConnection m; store := f (store m);
     requests := requests m |}.

Definition setRequests (log : list AIService.Request) (m : Modal) : Modal :=
  {| activeTab := activeTab m; apiKeys := apiKeys m;
     testingConnection := testingConnection m; store := store m;
     requests := log |}.

Section Component.
Variable net : AIService.Network.
Variable stringify : gmap string AppContext.AIConnection → string.

Definition handleApiKeyChange (serviceId apiKey : string) : Modal → Modal :=
  setApiKeys (λ prev, <[serviceId := apiKey]> prev).

(** [`${AI_SERVICES.find(s => s.id === serviceId)?.name}`] *)
Definition shownName (serviceId : string) : string :=
  show (AIServiceCatalog.name <$> AIServiceCatalog.find_service serviceId).

(** [testConnection]: the manager is called without a model. *)
Definition testConnection (serviceId apiKey : string) (m : Modal) : Modal :=
  if String.eqb (trim apiKey) "" then
    withStore (AppProviders.toast
                 (GarageWorkflow.toast_error "Please enter an API key first")) m
  else
    let m := setTestingConnection (Some serviceId) m in
    let '(isValid, log) :=
      AIService.testConnection net serviceId apiKey None (requests m) in
    let m := setRequests log m in
    let m :=
      if isValid then
        let m := withStore
                   (AppProviders.setConnection stringify serviceId
                      {| AppContext.id := serviceId;
                         AppContext.status := AppContext.connected;
                         AppContext.apiKey := Some apiKey;
                         AppContext.email := None;
                         AppContext.model := None |}) m in
        let m := withStore
                   (AppProviders.toast
                      (GarageWorkflow.toast_success
                         ("Successfully connected to " +:+ shownName serviceId +:+ "!"))) m in
        setApiKeys (λ prev, <[serviceId := ""]> prev) m
      else
        (* throw new Error('Connection test failed'), caught just below *)
        let error := new_Error "Connection test failed" in
        let m := withStore
                   (AppProviders.toast
                      (GarageWorkflow.toast_error
                         ("Connection failed: " +:+ message error))) m in
        withStore
          (AppProviders.setConnection stringify serviceId
             {| AppContext.id := serviceId;
                AppContext.status := AppContext.error;
                AppContext.apiKey := None;
                AppContext.email := None;
                AppContext.model := None |}) m in
    setTestingConnection None m.

Definition disconnect (serviceId : string) (m : Modal) : Modal :=
  let m := withStore (AppProviders.removeConnection stringify serviceId) m in
  withStore (AppProviders.toast
               (GarageWorkflow.toast_success
                  ("Disconnected from " +:+ shownName serviceId))) m.

(** [handleClearHistory] and [handleReset]; [confirmed] is the answer to
    [window.confirm]. *)
Definition handleClearHistory (confirmed : bool) (m : Modal) : Modal :=
  if confirmed then withStore AppProviders.clearHistory m else m.

Definition handleReset (confirmed : bool) (m : Modal) : Modal :=
  if confirmed then withStore AppProviders.resetAllSettings m else m.

End Component.

End SettingsModal.

Module SettingsSample.
Import Js.

(** A serialisation of the connections for the concrete inputs: just the
    connected ids are of interest there, so the text is left empty. *)
Definition stringify (c : gmap string AppContext.AIConnection) : string := "{}".
Definition parse (text : string) : option (gmap string AppContext.AIConnection) :=
  Some ∅.

(** The store of [Sample.connections], in the dark theme, with one
    conversation in the history and a key that is not the application's. *)
Definition store : AppProviders.Store :=
  {| AppProviders.theme := "dark";
     AppProviders.connections := Sample.connections;
     AppProviders.localStorage :=
       <["bunny-theme" := "dark"]>
       (<["bunny-connections" := "{}"]>
       (<["bunny-chat-history-1" := "[]"]>
       (<["other-app" := "1"]> ∅)));
     AppProviders.data_theme := "dark";
     AppProviders.toasts := [];
     AppProviders.reload_pending := false |}.

(** The settings page with a key typed for Groq, a key and a model typed
    for OpenAI, and nothing typed for Anthropic. *)
Definition page : SettingsPage.Page :=
  {| SettingsPage.apiKeys := <["groq" := "gsk-1"]> (<["openai" := "sk-1"]> ∅);
     SettingsPage.modelNames := <["openai" := "gpt-4o"]> ∅;
     SettingsPage.loading := ∅;
     SettingsPage.store := store;
     SettingsPage.requests := [] |}.

Definition modal : SettingsModal.Modal :=
  {| SettingsModal.activeTab := "ai_services";
     SettingsModal.apiKeys := ∅;
     SettingsModal.testingConnection := None;
     SettingsModal.store := store;
     SettingsModal.requests := [] |}.

End SettingsSample.

(** ** [MainPage]: one prompt sent to the selected services *)

Module MainPage.
Import Js.

(** A result cell. The fields that [{...prev[service.id], ...}] leaves
    undefined when no cell was there are optional; [timestamp] (a [Date])
    is left out. *)
Record ChatResponse : Type := {
  id : option string;
  content : string;
  service : option string;
  loading : bool;
  error : option string;
  tokens : option number;
  serviceName : option string;
  serviceIcon : option string
}.

Record Page : Type := {
  selectedServices : list string;
  prompt : string;
  responses : gmap string ChatResponse;
  isSubmitting : bool;
  selectedImage : option AIService.File;
  imagePreview : option string;
  toasts : list GarageWorkflow.Toast
}.

Definition setSelectedServices (f : list string → list string) (p : Page) : Page :=
  {| selectedServices := f (selectedServices p); prompt := prompt p;
     responses := responses p; isSubmitting := isSubmitting p;
     selectedImage := selectedImage p; imagePreview := imagePreview p;
     toasts := toasts p |}.

Definition setPrompt (text : string) (p : Page) : Page :=
  {| selectedServices := selectedServices p; prompt := text;
     responses := responses p; isSubmitting := isSubmitting p;
     selectedImage := selectedImage p; imagePreview := imagePreview p;
     toasts := toasts p |}.

Definition setResponses (f : gmap string ChatResponse → gmap string ChatResponse)
    (p : Page) : Page :=
  {| selectedServices := selectedServices p; prompt := prompt p;
     responses := f (responses p); isSubmitting := isSubmitting p;
     selectedImage := selectedImage p; imagePreview := imagePreview p;
     toasts := toasts p |}.

Definition setIsSubmitting (b : bool) (p : Page) : Page :=
  {| selectedServices := selectedServices p; prompt := prompt p;
     responses := responses p; isSubmitting := b;
     selectedImage := selectedImage p; imagePreview := imagePreview p;
     toasts := toasts p |}.

Definition setSelectedImage (f : option AIService.File) (p : Page) : Page :=
  {| selectedServices := selectedServices p; prompt := prompt p;
     responses := responses p; isSubmitting := isSubmitting p;
     selectedImage := f; imagePreview := imagePreview p;
     toasts := toasts p |}.

Definition setImagePreview (v : option string) (p : Page) : Page :=
  {| selectedServices := selectedServices p; prompt := prompt p;
     responses := responses p; isSubmitting := isSubmitting p;
     selectedImage := selectedImage p; imagePreview := v;
     toasts := toasts p |}.

Definition toast (t : GarageWorkflow.Toast) (p : Page) : Page :=
  {| selectedServices := selectedServices p; prompt := prompt p;
     responses := responses p; isSubmitting := isSubmitting p;
     selectedImage := selectedImage p; imagePreview := imagePreview p;
     toasts := toasts p ++ [t] |}.

(** [!value] on a value that is an object or [null]. *)
Definition absent {A} (value : option A) : bool :=
  match value with
  | Some _ => false
  | None => true
  end.

(** [prev.includes(serviceId)] *)
Definition includes (serviceId : string) (l : list string) : bool :=
  existsb (String.eqb serviceId) l.

(** [{...prev[service.id]}]: the fields of the cell, all undefined when
    there is none ([content] and [loading] are always overwritten). *)
Definition spread (cell : option ChatResponse) : ChatResponse :=
  default {| id := None; content := ""; service := None; loading := false;
             error := None; tokens := None; serviceName := None;
             serviceIcon := None |} cell.

Section Component.
Variable connections : gmap string AppContext.AIConnection.

(** What [await aiServiceManager.callAIService(serviceId, prompt, apiKey,
    model, image)] gives: the calls of one submission run concurrently, so
    their results are taken as given. *)
Variable answers :
  string → string → string → option string → option AIService.File →
  Result AIService.AIResponse.

(** [`${Date.now()}`] at the time of the submission. *)
Variable now : string.

(** [connections[serviceId]?.status === 'connected'] *)
Definition isConnected (serviceId : string) : bool :=
  match connections !! serviceId with
  | Some c => match AppContext.status c with
              | AppContext.connected => true
              | _ => false
              end
  | None => false
  end.

(** The effect on [connections]. *)
Definition selectConnected : Page → Page :=
  setSelectedServices (λ _,
    map AIServiceCatalog.id
        (List.filter (λ service, isConnected (AIServiceCatalog.id service))
                     AIServiceCatalog.AI_SERVICES)).

Definition handleServiceToggle (serviceId : string) (p : Page) : Page :=
  if negb (isConnected serviceId) then
    toast (GarageWorkflow.toast_error
             (show (AIServiceCatalog.name <$> AIServiceCatalog.find_service serviceId)
              +:+ " is not connected.")) p
  else
    setSelectedServices
      (λ prev, if includes serviceId prev
               then List.filter (λ id, negb (String.eqb id serviceId)) prev
               else prev ++ [serviceId]) p.

(** [handleFileChange]: [file] is [event.target.files?.[0]], and [preview]
    what the [FileReader] ends with. *)
Definition handleFileChange (file : option AIService.File)
    (preview : option string) (p : Page) : Page :=
  match file with
  | Some f =>
      if String.prefix "image/" (AIService.type f) then
        setImagePreview preview (setSelectedImage (Some f) p)
      else toast (GarageWorkflow.toast_error "Please select a valid image file.") p
  | None => p
  end.

(** [removeImage]; emptying the value of the file input is left out. *)
Definition removeImage (p : Page) : Page :=
  setImagePreview None (setSelectedImage None p).

(** [AI_SERVICES.filter(s => selectedServices.includes(s.id))] *)
Definition servicesToQuery (p : Page) : list AIServiceCatalog.AIService :=
  List.filter (λ s, includes (AIServiceCatalog.id s) (selectedServices p))
              AIServiceCatalog.AI_SERVICES.

Definition initialResponse (service : AIServiceCatalog.AIService) : ChatResponse :=
  {| id := Some (AIServiceCatalog.id service +:+ "-" +:+ now);
     content := "";
     service := Some (AIServiceCatalog.id service);
     loading := true;
     error := None;
     tokens := None;
     serviceName := Some (AIServiceCatalog.name service);
     serviceIcon := Some (AIServiceCatalog.icon service) |}.

Definition initialResponses (services : list AIServiceCatalog.AIService)
  : gmap string ChatResponse :=
  foldl (λ acc service, <[AIServiceCatalog.id service := initialResponse service]> acc)
        ∅ services.

(** The [try] block up to and including the [await]. *)
Definition query (currentPrompt : string) (currentImage : option AIService.File)
    (service : AIServiceCatalog.AIService) : Result AIService.AIResponse :=
  let connection := connections !! AIServiceCatalog.id service in
  match truthy (connection ≫= AppContext.apiKey) with
  | None => Throw (new_Error "API key not found")
  | Some apiKey =>
      answers (AIServiceCatalog.id service) currentPrompt apiKey
              (connection ≫= AppContext.model) currentImage
  end.

(** [{...cell, content: response.content, loading: false, tokens:
    response.tokens}] *)
Definition answered (response : AIService.AIResponse) (cell : ChatResponse)
  : ChatResponse :=
  {| id := id cell; content := AIService.content response;
     service := service cell; loading := false; error := error cell;
     tokens := AIService.tokens response; serviceName := serviceName cell;
     serviceIcon := serviceIcon cell |}.

(** [{...cell, content: '', loading: false, error: error.message}] *)
Definition failed (e : Error) (cell : ChatResponse) : ChatResponse :=
  {| id := id cell; content := ""; service := service cell; loading := false;
     error := Some (message e); tokens := tokens cell;
     serviceName := serviceName cell; serviceIcon := serviceIcon cell |}.

(** What follows the [await] for one service: the rest of the [try] block
    or the [catch] block. The vibration is left out. *)
Definition settle (service : AIServiceCatalog.AIService)
    (outcome : Result AIService.AIResponse) (p : Page) : Page :=
  let serviceId := AIServiceCatalog.id service in
  match outcome with
  | Ok response =>
      setResponses (λ prev, <[serviceId := answered response (spread (prev !! serviceId))]> prev) p
  | Throw e =>
      toast (GarageWorkflow.toast_error
               (AIServiceCatalog.name service +:+ ": " +:+ message e))
        (setResponses (λ prev, <[serviceId := failed e (spread (prev !! serviceId))]> prev) p)
  end.

(** [handleSubmit]. The calls settle in the order [order], which lists the
    services queried; then [Promise.allSettled] resolves. *)
Definition handleSubmit (order : list AIServiceCatalog.AIService) (p : Page) : Page :=
  if length (selectedServices p) =? 0 then
    toast (GarageWorkflow.toast_error "Please select at least one AI service to prompt!") p
  else if (String.eqb (trim (prompt p)) "" && absent (selectedImage p))
          || isSubmitting p then p
  else
    let currentPrompt := prompt p in
    let currentImage := selectedImage p in
    let p1 := setIsSubmitting true p in
    let p1 := setPrompt "" p1 in
    let p1 := removeImage p1 in
    let p1 := setResponses (λ _, initialResponses (servicesToQuery p)) p1 in
    let p1 := foldl (λ acc service,
                       settle service (query currentPrompt currentImage service) acc)
                    p1 order in
    setIsSubmitting false p1.

End Component.

End MainPage.

Module MainPageSpec.
Import Js MainPage.

(** The cell of a service once its call has settled with [outcome]. *)
Definition settled (outcome : Result AIService.AIResponse) (cell : ChatResponse)
  : ChatResponse :=
  match outcome with
  | Ok response => answered response cell
  | Throw e => failed e cell
  end.

(** What is notified when the call of [service] settles with [outcome]. *)
Definition notified (service : AIServiceCatalog.AIService)
    (outcome : Result AIService.AIResponse) : list GarageWorkflow.Toast :=
  match outcome with
  | Ok _ => []
  | Throw e =>
      [GarageWorkflow.toast_error
         (AIServiceCatalog.name service +:+ ": " +:+ message e)]
  end.

(** Settling the calls of [order] one after the other, as [handleSubmit]
    does between the submission and [Promise.allSettled]. *)
Definition settle_all (connections : gmap string AppContext.AIConnection)
    (answers : string → string → string → option string →
               option AIService.File → Result AIService.AIResponse)
    (currentPrompt : string) (currentImage : option AIService.File)
    (order : list AIServiceCatalog.AIService) (p : Page) : Page :=
  foldl (λ acc service,
           settle service (query connections answers currentPrompt currentImage service) acc)
        p order.

End MainPageSpec.

Module MainPageSample.
Import Js MainPage.

(** The results of the adapter on [Sample.net], each call being the first
    request issued. *)
Definition answers (serviceId prompt apiKey : string) (model : option string)
    (image : option AIService.File) : Result AIService.AIResponse :=
  (AIService.callAIService Sample.net serviceId prompt apiKey model image []).1.

(** OpenAI, Anthropic and Groq are selected and a question is typed. *)
Definition page : Page :=
  {| selectedServices := ["openai"; "anthropic"; "groq"];
     prompt := "What is a monad?";
     responses := ∅;
     isSubmitting := false;
     selectedImage := None;
     imagePreview := None;
     toasts := [] |}.

Definition openai : AIServiceCatalog.AIService :=
  {| AIServiceCatalog.id := "openai"; AIServiceCatalog.name := "ChatGPT";
     AIServiceCatalog.provider := "OpenAI"; AIServiceCatalog.icon := "FiCpu";
     AIServiceCatalog.color := "#00A67E";
     AIServiceCatalog.description := "OpenAI's ChatGPT with GPT-4 access";
     AIServiceCatalog.loginMethods := ["api_key"] |}.

Definition anthropic : AIServiceCatalog.AIService :=
  {| AIServiceCatalog.id := "anthropic"; AIServiceCatalog.name := "Claude";
     AIServiceCatalog.provider := "Anthropic";
     AIServiceCatalog.icon := "FiMessageSquare";
     AIServiceCatalog.color := "#CC785C";
     AIServiceCatalog.description := "Anthropic's Claude with advanced reasoning";
     AIServiceCatalog.loginMethods := ["api_key"] |}.

Definition groq : AIServiceCatalog.AIService :=
  {| AIServiceCatalog.id := "groq"; AIServiceCatalog.name := "Groq";
     AIServiceCatalog.provider := "Groq"; AIServiceCatalog.icon := "FiFastForward";
     AIServiceCatalog.color := "#F55036";
     AIServiceCatalog.description := "Ultra-fast inference with Groq LPU";
     AIServiceCatalog.loginMethods := ["api_key"] |}.

(** The time of the submission. *)
Definition now : string := "1700000000000".

(** Nothing is selected; and nothing but blanks is typed. *)
Definition none_selected : Page :=
  {| selectedServices := []; prompt := "What is a monad?"; responses := ∅;
     isSubmitting := false; selectedImage := None; imagePreview := None;
     toasts := [] |}.

Definition blank : Page :=
  {| selectedServices := ["openai"]; prompt := "   "; responses := ∅;
     isSubmitting := false; selectedImage := None; imagePreview := None;
     toasts := [] |}.

End MainPageSample.

(** ** Properties of the provider adapter *)

Section AdapterFacts.
Import Js AIService Spec.
Variable net : Network.

Lemma or_else_nonempty v d : d ≠ "" → or_else v d ≠ "".
Proof.
  intros Hd. destruct v as [s|]; simpl; [|done].
  destruct (String.eqb_spec s ""); done.
Qed.

Lemma or_else_text v d t : v = Some t → t ≠ "" → or_else v d = t.
Proof.
  intros -> Ht. simpl. destruct (String.eqb_spec t ""); done.
Qed.

Lemma or_else_fallback v d : truthy v = None → or_else v d = d.
Proof.
  destruct v as [s|]; simpl; [|done].
  destruct (String.eqb_spec s ""); done.
Qed.

(** [x || 'No response'] *)
Lemma or_else_placeholder v :
  or_else v "No response" ≠ ""
  ∧ (∀ t, v = Some t → t ≠ "" → or_else v "No response" = t)
  ∧ (truthy v = None → or_else v "No response" = "No response").
Proof.
  split; [by apply or_else_nonempty|].
  split; [intros t; apply or_else_text | apply or_else_fallback].
Qed.

Lemma truthy_Some v s : truthy v = Some s ↔ v = Some s ∧ s ≠ "".
Proof.
  destruct v as [t|]; simpl.
  - destruct (String.eqb_spec t "") as [->|Hne]; split.
    + done.
    + by intros [[= <-] ?].
    + by intros [= <-].
    + by intros [[= <-] _].
  - split; [done | by intros [? _]].
Qed.

Lemma callOpenAI_resolved prompt apiKey model log data l :
  openai_api net (length log) (openai_request prompt apiKey model) = resolved data →
  OpenAI.choices data = Some l →
  callOpenAI net prompt apiKey model log =
    (Ok {| content := or_else (openai_text data) "No response";
           service := "openai";
           tokens := OpenAI.usage data ≫= OpenAI.total_tokens;
           model := OpenAI.model data |},
     log ++ [openai_request prompt apiKey model]).
Proof.
  intros Hnet Hl.
  unfold callOpenAI, try_catch, bind, axios_post, openai_text.
  rewrite Hnet, Hl. simpl. by destruct (l !! 0) as [[[m|]]|].
Qed.

Lemma callGroq_resolved prompt apiKey model log data l :
  groq_api net (length log) (groq_request prompt apiKey model) = resolved data →
  OpenAI.choices data = Some l →
  callGroq net prompt apiKey model log =
    (Ok {| content := or_else (openai_text data) "No response";
           service := "groq";
           tokens := OpenAI.usage data ≫= OpenAI.total_tokens;
           model := OpenAI.model data |},
     log ++ [groq_request prompt apiKey model]).
Proof.
  intros Hnet Hl.
  unfold callGroq, try_catch, bind, axios_post, openai_text.
  rewrite Hnet, Hl. simpl. by destruct (l !! 0) as [[[m|]]|].
Qed.

Lemma callAnthropic_resolved prompt apiKey model log data l :
  anthropic_api net (length log) (anthropic_request prompt apiKey model) = resolved data →
  Anthropic.content data = Some l →
  callAnthropic net prompt apiKey model log =
    (Ok {| content := or_else (anthropic_text data) "No response";
           service := "anthropic";
           tokens := Some (add (Anthropic.usage data ≫= Anthropic.input_tokens)
                               (Anthropic.usage data ≫= Anthropic.output_tokens));
           model := Anthropic.model data |},
     log ++ [anthropic_request prompt apiKey model]).
Proof.
  intros Hnet Hl.
  unfold callAnthropic, try_catch, bind, axios_post, anthropic_text.
  rewrite Hnet, Hl. simpl. by destruct (l !! 0) as [b|].
Qed.

Lemma callGoogle_resolved prompt apiKey model image log data parts :
  google_parts prompt image = Some parts →
  google_api net (length log) (google_request parts apiKey model) = resolved data →
  callGoogle net prompt apiKey model image log =
    (Ok {| content := or_else (Google.text_of data) "No response";
           service := "google";
           tokens := Google.usageMetadata data ≫= Google.totalTokenCount;
           model := model |},
     log ++ [google_request parts apiKey model]).
Proof.
  intros Hparts Hnet.
  unfold callGoogle, try_catch, bind, axios_post.
  destruct image as [f|]; simpl in Hparts.
  - destruct (base64 f) as [b|]; simpl in Hparts; [|done].
    injection Hparts as <-. unfold ret at 1. rewrite Hnet. reflexivity.
  - injection Hparts as <-. unfold ret at 1. rewrite Hnet. reflexivity.
Qed.

(** When usage is reported with both counts, the Anthropic adapter returns
    their sum. *)
Lemma callAnthropic_tokens_sum prompt apiKey model log data l i o :
  anthropic_api net (length log) (anthropic_request prompt apiKey model) = resolved data →
  Anthropic.content data = Some l →
  Anthropic.usage data = Some {| Anthropic.input_tokens := Some (Num i);
                                 Anthropic.output_tokens := Some (Num o) |} →
  ∃ r log', callAnthropic net prompt apiKey model log = (Ok r, log')
            ∧ tokens r = Some (Num (i + o)).
Proof.
  intros Hnet Hl Hu. eexists _, _.
  split; [by eapply callAnthropic_resolved|]. simpl. by rewrite Hu.
Qed.

(** When usage is not reported, the Anthropic adapter returns NaN, which
    is a present value of the token field. *)
Lemma callAnthropic_tokens_missing prompt apiKey model log data l :
  anthropic_api net (length log) (anthropic_request prompt apiKey model) = resolved data →
  Anthropic.content data = Some l →
  Anthropic.usage data = None →
  ∃ r log', callAnthropic net prompt apiKey model log = (Ok r, log')
            ∧ tokens r = Some NaN.
Proof.
  intros Hnet Hl Hu. eexists _, _.
  split; [by eapply callAnthropic_resolved|]. simpl. by rewrite Hu.
Qed.

(** The sibling adapters leave the token field absent in that case. *)
Lemma callOpenAI_tokens_missing prompt apiKey model log data l :
  openai_api net (length log) (openai_request prompt apiKey model) = resolved data →
  OpenAI.choices data = Some l →
  OpenAI.usage data = None →
  ∃ r log', callOpenAI net prompt apiKey model log = (Ok r, log')
            ∧ tokens r = None.
Proof.
  intros Hnet Hl Hu. eexists _, _.
  split; [by eapply callOpenAI_resolved|]. simpl. by rewrite Hu.
Qed.

(** The dispatch of [callAIService] on the four supported identifiers. *)
Lemma callAIService_openai prompt apiKey model image :
  callAIService net "openai" prompt apiKey model image
  = callOpenAI net prompt apiKey (or_opt model (DEFAULT_MODELS !! "openai")).
Proof. reflexivity. Qed.

Lemma callAIService_anthropic prompt apiKey model image :
  callAIService net "anthropic" prompt apiKey model image
  = callAnthropic net prompt apiKey (or_opt model (DEFAULT_MODELS !! "anthropic")).
Proof. reflexivity. Qed.

Lemma callAIService_google prompt apiKey model image :
  callAIService net "google" prompt apiKey model image
  = callGoogle net prompt apiKey (or_opt model (DEFAULT_MODELS !! "google")) image.
Proof. reflexivity. Qed.

Lemma callAIService_groq prompt apiKey model image :
  callAIService net "groq" prompt apiKey model image
  = callGroq net prompt apiKey (or_opt model (DEFAULT_MODELS !! "groq")).
Proof. reflexivity. Qed.

(** Every adapter issues at most one request, and that request carries
    the prompt it was given. *)
Lemma callAIService_requests serviceId prompt apiKey model image log res log' :
  callAIService net serviceId prompt apiKey model image log = (res, log') →
  log' = log ∨ ∃ req, log' = log ++ [req] ∧ prompt_of req = Some prompt.
Proof.
  unfold callAIService.
  destruct (String.eqb serviceId "openai");
    [|destruct (String.eqb serviceId "anthropic");
      [|destruct (String.eqb serviceId "google");
        [|destruct (String.eqb serviceId "groq")]]].
  - unfold callOpenAI, try_catch, bind, axios_post, index0.
    destruct (openai_api _ _ _) as [d|e]; [destruct (OpenAI.choices d)|];
      unfold ret, throw; intros [= <- <-]; right; by eexists.
  - unfold callAnthropic, try_catch, bind, axios_post, index0.
    destruct (anthropic_api _ _ _) as [d|e]; [destruct (Anthropic.content d)|];
      unfold ret, throw; intros [= <- <-]; right; by eexists.
  - unfold callGoogle, try_catch, bind, axios_post.
    destruct image as [f|]; [destruct (base64 f)|]; unfold ret at 1, throw at 1;
      try (intros [= <- <-]; by left);
      destruct (google_api _ _ _) as [d|e];
      unfold ret, throw; intros [= <- <-]; right; by eexists.
  - unfold callGroq, try_catch, bind, axios_post, index0.
    destruct (groq_api _ _ _) as [d|e]; [destruct (OpenAI.choices d)|];
      unfold ret, throw; intros [= <- <-]; right; by eexists.
  - unfold throw. intros [= <- <-]. by left.
Qed.

End AdapterFacts.

(** C9. For a well-formed answer of any of the four providers, the content
    the adapter returns is never the empty string: it is the payload's text
    when the payload holds a non-empty text, and the literal placeholder
    "No response" when it holds none; in both cases the adapter returns
    and does not throw. *)
Theorem adapter_content_never_empty
    (net : AIService.Network) (log : list AIService.Request)
    (prompt apiKey : string) (model : option string)
    (image : option AIService.File) (serviceId : string) (text : option string) :
  Spec.Answered net log prompt apiKey model image serviceId text →
  ∃ r log',
    AIService.callAIService net serviceId prompt apiKey model image log = (Js.Ok r, log')
    ∧ AIService.content r ≠ ""
    ∧ (∀ t, text = Some t → t ≠ "" → AIService.content r = t)
    ∧ (Js.truthy text = None → AIService.content r = "No response").
Proof.
  intros Hans.
  destruct Hans as [data Hnet [l Hl]|data Hnet [l Hl]|data parts Hparts Hnet|data Hnet [l Hl]];
    [rewrite callAIService_openai | rewrite callAIService_anthropic
    | rewrite callAIService_google | rewrite callAIService_groq].
  - erewrite callOpenAI_resolved by eassumption. eexists _, _.
    split; [reflexivity|]. apply or_else_placeholder.
  - erewrite callAnthropic_resolved by eassumption. eexists _, _.
    split; [reflexivity|]. apply or_else_placeholder.
  - erewrite callGoogle_resolved by eassumption. eexists _, _.
    split; [reflexivity|]. apply or_else_placeholder.
  - erewrite callGroq_resolved by eassumption. eexists _, _.
    split; [reflexivity|]. apply or_else_placeholder.
Qed.

Lemma adapter_content_never_empty_witness :
  ∃ r log',
    AIService.callAIService Sample.net "google" "Hello" "key" None None []
      = (Js.Ok r, log')
    ∧ AIService.content r ≠ ""
    ∧ (∀ t, None = Some t → t ≠ "" → AIService.content r = t)
    ∧ (Js.truthy None = None → AIService.content r = "No response").
Proof.
  apply (adapter_content_never_empty Sample.net [] "Hello" "key" None None
           "google" (AIService.Google.text_of Sample.google_data)).
  apply (Spec.answered_google Sample.net [] "Hello" "key" None None
           Sample.google_data [AIService.text_part "Hello"]); reflexivity.
Defined.

(** The same on an OpenAI answer that does hold text: the text is returned
    as it is. *)
Example adapter_content_text :
  ∃ r log',
    AIService.callAIService Sample.net "openai" "Hello" "key" None None []
      = (Js.Ok r, log')
    ∧ AIService.content r = "refined".
Proof. eexists _, _. split; reflexivity. Qed.

(** C8, at an Anthropic answer that reports no usage: the adapter returns
    with the token field present and holding NaN, where the specification
    has the field absent. *)
Theorem callAnthropic_tokens_NaN_without_usage :
  ∃ r log',
    AIService.callAnthropic Sample.net_no_usage "Hello" "key"
      (Some "claude-3-haiku-20240307") [] = (Js.Ok r, log')
    ∧ AIService.content r = "hi"
    ∧ AIService.tokens r = Some Js.NaN
    ∧ AIService.tokens r ≠ None.
Proof. eexists _, _. repeat split; [reflexivity..|discriminate]. Qed.

(** With usage reported, the same adapter returns the sum of the counts. *)
Example callAnthropic_tokens_reported :
  ∃ r log',
    AIService.callAnthropic Sample.net "Hello" "key" None [] = (Js.Ok r, log')
    ∧ AIService.tokens r = Some (Js.Num 30).
Proof. eexists _, _. split; reflexivity. Qed.

(** C10. For a service identifier other than the four supported ones,
    [callAIService] throws an error whose message names the identifier, for
    any prompt, credential, model and image, and issues no request. *)
Theorem callAIService_unsupported
    (net : AIService.Network) (serviceId prompt apiKey : string)
    (model : option string) (image : option AIService.File)
    (log : list AIService.Request) :
  ¬ Spec.supported serviceId →
  AIService.callAIService net serviceId prompt apiKey model image log
  = (Js.Throw (Js.new_Error ("Unsupported AI service: " +:+ serviceId)), log).
Proof.
  intros Hno. unfold AIService.callAIService, Spec.supported in *.
  destruct (String.eqb_spec serviceId "openai") as [->|_]; [set_solver|].
  destruct (String.eqb_spec serviceId "anthropic") as [->|_]; [set_solver|].
  destruct (String.eqb_spec serviceId "google") as [->|_]; [set_solver|].
  destruct (String.eqb_spec serviceId "groq") as [->|_]; [set_solver|].
  reflexivity.
Qed.

Lemma callAIService_unsupported_witness :
  ¬ Spec.supported "mistral"
  ∧ AIService.callAIService Sample.net "mistral" "Hello" "key" None None []
    = (Js.Throw (Js.new_Error "Unsupported AI service: mistral"), []).
Proof.
  assert (H : ¬ Spec.supported "mistral").
  { unfold Spec.supported. rewrite !elem_of_cons, elem_of_nil.
    intros [Heq|[Heq|[Heq|[Heq|[]]]]]; discriminate Heq. }
  split; [exact H|].
  exact (callAIService_unsupported Sample.net "mistral" "Hello" "key" None None [] H).
Defined.

(** ** Properties of the stage sequencer *)

Section WorkflowFacts.
Import Js AIService GarageWorkflow Spec.
Variable selectedOption : GaragePage.GarageOption.
Variable connections : gmap string AppContext.AIConnection.
Variable net : Network.

Local Abbreviation processStep := (processStep selectedOption connections net).
Local Abbreviation Runs := (Runs selectedOption connections net).
Local Abbreviation run := (run selectedOption connections net).
Local Abbreviation tick := (tick selectedOption connections net).

(** *** Updating one stage of the list *)

Lemma mapAt_lookup i j f (l : list WorkflowStep) :
  mapAt i f l !! j = (λ s, if decide (j = i) then f s else s) <$> l !! j.
Proof. unfold mapAt. by rewrite list_lookup_imap. Qed.

Lemma mapAt_lookup_eq i f (l : list WorkflowStep) s :
  l !! i = Some s → mapAt i f l !! i = Some (f s).
Proof. intros H. rewrite mapAt_lookup, H. simpl. by rewrite decide_True. Qed.

Lemma mapAt_lookup_ne i j f (l : list WorkflowStep) :
  j ≠ i → mapAt i f l !! j = l !! j.
Proof.
  intros H. rewrite mapAt_lookup. destruct (l !! j); simpl; [|done].
  by rewrite decide_False.
Qed.

Lemma mapAt_id i (l : list WorkflowStep) : mapAt i (λ s, s) l = l.
Proof.
  apply list_eq. intros j. rewrite mapAt_lookup.
  destruct (l !! j); simpl; [|done]. by case_decide.
Qed.

Lemma mapAt_mapAt i f g (l : list WorkflowStep) :
  mapAt i f (mapAt i g l) = mapAt i (λ s, f (g s)) l.
Proof.
  apply list_eq. intros j. rewrite !mapAt_lookup.
  destruct (l !! j); simpl; [|done]. by case_decide.
Qed.

(** *** What one call of [processStep] can touch *)

Lemma requests_frame serviceId prompt apiKey model image log res log' :
  callAIService net serviceId prompt apiKey model image log = (res, log') →
  log' = log ∨ ∃ req, log' = log ++ [req].
Proof.
  intros H. destruct (callAIService_requests _ _ _ _ _ _ _ _ _ H) as [->|[req [-> _]]];
    [by left | right; by exists req].
Qed.

Lemma processStep_frame env j p w : Frame env j w (processStep env j p w).
Proof.
  unfold GarageWorkflow.processStep.
  destruct (workflowSteps env !! j) as [step|];
    [|split; try done; [exists (λ s, s); by rewrite mapAt_id | by left..]].
  destruct (truthy (roleAssignments env !! role step)) as [ai|];
    [|split; try done; [exists (λ s, s); by rewrite mapAt_id | by left..]].
  destruct (truthy (connections !! ai ≫= AppContext.apiKey)) as [key|];
    [|split; try done; [exists (λ s, s); by rewrite mapAt_id | by left..]].
  cbv zeta.
  destruct (createRolePrompt selectedOption step p j) as [rp|e].
  - destruct (callAIService net ai rp key _ None _) as [[r|e] log] eqn:Hcall;
      apply requests_frame in Hcall; simpl in Hcall.
    + unfold processStep_then.
      destruct (j =? 0); [|destruct (j <? _)]; split; simpl; try done;
        try (eexists; by rewrite mapAt_mapAt); try (by left).
      right. eexists. split; [done|]. done.
    + split; simpl; try done; [eexists; by rewrite mapAt_mapAt | by left].
  - split; simpl; try done; [eexists; by rewrite mapAt_mapAt | by left..].
Qed.

Lemma frame_other env i j w w' :
  Frame env j w w' → i ≠ j →
  workflowSteps (state w') !! i = workflowSteps (state w) !! i.
Proof. intros [[f ->] _ _ _ _ _] Hne. by apply mapAt_lookup_ne. Qed.

Lemma frame_timers_from env i j w w' :
  Frame env j w w' → i ≤ j → timers_from i w → timers_from i w'.
Proof.
  intros [_ _ _ _ [Ht|[t [Ht Hj]]] _] Hle; unfold timers_from; rewrite Ht; [done|].
  intros Hall. apply Forall_app. split; [done|].
  apply Forall_singleton. lia.
Qed.

(** *** Running the pending timers *)

Lemma tick_stage i w :
  timers_from i w →
  workflowSteps (state (tick w)) !! i = workflowSteps (state w) !! i
  ∧ timers_from i (tick w).
Proof.
  unfold GarageWorkflow.tick, timers_from.
  destruct (timers w) as [|t ts] eqn:Hts; [by rewrite Hts|].
  intros Hall. apply Forall_cons in Hall as [Ht Hall].
  unfold fire. destruct (createNextStepPrompt _ _ _ _ _) as [np|e]; [|done].
  pose proof (processStep_frame (closure t) (finishedIndex t + 1) np (setTimers ts w)) as Hf.
  split.
  - rewrite (frame_other _ i _ _ _ Hf) by lia. done.
  - apply (frame_timers_from _ i _ _ _ Hf); [lia|done].
Qed.

Lemma run_stage n i w :
  timers_from i w →
  workflowSteps (state (run n w)) !! i = workflowSteps (state w) !! i.
Proof.
  revert w. induction n as [|n IH]; intros w Hw; [done|]. simpl.
  destruct (tick_stage i w Hw) as [Heq Hw']. by rewrite IH.
Qed.

Lemma run_idle n w : timers w = [] → run n w = w.
Proof.
  intros Hw. induction n as [|n IH]; [done|]. simpl.
  unfold GarageWorkflow.tick. by rewrite Hw.
Qed.

(** *** A stage that reaches the provider *)

Lemma processStep_runs env i p w step rp outcome :
  Runs env i p w step rp outcome →
  processStep env i p w =
    let w1 := setCurrentStep i (setWorkflowSteps (mapAt i (startProcessing p)) w) in
    match outcome with
    | (Ok response, log) => processStep_then env step i response (setRequests log w1)
    | (Throw error, log) => processStep_catch step i error (setRequests log w1)
    end.
Proof.
  intros (ai & key & Hstep & Hai & Hkey & Hrp & Hcall).
  unfold GarageWorkflow.processStep. rewrite Hstep, Hai, Hkey. cbv zeta.
  rewrite Hrp. simpl requests. by rewrite Hcall.
Qed.

(** On success the stage holds the prompt it was run with and the
    content of the answer, in the status its index decides. *)
Lemma processStep_success env i p w step rp r log s0 :
  Runs env i p w step rp (Ok r, log) →
  workflowSteps (state w) !! i = Some s0 →
  workflowSteps (state (processStep env i p w)) !! i
  = Some (finish (if i =? 0 then user_input else completed) (content r)
            (startProcessing p s0)).
Proof.
  intros Hruns Hs0. rewrite (processStep_runs _ _ _ _ _ _ _ Hruns). cbv zeta.
  unfold processStep_then.
  destruct (i =? 0); [|destruct (i <? _)]; simpl;
    by apply mapAt_lookup_eq, mapAt_lookup_eq.
Qed.

Lemma processStep_success_timers env i p w step rp r log :
  Runs env i p w step rp (Ok r, log) →
  timers_from i w → timers_from i (processStep env i p w).
Proof. intros _. apply (frame_timers_from env i i); [apply processStep_frame|lia]. Qed.

Lemma processStep_failure env i p w step rp e log :
  Runs env i p w step rp (Throw e, log) →
  processStep env i p w
  = processStep_catch step i e
      (setRequests log
         (setCurrentStep i (setWorkflowSteps (mapAt i (startProcessing p)) w))).
Proof. intros Hruns. by rewrite (processStep_runs _ _ _ _ _ _ _ Hruns). Qed.

(** Both ways of moving on to the next stage hand it the prompt that
    [createNextStepPrompt] builds from the previous stage's answer. *)
Lemma fire_renders t w nextPrompt :
  createNextStepPrompt selectedOption (closure t) (finished t) (answer t)
    (finishedIndex t + 1) = Ok nextPrompt →
  fire selectedOption connections net t w
  = processStep (closure t) (finishedIndex t + 1) nextPrompt w.
Proof. intros H. unfold fire. by rewrite H. Qed.

Lemma handlePassToNext_renders w s output nextPrompt :
  workflowSteps (state w) !! currentStep (state w) = Some s →
  truthy (response s) = Some output →
  createNextStepPrompt selectedOption (state w) s output
    (currentStep (state w) + 1) = Ok nextPrompt →
  handlePassToNext selectedOption connections net w
  = processStep (state w) (currentStep (state w) + 1) nextPrompt
      (setShowAddMore false w).
Proof.
  intros Hs Hout Hnext. unfold handlePassToNext.
  rewrite Hs, Hout. simpl state. by rewrite Hnext.
Qed.

Lemma Runs_requests env i p w step rp res log :
  Runs env i p w step rp (res, log) →
  log = requests w ∨ ∃ req, log = requests w ++ [req] ∧ prompt_of req = Some rp.
Proof.
  intros (ai & key & _ & _ & _ & _ & Hcall).
  by apply callAIService_requests in Hcall.
Qed.

End WorkflowFacts.

(** *** Strings *)

Section StringFacts.
Import Js Spec.

Lemma append_assoc (a b c : string) : (a +:+ b) +:+ c = a +:+ b +:+ c.
Proof.
  induction a as [|x a IH]; [done|].
  change (String x ((a +:+ b) +:+ c) = String x (a +:+ b +:+ c)).
  by rewrite IH.
Qed.

Lemma embeds_here sub post : embeds sub (sub +:+ post).
Proof. by exists "", post. Qed.

Lemma embeds_later sub pre s : embeds sub s → embeds sub (pre +:+ s).
Proof.
  intros (p & q & ->). exists (pre +:+ p), q. by rewrite append_assoc.
Qed.

Lemma length_0_iff (s : string) : String.length s = 0 ↔ s = "".
Proof. by destruct s. Qed.

Lemma nonempty_length (s : string) : (0 <? String.length s) = true ↔ s ≠ "".
Proof. destruct s; simpl; split; try done. Qed.

Lemma eqb_empty (s : string) : String.eqb s "" = true ↔ s = "".
Proof. apply String.eqb_eq. Qed.

(** A string made of white space only trims to the empty string, and
    conversely. *)
Lemma trimEnd_empty s :
  trimEnd s = "" ↔ ∀ c, c ∈ String.list_ascii_of_string s → isWhiteSpace c = true.
Proof.
  induction s as [|c s IH]; simpl.
  - split; [intros _ c Hc; by apply elem_of_nil in Hc | done].
  - destruct (trimEnd s) as [|d t] eqn:Hs.
    + destruct (isWhiteSpace c) eqn:Hc; split; try done.
      * intros _ x [->|Hx]%elem_of_cons; [done|]. by apply IH.
      * intros Hall. rewrite Hall in Hc; [done|]. apply elem_of_cons. by left.
    + split; [done|]. intros Hall.
      assert (String d t = "") as Hbad; [|done].
      apply IH. intros x Hx. apply Hall, elem_of_cons. by right.
Qed.

Lemma trim_empty s :
  trim s = "" ↔ ∀ c, c ∈ String.list_ascii_of_string s → isWhiteSpace c = true.
Proof.
  unfold trim. induction s as [|c s IH]; simpl.
  - split; [intros _ c Hc; by apply elem_of_nil in Hc | done].
  - destruct (isWhiteSpace c) eqn:Hc.
    + rewrite IH. split.
      * intros Hall x [->|Hx]%elem_of_cons; [done|]. by apply Hall.
      * intros Hall x Hx. apply Hall, elem_of_cons. by right.
    + change (trimEnd (String c s) = "" ↔
              ∀ x, x ∈ String.list_ascii_of_string (String c s) → isWhiteSpace x = true).
      apply trimEnd_empty.
Qed.

End StringFacts.

(** *** Which roles count as assigned *)

Section AssignedRoles.
Import Js GarageWorkflow.

(** A role counts when the map binds it to a non-empty provider id. *)
Lemma elem_of_assignedRoles (ra : gmap string string) role :
  role ∈ assignedRoles ra ↔ ∃ ai, ra !! role = Some ai ∧ ai ≠ "".
Proof.
  unfold assignedRoles. rewrite list_elem_of_In, filter_In, <- list_elem_of_In.
  rewrite bool_decide_eq_true. split.
  - intros [_ [ai Hai]]. exists ai. by apply truthy_Some.
  - intros (ai & Hra & Hne). split.
    + apply list_elem_of_fmap. exists (role, ai). split; [done|].
      by apply elem_of_map_to_list.
    + exists ai. by apply truthy_Some.
Qed.

Lemma NoDup_assignedRoles (ra : gmap string string) : NoDup (assignedRoles ra).
Proof.
  unfold assignedRoles. apply NoDup_ListNoDup, List.NoDup_filter, NoDup_ListNoDup.
  apply NoDup_fst_map_to_list.
Qed.

End AssignedRoles.

(** ** The sequencer's operations *)

Section SequencerClaims.
Import Js AIService GarageWorkflow Spec.
Variable selectedOption : GaragePage.GarageOption.
Variable connections : gmap string AppContext.AIConnection.
Variable net : Network.

Local Abbreviation processStep := (processStep selectedOption connections net).
Local Abbreviation Runs := (Runs selectedOption connections net).
Local Abbreviation run := (run selectedOption connections net).
Local Abbreviation startWorkflow := (startWorkflow selectedOption connections net).
Local Abbreviation handleAddMore := (handleAddMore selectedOption connections net).
Local Abbreviation resetWorkflow := (resetWorkflow selectedOption).
Local Abbreviation createRolePrompt := (createRolePrompt selectedOption).
Local Abbreviation createNextStepPrompt := (createNextStepPrompt selectedOption).

(** C1. Whatever the template, when a stage reaches its provider and the
    call succeeds, the stage ends in [user_input] (awaiting the user's
    decision, and so not [completed]) if its index is 0 and in [completed]
    if its index is greater; it holds the answer, and keeps that status
    however many of the timers for later stages run afterwards. *)
Theorem stage_status_on_success env i p w step rp r log s0 :
  Runs env i p w step rp (Ok r, log) →
  workflowSteps (state w) !! i = Some s0 →
  timers_from i w →
  ∀ n, ∃ s,
    workflowSteps (state (run n (processStep env i p w))) !! i = Some s
    ∧ status s = (if i =? 0 then user_input else completed)
    ∧ (i = 0 → status s ≠ completed)
    ∧ (0 < i → status s = completed)
    ∧ response s = Some (content r).
Proof.
  intros Hruns Hs0 Htimers n.
  eexists. split.
  - rewrite run_stage by (by eapply processStep_success_timers).
    by eapply processStep_success.
  - simpl. destruct i as [|i]; simpl; repeat split; try done; lia.
Qed.

(** C2. [startWorkflow] is rejected with an error notification, changing
    no state, issuing no request and scheduling nothing, when fewer than
    two roles have a provider or the task is empty once trimmed; when both
    conditions hold it marks the run started and calls [processStep] for
    stage 0 with the task as typed; and a run can only become started
    through it when both hold. *)
Theorem startWorkflow_validation w :
  let env := state w in
  let assigned := length (assignedRoles (roleAssignments env)) in
  (assigned < 2 ∨ trim (userPrompt env) = "" →
     state (startWorkflow w) = state w
     ∧ requests (startWorkflow w) = requests w
     ∧ timers (startWorkflow w) = timers w
     ∧ toasts (startWorkflow w)
       = toasts w ++ [toast_error "Please assign at least 2 AIs and enter a task description!"])
  ∧ (2 ≤ assigned → trim (userPrompt env) ≠ "" →
       startWorkflow w
       = processStep env 0 (userPrompt env) (setWorkflowStarted true w)
       ∧ workflowStarted (state (startWorkflow w)) = true)
  ∧ (workflowStarted (state w) = false →
     workflowStarted (state (startWorkflow w)) = true →
     2 ≤ assigned ∧ trim (userPrompt env) ≠ "").
Proof.
  intros env assigned.
  assert (Hvalid : validateSetup env = true
                   ↔ 2 ≤ assigned ∧ trim (userPrompt env) ≠ "").
  { unfold validateSetup. rewrite andb_true_iff, Nat.leb_le, nonempty_length. done. }
  unfold GarageWorkflow.startWorkflow. fold env.
  destruct (validateSetup env) eqn:Hv; simpl.
  - destruct (proj1 Hvalid eq_refl) as [Hn Hp]. split; [|split].
    + intros [Hlt|Hempty]; [lia|done].
    + intros _ _. split; [done|].
      by rewrite (frame_workflowStarted _ _ _ _ (processStep_frame _ _ _ _ _ _ _)).
    + done.
  - split; [done|]. split.
    + intros Hn Hp. assert (false = true) as Hbad; [|done]. by apply Hvalid.
    + intros Hbefore Hafter. simpl in Hafter. subst env. congruence.
Qed.

(** C3. For stage 0 the prompt rendered for the provider embeds the name
    and the description of the stage's role, the title of the template and
    the user's input as typed; for a stage [i > 0] the prompt built from
    the previous stage's output embeds the name and description of the
    role of stage [i] and that output whole, and is sent as it is. *)
Theorem rendered_prompts :
  (∀ step inputPrompt roleContext,
      get (roles selectedOption) (role step) = Some roleContext →
      ∃ rolePrompt,
        createRolePrompt step inputPrompt 0 = Ok rolePrompt
        ∧ embeds (name roleContext) rolePrompt
        ∧ embeds (description roleContext) rolePrompt
        ∧ embeds (GaragePage.title selectedOption) rolePrompt
        ∧ embeds inputPrompt rolePrompt)
  ∧ (∀ env previous output i nextStep nextRole,
        0 < i →
        workflowSteps env !! i = Some nextStep →
        get (roles selectedOption) (role nextStep) = Some nextRole →
        ∃ nextPrompt,
          createNextStepPrompt env previous output i = Ok nextPrompt
          ∧ createRolePrompt nextStep nextPrompt i = Ok nextPrompt
          ∧ embeds (name nextRole) nextPrompt
          ∧ embeds (description nextRole) nextPrompt
          ∧ embeds output nextPrompt).
Proof.
  split.
  - intros step inputPrompt roleContext Hrole.
    unfold GarageWorkflow.createRolePrompt. rewrite Hrole. simpl.
    eexists. split; [reflexivity|].
    repeat split; repeat first [apply embeds_here | apply embeds_later].
  - intros env previous output i nextStep nextRole Hi Hstep Hrole.
    unfold GarageWorkflow.createNextStepPrompt, GarageWorkflow.createRolePrompt.
    rewrite Hstep, Hrole.
    destruct i as [|i]; [lia|]. simpl.
    eexists. split; [reflexivity|]. split; [reflexivity|].
    repeat split; repeat first [apply embeds_here | apply embeds_later].
Qed.

(** The timer set by a finished stage renders the next prompt from the
    content of that stage's answer. *)
Lemma processStep_then_timer env step i r w :
  0 < i → i < length (workflowSteps env) - 1 →
  timers (processStep_then env step i r w)
  = timers w ++ [{| closure := env; finished := step;
                    answer := content r; finishedIndex := i |}].
Proof.
  intros Hi Hlt. unfold processStep_then.
  destruct i as [|i]; [lia|]. simpl Nat.eqb. cbv iota.
  apply Nat.ltb_lt in Hlt. by rewrite Hlt.
Qed.

(** C4. [handleAddMore] is rejected with an error notification, changing
    nothing else, when the extra text is empty once trimmed. Otherwise,
    with stage 0 being the stage of role A and holding the prompt of its
    last run, it joins that prompt and the extra text with a blank line
    and the label "Additional requirements: " and runs stage 0 again with
    the result; the prompt then rendered embeds both texts, and when the
    provider answers, stage 0 holds the joined prompt and the new answer
    alone, whatever answer it held before. *)
Theorem handleAddMore_refines w :
  let env := state w in
  let extra := additionalInput env in
  (trim extra = "" →
     state (handleAddMore w) = state w
     ∧ requests (handleAddMore w) = requests w
     ∧ timers (handleAddMore w) = timers w
     ∧ toasts (handleAddMore w)
       = toasts w ++ [toast_error "Please enter additional requirements!"])
  ∧ (trim extra ≠ "" →
     ∀ s0,
       workflowSteps env !! 0 = Some s0 → id s0 = "A" → prompt s0 ≠ "" →
       let combined := prompt s0 +:+ LF +:+ LF +:+ "Additional requirements: " +:+ extra in
       let w1 := setShowAddMore false (setAdditionalInput "" w) in
       handleAddMore w = processStep env 0 combined w1
       ∧ ∀ rp r log,
           Runs env 0 combined w1 s0 rp (Ok r, log) →
           embeds (prompt s0) rp ∧ embeds extra rp
           ∧ (log = requests w
              ∨ ∃ req, log = requests w ++ [req] ∧ prompt_of req = Some rp)
           ∧ workflowSteps (state (handleAddMore w)) !! 0
             = Some {| id := id s0; role := role s0; roleName := roleName s0;
                       assignedAI := assignedAI s0; prompt := combined;
                       response := Some (content r); status := user_input |}).
Proof.
  intros env extra. unfold GarageWorkflow.handleAddMore. fold env. fold extra.
  split.
  - intros Hempty. rewrite Hempty. done.
  - intros Hne s0 Hs0 Hid Hprompt.
    set (combined := prompt s0 +:+ LF +:+ LF +:+ "Additional requirements: " +:+ extra) in *.
    set (w1 := setShowAddMore false (setAdditionalInput "" w)) in *.
    destruct (String.eqb_spec (trim extra) "") as [Hbad|_]; [done|].
    assert (Hfind : List.find (λ s, String.eqb (id s) "A") (workflowSteps env) = Some s0).
    { destruct (workflowSteps env) as [|s l]; [done|].
      injection Hs0 as ->. simpl. by rewrite Hid. }
    rewrite Hfind. simpl fmap.
    rewrite (or_else_text _ _ (prompt s0)) by done.
    fold combined. split; [done|].
    intros rp r log Hruns.
    assert (Hrp : createRolePrompt s0 combined 0 = Ok rp).
    { by destruct Hruns as (? & ? & ? & ? & ? & ? & ?). }
    unfold GarageWorkflow.createRolePrompt in Hrp. simpl in Hrp.
    destruct (get (roles selectedOption) (role s0)) as [rc|]; [|done].
    injection Hrp as <-.
    split; [|split; [|split]].
    + unfold combined. rewrite !append_assoc.
      repeat first [apply embeds_here | apply embeds_later].
    + unfold combined. rewrite !append_assoc.
      repeat first [apply embeds_here | apply embeds_later].
    + by apply (Runs_requests _ _ _ _ _ _ _ _ _ _ _ Hruns).
    + erewrite processStep_success; [done|exact Hruns|done].
Qed.

(** C5. When the provider call of a stage fails, the stage goes back to
    [pending], the failure is notified with the role's name and the
    error's message, at most the one request was issued, no timer is set,
    no other stage changes, and nothing further runs by itself. *)
Theorem stage_failure_reverts env i p w step rp e log s0 :
  Runs env i p w step rp (Throw e, log) →
  workflowSteps (state w) !! i = Some s0 →
  let w' := processStep env i p w in
  (∃ s, workflowSteps (state w') !! i = Some s ∧ status s = pending)
  ∧ toasts w'
    = toasts w ++ [toast_error ("Error in " +:+ roleName step +:+ ": " +:+ message e)]
  ∧ (requests w' = requests w ∨ ∃ req, requests w' = requests w ++ [req])
  ∧ timers w' = timers w
  ∧ (∀ j, j ≠ i → workflowSteps (state w') !! j = workflowSteps (state w) !! j)
  ∧ (timers w = [] → ∀ n, run n w' = w').
Proof.
  intros Hruns Hs0 w'.
  assert (Hw' : w' = processStep_catch step i e
                       (setRequests log
                          (setCurrentStep i
                             (setWorkflowSteps (mapAt i (startProcessing p)) w)))).
  { by eapply processStep_failure. }
  assert (Htimers : timers w' = timers w) by by rewrite Hw'.
  split; [|split; [|split; [|split; [|split]]]].
  - eexists. rewrite Hw'. simpl. split.
    + by apply mapAt_lookup_eq, mapAt_lookup_eq.
    + done.
  - by rewrite Hw'.
  - apply (frame_requests env i w w'), processStep_frame.
  - done.
  - intros j Hj. apply (frame_other env j i); [apply processStep_frame|done].
  - intros Hnone n. apply run_idle. by rewrite Htimers.
Qed.

(** C6, as the code has it. [processStep] leaves the state, the requests
    and the timers as they were when no stage exists at the index or the
    stage's role has no provider; in the second case it notifies the
    error, naming the role, and in the first it returns without a
    notification. *)
Theorem processStep_rejections env i p w :
  (workflowSteps env !! i = None → processStep env i p w = w)
  ∧ (∀ step,
       workflowSteps env !! i = Some step →
       truthy (roleAssignments env !! role step) = None →
       state (processStep env i p w) = state w
       ∧ requests (processStep env i p w) = requests w
       ∧ timers (processStep env i p w) = timers w
       ∧ toasts (processStep env i p w)
         = toasts w ++ [toast_error ("No AI assigned to role " +:+ role step)]).
Proof.
  unfold GarageWorkflow.processStep. split.
  - by intros ->.
  - by intros step -> ->.
Qed.

(** C7. [resetWorkflow] leaves one stage per role of the template, each
    [pending] with an empty prompt and no output, an empty assignment map
    and a cleared started flag; resetting twice gives what resetting once
    gives. *)
Theorem resetWorkflow_idempotent w :
  let w' := resetWorkflow w in
  length (workflowSteps (state w')) = length (roles selectedOption)
  ∧ Forall (λ s, status s = pending ∧ prompt s = "" ∧ response s = None)
           (workflowSteps (state w'))
  ∧ roleAssignments (state w') = ∅
  ∧ workflowStarted (state w') = false
  ∧ resetWorkflow w' = w'.
Proof.
  simpl. split; [|split; [|done]].
  - unfold initialSteps. by rewrite length_map.
  - unfold initialSteps. apply Forall_map, Forall_true. done.
Qed.

End SequencerClaims.

(** ** The properties at concrete inputs *)

Section Witnesses.
Import Js AIService GarageWorkflow Spec.

Local Abbreviation build := GaragePage.build.
Local Abbreviation conns := Sample.connections.

Local Ltac evaluate := vm_compute; reflexivity.
Local Ltac runs ai key := exists ai, key; repeat split; evaluate.

Lemma stage_status_on_success_witness :
  (∃ s, workflowSteps
          (state (run build conns Sample.net 3
                    (processStep build conns Sample.net
                       (state (Sample.ready build)) 0 "build a todo app"
                       (Sample.ready build)))) !! 0 = Some s
        ∧ status s = user_input
        ∧ (0 = 0 → status s ≠ completed)
        ∧ (0 < 0 → status s = completed)
        ∧ response s = Some "refined")
  ∧ (∃ s, workflowSteps
            (state (run build conns Sample.net 3
                      (processStep build conns Sample.net
                         (state Sample.started) 1 Sample.second_prompt
                         Sample.started))) !! 1 = Some s
          ∧ status s = completed
          ∧ (1 = 0 → status s ≠ completed)
          ∧ (0 < 1 → status s = completed)
          ∧ response s = Some "backend").
Proof.
  pose (stage_A := Sample.stage "A" "Prompt Refiner").
  pose (stage_B := Sample.stage "B" "Backend Developer").
  pose (rp_A := Sample.rendered stage_A "build a todo app" 0).
  pose (rp_B := Sample.rendered stage_B Sample.second_prompt 1).
  split.
  - apply (stage_status_on_success build conns Sample.net
             (state (Sample.ready build)) 0 "build a todo app" (Sample.ready build)
             stage_A rp_A Sample.first_answer
             (Sample.log_after "openai" rp_A (Sample.ready build)) stage_A).
    + runs "openai" "key-openai".
    + evaluate.
    + apply Forall_nil_2.
  - apply (stage_status_on_success build conns Sample.net
             (state Sample.started) 1 Sample.second_prompt Sample.started
             stage_B rp_B Sample.second_answer
             (Sample.log_after "anthropic" rp_B Sample.started) stage_B).
    + runs "anthropic" "key-anthropic".
    + evaluate.
    + apply Forall_nil_2.
Defined.

Lemma startWorkflow_validation_witness :
  (state (startWorkflow build conns Sample.net Sample.one_role) = state Sample.one_role
   ∧ requests (startWorkflow build conns Sample.net Sample.one_role) = requests Sample.one_role
   ∧ timers (startWorkflow build conns Sample.net Sample.one_role) = timers Sample.one_role
   ∧ toasts (startWorkflow build conns Sample.net Sample.one_role)
     = toasts Sample.one_role
       ++ [toast_error "Please assign at least 2 AIs and enter a task description!"])
  ∧ (startWorkflow build conns Sample.net (Sample.ready build)
     = processStep build conns Sample.net (state (Sample.ready build)) 0
         "build a todo app" (setWorkflowStarted true (Sample.ready build))
     ∧ workflowStarted (state (startWorkflow build conns Sample.net (Sample.ready build))) = true).
Proof.
  split.
  - destruct (startWorkflow_validation build conns Sample.net Sample.one_role)
      as (Hreject & _ & _).
    apply Hreject. left. vm_compute. lia.
  - destruct (startWorkflow_validation build conns Sample.net (Sample.ready build))
      as (_ & Haccept & _).
    apply Haccept; [vm_compute; lia | vm_compute; discriminate].
Defined.

Lemma rendered_prompts_witness :
  (∃ rolePrompt,
      createRolePrompt build (Sample.stage "A" "Prompt Refiner") "build a todo app" 0
      = Ok rolePrompt
      ∧ embeds "Prompt Refiner" rolePrompt
      ∧ embeds "Refines user requirements and creates detailed specifications" rolePrompt
      ∧ embeds "Create/Build App" rolePrompt
      ∧ embeds "build a todo app" rolePrompt)
  ∧ (∃ nextPrompt,
        createNextStepPrompt build (state Sample.started) Sample.stage_A_answered
          "refined" 1 = Ok nextPrompt
        ∧ createRolePrompt build (Sample.stage "B" "Backend Developer") nextPrompt 1
          = Ok nextPrompt
        ∧ embeds "Backend Developer" nextPrompt
        ∧ embeds "Creates backend code, APIs, and database structure" nextPrompt
        ∧ embeds "refined" nextPrompt).
Proof.
  destruct (rendered_prompts build) as [Hfirst Hnext]. split.
  - apply (Hfirst (Sample.stage "A" "Prompt Refiner") "build a todo app" Sample.role_A).
    reflexivity.
  - apply (Hnext (state Sample.started) Sample.stage_A_answered "refined" 1
             (Sample.stage "B" "Backend Developer") Sample.role_B);
      [lia | reflexivity | reflexivity].
Defined.

Lemma handleAddMore_refines_witness :
  (state (handleAddMore build conns Sample.net Sample.started) = state Sample.started
   ∧ requests (handleAddMore build conns Sample.net Sample.started) = requests Sample.started
   ∧ timers (handleAddMore build conns Sample.net Sample.started) = timers Sample.started
   ∧ toasts (handleAddMore build conns Sample.net Sample.started)
     = toasts Sample.started ++ [toast_error "Please enter additional requirements!"])
  ∧ handleAddMore build conns Sample.net Sample.refining
    = processStep build conns Sample.net (state Sample.refining) 0
        Sample.combined_prompt
        (setShowAddMore false (setAdditionalInput "" Sample.refining))
  ∧ workflowSteps (state (handleAddMore build conns Sample.net Sample.refining)) !! 0
    = Some {| id := "A"; role := "A"; roleName := "Prompt Refiner";
              assignedAI := None;
              prompt := Sample.combined_prompt;
              response := Some "refined again"; status := user_input |}.
Proof.
  pose (w1 := setShowAddMore false (setAdditionalInput "" Sample.refining)).
  pose (rp := Sample.rendered Sample.stage_A_answered Sample.combined_prompt 0).
  split.
  - destruct (handleAddMore_refines build conns Sample.net Sample.started)
      as [Hreject _].
    apply Hreject. evaluate.
  - destruct (handleAddMore_refines build conns Sample.net Sample.refining)
      as [_ Hrefine].
    assert (Hextra : trim (additionalInput (state Sample.refining)) ≠ "").
    { vm_compute. discriminate. }
    assert (Hprompt : prompt Sample.stage_A_answered ≠ "").
    { vm_compute. discriminate. }
    destruct (Hrefine Hextra Sample.stage_A_answered
                ltac:(evaluate) ltac:(evaluate) Hprompt) as [Hcall Hanswer].
    split; [exact Hcall|].
    apply (Hanswer rp Sample.refined_answer (Sample.log_after "openai" rp w1)).
    runs "openai" "key-openai".
Defined.

Lemma stage_failure_reverts_witness :
  let w := Sample.ready build in
  let w' := processStep build conns Sample.net (state w) 2 "write the frontend" w in
  (∃ s, workflowSteps (state w') !! 2 = Some s ∧ status s = pending)
  ∧ toasts w'
    = toasts w ++ [toast_error ("Error in " +:+ "Frontend Designer" +:+ ": "
                                +:+ "Groq Error: Invalid API Key")]
  ∧ (requests w' = requests w ∨ ∃ req, requests w' = requests w ++ [req])
  ∧ timers w' = timers w
  ∧ (∀ j, j ≠ 2 → workflowSteps (state w') !! j = workflowSteps (state w) !! j)
  ∧ (timers w = [] → ∀ n, run build conns Sample.net n w' = w').
Proof.
  eapply (stage_failure_reverts build conns Sample.net
            (state (Sample.ready build)) 2 "write the frontend" (Sample.ready build)
            (Sample.stage "C" "Frontend Designer") _ Sample.groq_error).
  - runs "groq" "key-groq".
  - reflexivity.
Defined.

Lemma processStep_rejections_witness :
  processStep build conns Sample.net (state (Sample.ready build)) 5 "go on"
    (Sample.ready build) = Sample.ready build
  ∧ (state (processStep build conns Sample.net (state (Sample.ready build)) 3
              "review the code" (Sample.ready build)) = state (Sample.ready build)
     ∧ requests (processStep build conns Sample.net (state (Sample.ready build)) 3
                   "review the code" (Sample.ready build)) = requests (Sample.ready build)
     ∧ timers (processStep build conns Sample.net (state (Sample.ready build)) 3
                 "review the code" (Sample.ready build)) = timers (Sample.ready build)
     ∧ toasts (processStep build conns Sample.net (state (Sample.ready build)) 3
                 "review the code" (Sample.ready build))
       = toasts (Sample.ready build) ++ [toast_error "No AI assigned to role D"]).
Proof.
  destruct (processStep_rejections build conns Sample.net
              (state (Sample.ready build)) 5 "go on" (Sample.ready build))
    as [Hmissing _].
  destruct (processStep_rejections build conns Sample.net
              (state (Sample.ready build)) 3 "review the code" (Sample.ready build))
    as [_ Hunassigned].
  split.
  - apply Hmissing. reflexivity.
  - apply (Hunassigned (Sample.stage "D" "Code Reviewer")); reflexivity.
Defined.

(** C6 as stated fails: asked for a stage past the end of the list,
    [processStep] returns without notifying anything. *)
Lemma processStep_missing_stage_is_silent : ¬ every_rejection_is_reported.
Proof.
  intros Hclaim.
  destruct (Hclaim build conns Sample.net (state (Sample.ready build)) 5 "go on"
              (Sample.ready build)) as (_ & _ & msg & Htoasts).
  - left. reflexivity.
  - vm_compute in Htoasts. discriminate Htoasts.
Qed.

(** Stage 0 ends awaiting the user's decision in each of the four
    templates. *)
Example stage_0_awaits_in_every_template :
  Forall (λ option,
            status <$> workflowSteps
                         (state (startWorkflow option conns Sample.net
                                   (Sample.ready option))) !! 0
            = Some user_input)
         GaragePage.GARAGE_OPTIONS.
Proof. repeat constructor. Qed.

(** The whole run on the build template: the user passes stage 0 on,
    stage 1 answers and its timer starts stage 2, whose provider fails;
    nothing runs after that. *)
Example build_run :
  let w := run build conns Sample.net 3
             (handlePassToNext build conns Sample.net Sample.started) in
  (status <$> workflowSteps (state w))
  = [user_input; completed; pending; pending; pending]
  ∧ (prompt <$> workflowSteps (state w)) !! 1 = Some Sample.second_prompt
  ∧ toasts w = [toast_error "Error in Frontend Designer: Groq Error: Invalid API Key"]
  ∧ length (requests w) = 3
  ∧ timers w = [].
Proof. vm_compute. repeat split. Qed.

(** Resetting a run in progress. *)
Example resetWorkflow_started :
  state (resetWorkflow build Sample.started) = state (mounted build).
Proof. vm_compute. reflexivity. Qed.

End Witnesses.

(** ** Further properties of the provider adapter *)

Section AdapterMore.
Import Js AIService Spec AdapterSpec.
Variable net : Network.

Lemma or_opt_idempotent v d : or_opt (or_opt v d) d = or_opt v d.
Proof.
  destruct v as [s|]; simpl.
  - destruct (String.eqb_spec s "") as [->|Hne]; simpl.
    + destruct d as [t|]; simpl; [|done]. by destruct (String.eqb t "").
    + by destruct (String.eqb_spec s "").
  - destruct d as [t|]; simpl; [|done]. by destruct (String.eqb t "").
Qed.

Lemma supported_cases serviceId :
  supported serviceId ↔
  serviceId = "openai" ∨ serviceId = "anthropic" ∨ serviceId = "google"
  ∨ serviceId = "groq".
Proof.
  unfold supported. rewrite !elem_of_cons, elem_of_nil. tauto.
Qed.

(** The [default] case of the switch. *)
Lemma callAIService_default serviceId prompt apiKey model image log :
  ¬ supported serviceId →
  callAIService net serviceId prompt apiKey model image log
  = (Throw (new_Error ("Unsupported AI service: " +:+ serviceId)), log).
Proof.
  rewrite supported_cases. intros Hno. unfold callAIService.
  destruct (String.eqb_spec serviceId "openai"); [tauto|].
  destruct (String.eqb_spec serviceId "anthropic"); [tauto|].
  destruct (String.eqb_spec serviceId "google"); [tauto|].
  destruct (String.eqb_spec serviceId "groq"); [tauto|].
  reflexivity.
Qed.

Lemma callOpenAI_rejected prompt apiKey model log error :
  openai_api net (length log) (openai_request prompt apiKey model) = rejected error →
  callOpenAI net prompt apiKey model log
  = (Throw (new_Error ("OpenAI Error: " +:+ error_text error)),
     log ++ [openai_request prompt apiKey model]).
Proof.
  intros Hnet. unfold callOpenAI, try_catch, bind, axios_post. by rewrite Hnet.
Qed.

Lemma callAnthropic_rejected prompt apiKey model log error :
  anthropic_api net (length log) (anthropic_request prompt apiKey model) = rejected error →
  callAnthropic net prompt apiKey model log
  = (Throw (new_Error ("Claude Error: " +:+ error_text error)),
     log ++ [anthropic_request prompt apiKey model]).
Proof.
  intros Hnet. unfold callAnthropic, try_catch, bind, axios_post. by rewrite Hnet.
Qed.

Lemma callGroq_rejected prompt apiKey model log error :
  groq_api net (length log) (groq_request prompt apiKey model) = rejected error →
  callGroq net prompt apiKey model log
  = (Throw (new_Error ("Groq Error: " +:+ error_text error)),
     log ++ [groq_request prompt apiKey model]).
Proof.
  intros Hnet. unfold callGroq, try_catch, bind, axios_post. by rewrite Hnet.
Qed.

(** Once the picture (if any) is read, [callGoogle] sends the parts. *)
Lemma callGoogle_parts prompt apiKey model image log parts :
  google_parts prompt image = Some parts →
  callGoogle net prompt apiKey model image log
  = match google_api net (length log) (google_request parts apiKey model) with
    | resolved data =>
        (Ok {| content := or_else (Google.text_of data) "No response";
               service := "google";
               tokens := Google.usageMetadata data ≫= Google.totalTokenCount;
               model := model |},
         log ++ [google_request parts apiKey model])
    | rejected error =>
        (Throw (new_Error ("Gemini Error: " +:+ error_text error)),
         log ++ [google_request parts apiKey model])
    end.
Proof.
  intros Hparts. unfold callGoogle, try_catch, bind, axios_post.
  destruct image as [f|]; simpl in Hparts.
  - destruct (base64 f) as [b|]; simpl in Hparts; [|done].
    injection Hparts as <-. unfold ret at 1.
    by destruct (google_api _ _ _).
  - injection Hparts as <-. unfold ret at 1.
    by destruct (google_api _ _ _).
Qed.

Lemma google_parts_prompt prompt image parts :
  google_parts prompt image = Some parts →
  ∃ rest, parts = text_part prompt :: rest.
Proof.
  destruct image as [f|]; simpl.
  - destruct (base64 f); simpl; [|done]. intros [= <-]. by eexists.
  - intros [= <-]. by eexists.
Qed.

Lemma error_text_cases error :
  (∀ m, response_data_error_message error = Some m → m ≠ "" →
        error_text error = m)
  ∧ (truthy (response_data_error_message error) = None →
     error_text error = message error).
Proof.
  unfold error_text. split.
  - intros m. apply or_else_text.
  - apply or_else_fallback.
Qed.

End AdapterMore.

(** X1. When the request of a supported provider fails, [callAIService]
    throws, after that one request, an error whose message is the
    provider's prefix followed by the message the provider reported, or by
    the transport's message when the provider reported none. *)
Theorem callAIService_rejected
    (net : AIService.Network) (log : list AIService.Request)
    (prompt apiKey : string) (model : option string)
    (image : option AIService.File) (serviceId : string) (error : Js.Error) :
  AdapterSpec.Rejected net log prompt apiKey model image serviceId error →
  (∃ req,
     AIService.callAIService net serviceId prompt apiKey model image log
     = (Js.Throw (Js.new_Error (AdapterSpec.error_prefix serviceId
                                +:+ AIService.error_text error)),
        log ++ [req])
     ∧ Spec.prompt_of req = Some prompt)
  ∧ (∀ m, Js.response_data_error_message error = Some m → m ≠ "" →
          AIService.error_text error = m)
  ∧ (Js.truthy (Js.response_data_error_message error) = None →
     AIService.error_text error = Js.message error).
Proof.
  intros Hrej. split; [|apply error_text_cases].
  destruct Hrej as [e Hnet|e Hnet|e parts Hparts Hnet|e Hnet].
  - rewrite callAIService_openai, (callOpenAI_rejected _ _ _ _ _ _ Hnet).
    by eexists.
  - rewrite callAIService_anthropic, (callAnthropic_rejected _ _ _ _ _ _ Hnet).
    by eexists.
  - rewrite callAIService_google, (callGoogle_parts _ _ _ _ _ _ _ Hparts), Hnet.
    destruct (google_parts_prompt _ _ _ Hparts) as [rest ->]. by eexists.
  - rewrite callAIService_groq, (callGroq_rejected _ _ _ _ _ _ Hnet).
    by eexists.
Qed.

Lemma callAIService_rejected_witness :
  (∃ req,
     AIService.callAIService Sample.net "groq" "Hello" "key" None None []
     = (Js.Throw (Js.new_Error (AdapterSpec.error_prefix "groq"
                                +:+ AIService.error_text AdapterSample.groq_rejection)),
        [] ++ [req])
     ∧ Spec.prompt_of req = Some "Hello")
  ∧ (∀ m, Js.response_data_error_message AdapterSample.groq_rejection = Some m →
          m ≠ "" → AIService.error_text AdapterSample.groq_rejection = m)
  ∧ (Js.truthy (Js.response_data_error_message AdapterSample.groq_rejection) = None →
     AIService.error_text AdapterSample.groq_rejection
     = Js.message AdapterSample.groq_rejection).
Proof.
  apply (callAIService_rejected Sample.net [] "Hello" "key" None None "groq"
           AdapterSample.groq_rejection).
  apply AdapterSpec.rejected_groq. vm_compute. reflexivity.
Defined.

(** X2. A provider other than Google never looks at the picture: with or
    without one, [callAIService] issues the same request and returns the
    same result. *)
Theorem callAIService_ignores_image
    (net : AIService.Network) (serviceId prompt apiKey : string)
    (model : option string) (image : option AIService.File)
    (log : list AIService.Request) :
  serviceId ≠ "google" →
  AIService.callAIService net serviceId prompt apiKey model image log
  = AIService.callAIService net serviceId prompt apiKey model None log.
Proof.
  intros Hne. unfold AIService.callAIService.
  by destruct (String.eqb_spec serviceId "google").
Qed.

Lemma callAIService_ignores_image_witness :
  AIService.callAIService Sample.net "openai" "Hello" "key" None
    (Some AdapterSample.broken_picture) []
  = AIService.callAIService Sample.net "openai" "Hello" "key" None None [].
Proof.
  apply (callAIService_ignores_image Sample.net "openai" "Hello" "key" None
           (Some AdapterSample.broken_picture) []).
  discriminate.
Defined.

(** X3. When the picture handed to Google cannot be read, the call throws
    "Failed to process image file." as it is, without the provider's
    prefix and before any request is issued. *)
Theorem callGoogle_unreadable_image
    (net : AIService.Network) (prompt apiKey : string) (model : option string)
    (f : AIService.File) (log : list AIService.Request) :
  AIService.base64 f = None →
  AIService.callAIService net "google" prompt apiKey model (Some f) log
  = (Js.Throw (Js.new_Error "Failed to process image file."), log).
Proof.
  intros Hf. rewrite callAIService_google.
  unfold AIService.callGoogle, AIService.bind. by rewrite Hf.
Qed.

Lemma callGoogle_unreadable_image_witness :
  AIService.callAIService Sample.net "google" "Hello" "key" None
    (Some AdapterSample.broken_picture) []
  = (Js.Throw (Js.new_Error "Failed to process image file."), []).
Proof.
  apply (callGoogle_unreadable_image Sample.net "Hello" "key" None
           AdapterSample.broken_picture []).
  reflexivity.
Defined.

(** X4. A call for a supported provider issues exactly one request,
    whatever the answer, and that request carries the prompt; for Google
    this needs the picture, if there is one, to be readable. There is no
    second attempt. *)
Theorem callAIService_one_request
    (net : AIService.Network) (serviceId prompt apiKey : string)
    (model : option string) (image : option AIService.File)
    (log : list AIService.Request) :
  Spec.supported serviceId →
  (serviceId = "google" → is_Some (Spec.google_parts prompt image)) →
  ∃ res req,
    AIService.callAIService net serviceId prompt apiKey model image log
    = (res, log ++ [req])
    ∧ Spec.prompt_of req = Some prompt.
Proof.
  intros Hsup Hparts.
  destruct (AIService.callAIService net serviceId prompt apiKey model image log)
    as [res log'] eqn:Hcall.
  apply supported_cases in Hsup as [-> | [-> | [-> | ->]]].
  - rewrite callAIService_openai in Hcall.
    unfold AIService.callOpenAI, AIService.try_catch, AIService.bind,
      AIService.axios_post, AIService.index0 in Hcall.
    destruct (AIService.openai_api _ _ _) as [d|e];
      [destruct (AIService.OpenAI.choices d)|];
      injection Hcall as <- <-; eexists _, _; by split.
  - rewrite callAIService_anthropic in Hcall.
    unfold AIService.callAnthropic, AIService.try_catch, AIService.bind,
      AIService.axios_post, AIService.index0 in Hcall.
    destruct (AIService.anthropic_api _ _ _) as [d|e];
      [destruct (AIService.Anthropic.content d)|];
      injection Hcall as <- <-; eexists _, _; by split.
  - destruct (Hparts eq_refl) as [parts Hp].
    rewrite callAIService_google, (callGoogle_parts _ _ _ _ _ _ _ Hp) in Hcall.
    destruct (google_parts_prompt _ _ _ Hp) as [rest ->].
    destruct (AIService.google_api _ _ _) as [d|e];
      injection Hcall as <- <-; eexists _, _; by split.
  - rewrite callAIService_groq in Hcall.
    unfold AIService.callGroq, AIService.try_catch, AIService.bind,
      AIService.axios_post, AIService.index0 in Hcall.
    destruct (AIService.groq_api _ _ _) as [d|e];
      [destruct (AIService.OpenAI.choices d)|];
      injection Hcall as <- <-; eexists _, _; by split.
Qed.

Lemma callAIService_one_request_witness :
  ∃ res req,
    AIService.callAIService Sample.net "google" "Describe this" "key" None
      (Some AdapterSample.picture) []
    = (res, [] ++ [req])
    ∧ Spec.prompt_of req = Some "Describe this".
Proof.
  apply (callAIService_one_request Sample.net "google" "Describe this" "key" None
           (Some AdapterSample.picture) []).
  - apply supported_cases. right. right. left. reflexivity.
  - intros _. vm_compute. eexists. reflexivity.
Defined.

Local Ltac returned H :=
  unfold AIService.ret, AIService.throw in H; simpl in H; simplify_eq.

(** X5. Whenever [callAIService] returns, the service was one of the four
    supported ones and the result is tagged with the identifier it was
    called with. *)
Theorem callAIService_service
    (net : AIService.Network) (serviceId prompt apiKey : string)
    (model : option string) (image : option AIService.File)
    (log log' : list AIService.Request) (r : AIService.AIResponse) :
  AIService.callAIService net serviceId prompt apiKey model image log
  = (Js.Ok r, log') →
  Spec.supported serviceId ∧ AIService.service r = serviceId.
Proof.
  intros Hcall.
  destruct (decide (Spec.supported serviceId)) as [Hsup|Hno];
    [|by rewrite callAIService_default in Hcall].
  split; [done|].
  apply supported_cases in Hsup as [-> | [-> | [-> | ->]]].
  - rewrite callAIService_openai in Hcall.
    unfold AIService.callOpenAI, AIService.try_catch, AIService.bind,
      AIService.axios_post, AIService.index0 in Hcall.
    destruct (AIService.openai_api _ _ _) as [d|e];
      [destruct (AIService.OpenAI.choices d)|]; by returned Hcall.
  - rewrite callAIService_anthropic in Hcall.
    unfold AIService.callAnthropic, AIService.try_catch, AIService.bind,
      AIService.axios_post, AIService.index0 in Hcall.
    destruct (AIService.anthropic_api _ _ _) as [d|e];
      [destruct (AIService.Anthropic.content d)|]; by returned Hcall.
  - rewrite callAIService_google in Hcall.
    unfold AIService.callGoogle, AIService.try_catch, AIService.bind,
      AIService.axios_post in Hcall.
    destruct image as [f|]; [destruct (AIService.base64 f)|];
      unfold AIService.ret at 1, AIService.throw at 1 in Hcall; try done;
      destruct (AIService.google_api _ _ _) as [d|e]; by returned Hcall.
  - rewrite callAIService_groq in Hcall.
    unfold AIService.callGroq, AIService.try_catch, AIService.bind,
      AIService.axios_post, AIService.index0 in Hcall.
    destruct (AIService.groq_api _ _ _) as [d|e];
      [destruct (AIService.OpenAI.choices d)|]; by returned Hcall.
Qed.

Lemma callAIService_service_witness :
  Spec.supported "anthropic" ∧ AIService.service Sample.second_answer = "anthropic".
Proof.
  apply (callAIService_service Sample.net "anthropic" "Hello" "key" None None []
           [AIService.anthropic_request "Hello" "key" (Some "claude-3-haiku-20240307")]
           Sample.second_answer).
  vm_compute. reflexivity.
Defined.

(** The model is defaulted once: calling with a model behaves as calling
    with the model in effect, so no model, the empty model and the
    provider's default passed explicitly cannot be told apart. *)
Lemma callAIService_default_model
    (net : AIService.Network) (serviceId prompt apiKey : string)
    (model : option string) (image : option AIService.File) :
  AIService.callAIService net serviceId prompt apiKey model image
  = AIService.callAIService net serviceId prompt apiKey
      (Js.or_opt model (AIService.DEFAULT_MODELS !! serviceId)) image
  ∧ AIService.callAIService net serviceId prompt apiKey (Some "") image
    = AIService.callAIService net serviceId prompt apiKey None image
  ∧ (∀ d, AIService.DEFAULT_MODELS !! serviceId = Some d →
          AIService.callAIService net serviceId prompt apiKey (Some d) image
          = AIService.callAIService net serviceId prompt apiKey None image).
Proof.
  split; [|split].
  - unfold AIService.callAIService. by rewrite or_opt_idempotent.
  - reflexivity.
  - intros d Hd. unfold AIService.callAIService. rewrite Hd. simpl.
    by destruct (String.eqb d "").
Qed.

Lemma callAIService_default_model_witness :
  AIService.callAIService Sample.net "groq" "Hello" "key" (Some "llama3-8b-8192") None
  = AIService.callAIService Sample.net "groq" "Hello" "key" None None.
Proof.
  apply (callAIService_default_model Sample.net "groq" "Hello" "key" None None).
  vm_compute. reflexivity.
Defined.

Lemma testConnection_true (net : AIService.Network)
    (log : list AIService.Request) (apiKey : string) (model : option string)
    (serviceId : string) (text : option string) :
  Spec.Answered net log "Hello" apiKey model None serviceId text →
  ∃ req,
    AIService.testConnection net serviceId apiKey model log = (true, log ++ [req])
    ∧ Spec.prompt_of req = Some "Hello".
Proof.
  intros Hans. unfold AIService.testConnection.
  destruct Hans as [data Hnet [l Hl]|data Hnet [l Hl]|data parts Hparts Hnet|data Hnet [l Hl]].
  - rewrite callAIService_openai, (callOpenAI_resolved _ _ _ _ _ _ _ Hnet Hl). by eexists.
  - rewrite callAIService_anthropic, (callAnthropic_resolved _ _ _ _ _ _ _ Hnet Hl).
    by eexists.
  - injection Hparts as <-.
    rewrite callAIService_google,
      (callGoogle_resolved _ _ _ _ None _ _ [AIService.text_part "Hello"] eq_refl Hnet).
    by eexists.
  - rewrite callAIService_groq, (callGroq_resolved _ _ _ _ _ _ _ Hnet Hl). by eexists.
Qed.

Lemma testConnection_false (net : AIService.Network)
    (log : list AIService.Request) (apiKey : string) (model : option string)
    (serviceId : string) (error : Js.Error) :
  AdapterSpec.Rejected net log "Hello" apiKey model None serviceId error →
  ∃ req, AIService.testConnection net serviceId apiKey model log
         = (false, log ++ [req]).
Proof.
  intros Hrej. unfold AIService.testConnection.
  destruct Hrej as [e Hnet|e Hnet|e parts Hparts Hnet|e Hnet].
  - rewrite callAIService_openai, (callOpenAI_rejected _ _ _ _ _ _ Hnet). by eexists.
  - rewrite callAIService_anthropic, (callAnthropic_rejected _ _ _ _ _ _ Hnet).
    by eexists.
  - rewrite callAIService_google, (callGoogle_parts _ _ _ _ _ _ _ Hparts), Hnet.
    by eexists.
  - rewrite callAIService_groq, (callGroq_rejected _ _ _ _ _ _ Hnet). by eexists.
Qed.

(** X6. [testConnection] reports success on any well-formed answer to its
    one request, which carries the prompt "Hello", whether or not the
    answer holds any text. *)
Theorem testConnection_answered
    (net : AIService.Network) (log : list AIService.Request)
    (apiKey : string) (model : option string) (serviceId : string)
    (text : option string) :
  Spec.Answered net log "Hello" apiKey model None serviceId text →
  ∃ req,
    AIService.testConnection net serviceId apiKey model log = (true, log ++ [req])
    ∧ Spec.prompt_of req = Some "Hello".
Proof. apply testConnection_true. Qed.

Lemma testConnection_answered_witness :
  ∃ req,
    AIService.testConnection Sample.net "google" "key" None [] = (true, [] ++ [req])
    ∧ Spec.prompt_of req = Some "Hello".
Proof.
  apply (testConnection_answered Sample.net [] "key" None "google"
           (AIService.Google.text_of Sample.google_data)).
  apply (Spec.answered_google Sample.net [] "Hello" "key" None None
           Sample.google_data [AIService.text_part "Hello"]);
    vm_compute; reflexivity.
Defined.

(** X7. [testConnection] reports failure, and never throws: without any
    request for a service that is not supported, and after its one request
    when that request fails. *)
Theorem testConnection_fails
    (net : AIService.Network) (log : list AIService.Request)
    (apiKey : string) (model : option string) (serviceId : string) :
  (¬ Spec.supported serviceId →
     AIService.testConnection net serviceId apiKey model log = (false, log))
  ∧ (∀ error,
       AdapterSpec.Rejected net log "Hello" apiKey model None serviceId error →
       ∃ req, AIService.testConnection net serviceId apiKey model log
              = (false, log ++ [req])).
Proof.
  split.
  - intros Hno. unfold AIService.testConnection.
    by rewrite callAIService_default.
  - intros error. apply testConnection_false.
Qed.

Lemma testConnection_fails_witness :
  AIService.testConnection Sample.net "mistral" "key" None [] = (false, [])
  ∧ ∃ req, AIService.testConnection Sample.net "groq" "key" None []
           = (false, [] ++ [req]).
Proof.
  split.
  - apply (testConnection_fails Sample.net [] "key" None "mistral").
    rewrite supported_cases. intros [H|[H|[H|H]]]; discriminate H.
  - apply (testConnection_fails Sample.net [] "key" None "groq")
      with (error := AdapterSample.groq_rejection).
    apply AdapterSpec.rejected_groq. vm_compute. reflexivity.
Defined.

(** X8. A 2xx answer of OpenAI, Anthropic or Groq that lacks the array the
    adapter indexes is not given the placeholder: the adapter throws,
    after its one request, the provider's prefix followed by the message
    of the TypeError. *)
Theorem callAIService_malformed
    (net : AIService.Network) (log : list AIService.Request)
    (prompt apiKey : string) (model : option string)
    (image : option AIService.File) (serviceId : string) :
  AdapterSpec.Malformed net log prompt apiKey model serviceId →
  ∃ req,
    AIService.callAIService net serviceId prompt apiKey model image log
    = (Js.Throw (Js.new_Error (AdapterSpec.error_prefix serviceId
                               +:+ Js.message Js.TypeError_index0)),
       log ++ [req]).
Proof.
  intros Hmal.
  destruct Hmal as [data Hnet Hnone|data Hnet Hnone|data Hnet Hnone].
  - rewrite callAIService_openai.
    unfold AIService.callOpenAI, AIService.try_catch, AIService.bind,
      AIService.axios_post. rewrite Hnet, Hnone. by eexists.
  - rewrite callAIService_anthropic.
    unfold AIService.callAnthropic, AIService.try_catch, AIService.bind,
      AIService.axios_post. rewrite Hnet, Hnone. by eexists.
  - rewrite callAIService_groq.
    unfold AIService.callGroq, AIService.try_catch, AIService.bind,
      AIService.axios_post. rewrite Hnet, Hnone. by eexists.
Qed.

Lemma callAIService_malformed_witness :
  ∃ req,
    AIService.callAIService AdapterSample.net_malformed "openai" "Hello" "key"
      None None []
    = (Js.Throw (Js.new_Error (AdapterSpec.error_prefix "openai"
                               +:+ Js.message Js.TypeError_index0)),
       [] ++ [req]).
Proof.
  apply (callAIService_malformed AdapterSample.net_malformed [] "Hello" "key"
           None None "openai").
  eapply AdapterSpec.malformed_openai; vm_compute; reflexivity.
Defined.

(** ** Further properties of the stage sequencer *)

Section SequencerMore.
Import Js AIService GarageWorkflow Spec SequencerSpec.
Variable selectedOption : GaragePage.GarageOption.
Variable connections : gmap string AppContext.AIConnection.
Variable net : Network.

Local Abbreviation processStep := (processStep selectedOption connections net).
Local Abbreviation Runs := (Runs selectedOption connections net).
Local Abbreviation run := (run selectedOption connections net).
Local Abbreviation tick := (tick selectedOption connections net).
Local Abbreviation fire := (fire selectedOption connections net).
Local Abbreviation startWorkflow := (startWorkflow selectedOption connections net).
Local Abbreviation handleAddMore := (handleAddMore selectedOption connections net).
Local Abbreviation handlePassToNext := (handlePassToNext selectedOption connections net).
Local Abbreviation resetWorkflow := (resetWorkflow selectedOption).
Local Abbreviation perform := (perform selectedOption connections net).
Local Abbreviation after := (after selectedOption connections net).

(** *** How the stage list changes *)

Lemma processStep_rewrite env j p w :
  ∃ f, Rewrite j f
       ∧ workflowSteps (state (processStep env j p w))
         = mapAt j f (workflowSteps (state w)).
Proof.
  assert (Hkeep : ∀ w' : World,
             workflowSteps (state w') = workflowSteps (state w) →
             ∃ f, Rewrite j f
                  ∧ workflowSteps (state w') = mapAt j f (workflowSteps (state w))).
  { intros w' ->. exists (λ s, s). split; [constructor|]. by rewrite mapAt_id. }
  unfold GarageWorkflow.processStep.
  destruct (workflowSteps env !! j) as [step|]; [|by apply Hkeep].
  destruct (truthy (roleAssignments env !! role step)) as [ai|]; [|by apply Hkeep].
  destruct (truthy (connections !! ai ≫= AppContext.apiKey)) as [key|];
    [|by apply Hkeep].
  cbv zeta.
  destruct (createRolePrompt selectedOption step p j) as [rp|e].
  - destruct (callAIService net ai rp key _ None _) as [[r|e] log].
    + eexists. split; [apply (rewrite_finish j (content r) p)|].
      unfold processStep_then.
      destruct (j =? 0); [|destruct (j <? _)]; simpl; by rewrite mapAt_mapAt.
    + eexists. split; [apply (rewrite_pending j p)|].
      simpl. by rewrite mapAt_mapAt.
  - eexists. split; [apply (rewrite_pending j p)|].
    simpl. by rewrite mapAt_mapAt.
Qed.

(** Every action either rebuilds the list from the template or rewrites
    one stage of it. *)
Lemma perform_stages a w :
  workflowSteps (state (perform a w)) = initialSteps selectedOption
  ∨ ∃ j f, Rewrite j f
           ∧ workflowSteps (state (perform a w))
             = mapAt j f (workflowSteps (state w)).
Proof.
  assert (Hkeep : ∀ w' : World,
             workflowSteps (state w') = workflowSteps (state w) →
             ∃ j f, Rewrite j f
                    ∧ workflowSteps (state w') = mapAt j f (workflowSteps (state w))).
  { intros w' ->. exists 0, (λ s, s). split; [constructor|]. by rewrite mapAt_id. }
  assert (Hstep : ∀ env j p (w' : World),
             workflowSteps (state w') = workflowSteps (state w) →
             ∃ j' f, Rewrite j' f
                     ∧ workflowSteps (state (processStep env j p w'))
                       = mapAt j' f (workflowSteps (state w))).
  { intros env j p w' <-. exists j. apply processStep_rewrite. }
  destruct a; simpl.
  - right. by apply Hkeep.
  - right. by apply Hkeep.
  - right. by apply Hkeep.
  - right. unfold GarageWorkflow.startWorkflow.
    destruct (validateSetup (state w)); simpl; [by apply Hstep | by apply Hkeep].
  - right. unfold GarageWorkflow.handleAddMore.
    destruct (String.eqb _ ""); [by apply Hkeep | by apply Hstep].
  - right. unfold GarageWorkflow.handlePassToNext.
    destruct (workflowSteps (state w) !! currentStep (state w)) as [s|];
      [|by apply Hkeep].
    destruct (truthy (response s)); [|by apply Hkeep].
    destruct (createNextStepPrompt _ _ _ _ _); [by apply Hstep | by apply Hkeep].
  - by left.
  - right. unfold GarageWorkflow.tick.
    destruct (timers w) as [|t ts]; [by apply Hkeep|].
    unfold GarageWorkflow.fire.
    destruct (createNextStepPrompt _ _ _ _ _); [by apply Hstep | by apply Hkeep].
Qed.

Lemma after_snoc actions a w :
  after (actions ++ [a]) w = perform a (after actions w).
Proof. unfold SequencerSpec.after. by rewrite foldl_app. Qed.

(** Induction over the worlds reachable from the mounted component. *)
Lemma reachable_stages (P : list WorkflowStep → Prop) :
  P (initialSteps selectedOption) →
  (∀ l j f, Rewrite j f → P l → P (mapAt j f l)) →
  ∀ actions, P (workflowSteps (state (after actions (mounted selectedOption)))).
Proof.
  intros Hinit Hstep actions.
  induction actions as [|a actions IH] using rev_ind; [done|].
  rewrite after_snoc.
  destruct (perform_stages a (after actions (mounted selectedOption)))
    as [->|(j & f & Hf & ->)]; [done|]. by apply Hstep.
Qed.

Lemma Rewrite_skeleton j f s : Rewrite j f → skeleton (f s) = skeleton s.
Proof. by intros []. Qed.

Lemma mapAt_skeleton j f l :
  Rewrite j f → map skeleton (mapAt j f l) = map skeleton l.
Proof.
  intros Hf. apply list_eq. intros i. rewrite !list_lookup_fmap, mapAt_lookup.
  destruct (l !! i) as [s|]; simpl; [|done].
  case_decide; [|done]. by rewrite (Rewrite_skeleton j f s Hf).
Qed.

(** X9. Whatever the user does and whichever timers fire, the list of
    stages keeps the template's roles, in the template's order: every stage
    keeps its id, its role and its role's name. *)
Theorem stages_follow_template actions :
  map skeleton (workflowSteps (state (after actions (mounted selectedOption))))
  = map (λ entry, (entry.1, entry.1, name entry.2)) (roles selectedOption).
Proof.
  apply (reachable_stages
           (λ l, map skeleton l
                 = map (λ entry, (entry.1, entry.1, name entry.2))
                       (roles selectedOption))).
  - unfold initialSteps. rewrite map_map. done.
  - intros l j f Hf <-. by apply mapAt_skeleton.
Qed.

(** X10. In every world reachable from the mounted component, once the
    handlers and timers have run, no stage is left [processing]; only
    stage 0 can be awaiting the user's decision and it is never
    [completed]; and a stage that is not [pending] holds an answer. *)
Theorem reachable_stage_status actions i s :
  workflowSteps (state (after actions (mounted selectedOption))) !! i = Some s →
  status s ≠ processing
  ∧ (status s = user_input → i = 0)
  ∧ (status s = completed → 0 < i)
  ∧ (status s ≠ pending → is_Some (response s)).
Proof.
  revert i s.
  apply (reachable_stages
           (λ l, ∀ i s, l !! i = Some s →
                        status s ≠ processing
                        ∧ (status s = user_input → i = 0)
                        ∧ (status s = completed → 0 < i)
                        ∧ (status s ≠ pending → is_Some (response s)))).
  - intros i s Hs. apply list_elem_of_lookup_2 in Hs.
    unfold initialSteps in Hs. apply list_elem_of_fmap in Hs as (entry & -> & _).
    simpl. repeat split; done.
  - intros l j f Hf Hl i s'. rewrite mapAt_lookup.
    destruct (l !! i) as [s|] eqn:Hs; simpl; [|done]. intros [= <-].
    case_decide as Hij; [|by apply Hl]. subst i.
    destruct Hf; simpl.
    + by apply Hl.
    + destruct j; simpl; repeat split; try done; try lia; by eexists.
    + repeat split; done.
Qed.

(** *** Timers *)

Lemma processStep_timer env j p w :
  timers (processStep env j p w) = timers w
  ∨ ∃ t, timers (processStep env j p w) = timers w ++ [t]
         ∧ closure t = env ∧ finishedIndex t = j
         ∧ 0 < j ∧ j < length (workflowSteps env) - 1.
Proof.
  unfold GarageWorkflow.processStep.
  destruct (workflowSteps env !! j) as [step|]; [|by left].
  destruct (truthy (roleAssignments env !! role step)) as [ai|]; [|by left].
  destruct (truthy (connections !! ai ≫= AppContext.apiKey)) as [key|]; [|by left].
  cbv zeta.
  destruct (createRolePrompt selectedOption step p j) as [rp|e]; [|by left].
  destruct (callAIService net ai rp key _ None _) as [[r|e] log]; [|by left].
  unfold processStep_then.
  destruct j as [|j]; simpl; [by left|].
  destruct (S j <? _) eqn:Hlt; simpl; [|by left].
  right. eexists. split; [done|]. simpl. apply Nat.ltb_lt in Hlt.
  repeat split; [lia|done].
Qed.

Lemma work_tick w : timers w ≠ [] → work (tick w) < work w.
Proof.
  unfold GarageWorkflow.tick, work.
  destruct (timers w) as [|t ts] eqn:Hts; [done|]. intros _.
  unfold GarageWorkflow.fire.
  destruct (createNextStepPrompt _ _ _ _ _) as [np|e]; [|simpl; lia].
  destruct (processStep_timer (closure t) (finishedIndex t + 1) np (setTimers ts w))
    as [->|(t' & -> & Hc & Hi & _ & Hlt)]; simpl; [lia|].
  rewrite map_app, sum_list_with_app. simpl. rewrite Hc, Hi. lia.
Qed.

Lemma run_S n w : run (S n) w = run n (tick w).
Proof. done. Qed.

Lemma run_work n w : work w ≤ n → timers (run n w) = [].
Proof.
  revert w. induction n as [|n IH]; intros w Hw.
  - simpl. unfold work in Hw. destruct (timers w); [done|simpl in Hw; lia].
  - rewrite run_S. destruct (timers w) as [|t ts] eqn:Hts.
    + unfold GarageWorkflow.tick. rewrite Hts. apply IH.
      unfold work. rewrite Hts. simpl. lia.
    + apply IH. assert (work (tick w) < work w); [|lia].
      apply work_tick. by rewrite Hts.
Qed.

(** X11. The chain of timers stops: running at least [work w] firings
    leaves no timer pending, and after the user passes stage 0 on from a
    world without timers, as many firings as there are stages suffice. *)
Theorem auto_advance_stops w n :
  (work w ≤ n → timers (run n w) = [])
  ∧ (timers w = [] →
     timers (run (length (workflowSteps (state w))) (handlePassToNext w)) = []).
Proof.
  split; [apply run_work|].
  intros Hidle. apply run_work.
  unfold GarageWorkflow.handlePassToNext, work.
  destruct (workflowSteps (state w) !! currentStep (state w)) as [s|];
    [|rewrite Hidle; simpl; lia].
  destruct (truthy (response s)); [|rewrite Hidle; simpl; lia].
  simpl state.
  destruct (createNextStepPrompt _ _ _ _ _) as [np|e]; [|simpl; rewrite Hidle; simpl; lia].
  destruct (processStep_timer (state w) (currentStep (state w) + 1) np
              (setShowAddMore false w))
    as [->|(t & -> & Hc & Hi & Hpos & Hlt)]; simpl; rewrite Hidle; simpl; [lia|].
  rewrite Hc, Hi. lia.
Qed.

(** X12. What follows a successful stage: after stage 0 the refinement
    footer is shown and nothing is scheduled; after a stage in the middle
    exactly one timer is set, carrying the answer for the next stage, and
    nothing is notified; after the last stage nothing is scheduled and the
    completion is notified. *)
Theorem processStep_success_next env i p w step rp r log :
  Runs env i p w step rp (Ok r, log) →
  let w' := processStep env i p w in
  (i = 0 →
     showAddMore (state w') = true ∧ timers w' = timers w ∧ toasts w' = toasts w)
  ∧ (0 < i → i < length (workflowSteps env) - 1 →
     timers w' = timers w ++ [{| closure := env; finished := step;
                                 answer := content r; finishedIndex := i |}]
     ∧ toasts w' = toasts w)
  ∧ (0 < i → length (workflowSteps env) - 1 ≤ i →
     timers w' = timers w
     ∧ toasts w' = toasts w ++ [toast_success "Workflow completed successfully!"]).
Proof.
  intros Hruns w'. unfold w'.
  rewrite (processStep_runs _ _ _ _ _ _ _ _ _ _ Hruns). cbv zeta.
  unfold processStep_then. split; [|split].
  - intros ->. done.
  - intros Hpos Hlt. destruct i as [|i]; [lia|]. simpl Nat.eqb. cbv iota.
    apply Nat.ltb_lt in Hlt. rewrite Hlt. done.
  - intros Hpos Hge. destruct i as [|i]; [lia|]. simpl Nat.eqb. cbv iota.
    apply Nat.ltb_ge in Hge. rewrite Hge. done.
Qed.

Lemma processStep_no_key env i p w step assignedAIId :
  workflowSteps env !! i = Some step →
  truthy (roleAssignments env !! role step) = Some assignedAIId →
  truthy (connections !! assignedAIId ≫= AppContext.apiKey) = None →
  processStep env i p w
  = toast (toast_error ("API key not found for " +:+ assignedAIId)) w.
Proof.
  intros Hstep Hai Hkey. unfold GarageWorkflow.processStep.
  by rewrite Hstep, Hai, Hkey.
Qed.

(** X13. When the provider assigned to a stage's role has no stored
    credential, [processStep] notifies "API key not found for" that
    provider and changes nothing else: no stage is marked, no request is
    issued, no timer is set. *)
Theorem processStep_missing_credential env i p w step assignedAIId :
  workflowSteps env !! i = Some step →
  truthy (roleAssignments env !! role step) = Some assignedAIId →
  truthy (connections !! assignedAIId ≫= AppContext.apiKey) = None →
  let w' := processStep env i p w in
  state w' = state w ∧ requests w' = requests w ∧ timers w' = timers w
  ∧ toasts w' = toasts w ++ [toast_error ("API key not found for " +:+ assignedAIId)].
Proof.
  intros Hstep Hai Hkey. simpl.
  by rewrite (processStep_no_key _ _ _ _ _ _ Hstep Hai Hkey).
Qed.

(** X14. [handlePassToNext] does nothing when the current stage holds no
    answer; when it holds one and a next stage exists, it hides the
    refinement footer and runs the next stage with a prompt that embeds
    the answer whole; when there is no next stage it only hides the
    footer. *)
Theorem handlePassToNext_cases w s :
  workflowSteps (state w) !! currentStep (state w) = Some s →
  (truthy (response s) = None → handlePassToNext w = w)
  ∧ (∀ output nextStep nextRole,
       truthy (response s) = Some output →
       workflowSteps (state w) !! (currentStep (state w) + 1) = Some nextStep →
       get (roles selectedOption) (role nextStep) = Some nextRole →
       ∃ nextPrompt,
         embeds output nextPrompt
         ∧ handlePassToNext w
           = processStep (state w) (currentStep (state w) + 1) nextPrompt
               (setShowAddMore false w))
  ∧ (∀ output,
       truthy (response s) = Some output →
       workflowSteps (state w) !! (currentStep (state w) + 1) = None →
       handlePassToNext w = setShowAddMore false w).
Proof.
  intros Hs. unfold GarageWorkflow.handlePassToNext. rewrite Hs.
  split; [|split].
  - by intros ->.
  - intros output nextStep nextRole -> Hnext Hrole. simpl state.
    unfold GarageWorkflow.createNextStepPrompt. rewrite Hnext, Hrole.
    eexists. split; [|reflexivity].
    repeat first [apply embeds_here | apply embeds_later].
  - intros output -> Hnone. simpl state.
    unfold GarageWorkflow.createNextStepPrompt. by rewrite Hnone.
Qed.

(** X15. A set-up that passes validation but gives the role of stage 0 no
    provider starts a run in which nothing runs: the run is marked
    started, "No AI assigned to role" is notified, and no request is
    issued. *)
Theorem startWorkflow_without_first_provider w step :
  2 ≤ length (assignedRoles (roleAssignments (state w))) →
  trim (userPrompt (state w)) ≠ "" →
  workflowSteps (state w) !! 0 = Some step →
  truthy (roleAssignments (state w) !! role step) = None →
  startWorkflow w
  = toast (toast_error ("No AI assigned to role " +:+ role step))
      (setWorkflowStarted true w).
Proof.
  intros Hn Hp Hstep Hnone. unfold GarageWorkflow.startWorkflow.
  assert (Hvalid : validateSetup (state w) = true).
  { unfold validateSetup. apply andb_true_iff. split.
    - by apply Nat.leb_le.
    - by apply nonempty_length. }
  rewrite Hvalid. simpl negb. cbv iota.
  unfold GarageWorkflow.processStep. by rewrite Hstep, Hnone.
Qed.

(** X16. After [handleRoleAssignment roleId aiId] the role counts as
    assigned exactly when [aiId] is not empty, and the other roles count
    as they did: assigning the empty id is how a role is unassigned. *)
Theorem handleRoleAssignment_assigned roleId aiId w role' :
  role' ∈ assignedRoles (roleAssignments (state (handleRoleAssignment roleId aiId w)))
  ↔ (role' = roleId ∧ aiId ≠ "")
    ∨ (role' ≠ roleId ∧ role' ∈ assignedRoles (roleAssignments (state w))).
Proof.
  rewrite !elem_of_assignedRoles. simpl.
  destruct (decide (role' = roleId)) as [->|Hne].
  - rewrite lookup_insert_eq. split.
    + intros (ai & [= <-] & Hai). by left.
    + intros [[_ Hai]|[Hbad _]]; [by exists aiId | done].
  - rewrite lookup_insert_ne by done. split.
    + intros H. by right.
    + intros [[Hbad _]|[_ H]]; done.
Qed.


(** X18. A reset does not cancel a pending timer. If the timer then fires
    and the provider of the next stage answers, that stage of the reset
    run is completed with the answer although the run is not started. *)
Theorem reset_keeps_timers w t ts nextPrompt step rp r log s0 :
  timers w = t :: ts →
  createNextStepPrompt selectedOption (closure t) (finished t) (answer t)
    (finishedIndex t + 1) = Ok nextPrompt →
  Runs (closure t) (finishedIndex t + 1) nextPrompt w step rp (Ok r, log) →
  initialSteps selectedOption !! (finishedIndex t + 1) = Some s0 →
  let w' := tick (resetWorkflow w) in
  timers (resetWorkflow w) = t :: ts
  ∧ workflowStarted (state w') = false
  ∧ workflowSteps (state w') !! (finishedIndex t + 1)
    = Some (finish completed (content r) (startProcessing nextPrompt s0)).
Proof.
  intros Hts Hnext Hruns Hs0 w'. split; [done|].
  assert (Hw' : w' = processStep (closure t) (finishedIndex t + 1) nextPrompt
                       (setTimers ts (resetWorkflow w))).
  { unfold w', GarageWorkflow.tick. simpl timers. rewrite Hts.
    unfold GarageWorkflow.fire. by rewrite Hnext. }
  assert (Hruns' : Runs (closure t) (finishedIndex t + 1) nextPrompt
                     (setTimers ts (resetWorkflow w)) step rp (Ok r, log)).
  { exact Hruns. }
  rewrite Hw'. split.
  - by rewrite (frame_workflowStarted _ _ _ _ (processStep_frame _ _ _ _ _ _ _)).
  - rewrite (processStep_success _ _ _ _ _ _ _ _ _ _ _ s0 Hruns' Hs0).
    by replace (finishedIndex t + 1 =? 0) with false by (symmetry; apply Nat.eqb_neq; lia).
Qed.

End SequencerMore.

Section SequencerMoreWitnesses.
Import Js AIService GarageWorkflow Spec SequencerSpec.

Local Abbreviation build := GaragePage.build.
Local Abbreviation conns := Sample.connections.

Local Ltac evaluate := vm_compute; reflexivity.
Local Ltac runs ai key := exists ai, key; repeat split; evaluate.

Lemma reachable_stage_status_witness :
  status SequencerSample.stage_B_done ≠ processing
  ∧ (status SequencerSample.stage_B_done = user_input → 1 = 0)
  ∧ (status SequencerSample.stage_B_done = completed → 0 < 1)
  ∧ (status SequencerSample.stage_B_done ≠ pending →
     is_Some (response SequencerSample.stage_B_done)).
Proof.
  apply (reachable_stage_status build conns Sample.net SequencerSample.session 1
           SequencerSample.stage_B_done).
  evaluate.
Defined.

Lemma auto_advance_stops_witness :
  timers (run build conns Sample.net 5 SequencerSample.passed_on) = []
  ∧ timers (run build conns Sample.net
              (length (workflowSteps (state SequencerSample.staffed_started)))
              (handlePassToNext build conns Sample.net SequencerSample.staffed_started))
    = [].
Proof.
  split.
  - destruct (auto_advance_stops build conns Sample.net SequencerSample.passed_on 5)
      as [Hwork _].
    apply Hwork. vm_compute. lia.
  - destruct (auto_advance_stops build conns Sample.net
                SequencerSample.staffed_started 0) as [_ Hpass].
    apply Hpass. evaluate.
Defined.

Lemma processStep_success_next_witness :
  (let w' := processStep build conns Sample.net (state Sample.started) 1
               Sample.second_prompt Sample.started in
   timers w' = timers Sample.started
               ++ [{| closure := state Sample.started;
                      finished := Sample.stage "B" "Backend Developer";
                      answer := "backend"; finishedIndex := 1 |}]
   ∧ toasts w' = toasts Sample.started)
  ∧ (let w' := processStep build conns Sample.net (state SequencerSample.staffed) 4
                 "write the documentation" SequencerSample.staffed in
     timers w' = timers SequencerSample.staffed
     ∧ toasts w' = toasts SequencerSample.staffed
                   ++ [toast_success "Workflow completed successfully!"]).
Proof.
  pose (stage_B := Sample.stage "B" "Backend Developer").
  pose (stage_E := Sample.stage "E" "Documentation Specialist").
  pose (rp_B := Sample.rendered stage_B Sample.second_prompt 1).
  pose (rp_E := Sample.rendered stage_E "write the documentation" 4).
  split.
  - destruct (processStep_success_next build conns Sample.net
                (state Sample.started) 1 Sample.second_prompt Sample.started
                stage_B rp_B Sample.second_answer
                (Sample.log_after "anthropic" rp_B Sample.started))
      as (_ & Hmiddle & _).
    + runs "anthropic" "key-anthropic".
    + apply Hmiddle; [lia | vm_compute; lia].
  - destruct (processStep_success_next build conns Sample.net
                (state SequencerSample.staffed) 4 "write the documentation"
                SequencerSample.staffed
                stage_E rp_E Sample.first_answer
                (Sample.log_after "openai" rp_E SequencerSample.staffed))
      as (_ & _ & Hlast).
    + runs "openai" "key-openai".
    + apply Hlast; [lia | vm_compute; lia].
Defined.

Lemma processStep_missing_credential_witness :
  let w := SequencerSample.no_credential in
  let w' := processStep build conns Sample.net (state w) 0 "build a todo app" w in
  state w' = state w ∧ requests w' = requests w ∧ timers w' = timers w
  ∧ toasts w' = toasts w ++ [toast_error ("API key not found for " +:+ "google")].
Proof.
  apply (processStep_missing_credential build conns Sample.net
           (state SequencerSample.no_credential) 0 "build a todo app"
           SequencerSample.no_credential (Sample.stage "A" "Prompt Refiner") "google");
    evaluate.
Defined.

Lemma handlePassToNext_cases_witness :
  handlePassToNext build conns Sample.net (Sample.ready build) = Sample.ready build
  ∧ ∃ nextPrompt,
      embeds "refined" nextPrompt
      ∧ handlePassToNext build conns Sample.net Sample.started
        = processStep build conns Sample.net (state Sample.started)
            (currentStep (state Sample.started) + 1) nextPrompt
            (setShowAddMore false Sample.started).
Proof.
  destruct (handlePassToNext_cases build conns Sample.net (Sample.ready build)
              (Sample.stage "A" "Prompt Refiner") ltac:(evaluate))
    as (Hnone & _ & _).
  destruct (handlePassToNext_cases build conns Sample.net Sample.started
              Sample.stage_A_answered ltac:(evaluate))
    as (_ & Hnext & _).
  split.
  - apply Hnone. evaluate.
  - apply (Hnext "refined" (Sample.stage "B" "Backend Developer") Sample.role_B);
      evaluate.
Defined.

Lemma startWorkflow_without_first_provider_witness :
  startWorkflow build conns Sample.net SequencerSample.no_refiner
  = toast (toast_error ("No AI assigned to role " +:+ "A"))
      (setWorkflowStarted true SequencerSample.no_refiner).
Proof.
  apply (startWorkflow_without_first_provider build conns Sample.net
           SequencerSample.no_refiner (Sample.stage "A" "Prompt Refiner")).
  - vm_compute. lia.
  - vm_compute. discriminate.
  - evaluate.
  - evaluate.
Defined.

Lemma reset_keeps_timers_witness :
  let w' := tick build conns Sample.net (resetWorkflow build SequencerSample.passed_on) in
  timers (resetWorkflow build SequencerSample.passed_on)
  = SequencerSample.pending_timer :: []
  ∧ workflowStarted (state w') = false
  ∧ workflowSteps (state w') !! (1 + 1)
    = Some (finish completed "refined again"
              (startProcessing SequencerSample.third_prompt
                 (Sample.stage "C" "Frontend Designer"))).
Proof.
  pose (stage_C := Sample.stage "C" "Frontend Designer").
  pose (rp_C := Sample.rendered stage_C SequencerSample.third_prompt 2).
  apply (reset_keeps_timers build conns Sample.net SequencerSample.passed_on
           SequencerSample.pending_timer [] SequencerSample.third_prompt
           stage_C rp_C Sample.refined_answer
           (Sample.log_after "openai" rp_C SequencerSample.passed_on) stage_C).
  - evaluate.
  - evaluate.
  - runs "openai" "key-openai".
  - evaluate.
Defined.

(** On a set-up where every role has an answering provider the run goes
    through: each later stage is completed, the completion is notified
    once, and five requests were issued. *)
Example staffed_run :
  let w := run build conns Sample.net 5 SequencerSample.passed_on in
  (status <$> workflowSteps (state w))
  = [user_input; completed; completed; completed; completed]
  ∧ toasts w = [toast_success "Workflow completed successfully!"]
  ∧ length (requests w) = 5
  ∧ timers w = [].
Proof. vm_compute. repeat split. Qed.

End SequencerMoreWitnesses.

(** ** The provider of theme and connections *)

Section ProviderFacts.
Import Js AppProviders.
Variable stringify : gmap string AppContext.AIConnection → string.
Variable parse : string → option (gmap string AppContext.AIConnection).

Lemma remove_keys_lookup prefix (keys : list string) (storage : gmap string string) key :
  foldl (λ storage key,
           if startsWith key prefix then delete key storage else storage)
        storage keys !! key
  = if startsWith key prefix && bool_decide (key ∈ keys) then None
    else storage !! key.
Proof.
  revert storage. induction keys as [|k keys IH]; intros storage; simpl.
  - by rewrite andb_false_r.
  - rewrite IH. destruct (startsWith key prefix) eqn:Hkey; simpl; [|
      destruct (startsWith k prefix) eqn:Hk; [|done];
      rewrite lookup_delete_ne; [done|]; intros ->; congruence].
    destruct (decide (key = k)) as [->|Hne].
    + rewrite Hkey, lookup_delete_eq.
      rewrite (bool_decide_eq_true_2 (k ∈ k :: keys)) by (apply elem_of_cons; by left).
      by destruct (bool_decide (k ∈ keys)).
    + rewrite (bool_decide_ext (key ∈ k :: keys) (key ∈ keys))
        by (rewrite elem_of_cons; tauto).
      destruct (bool_decide (key ∈ keys)); [done|].
      destruct (startsWith k prefix); [|done]. by rewrite lookup_delete_ne.
Qed.

(** [remove_prefixed] removes the keys that start with the prefix, and
    only those. *)
Lemma remove_prefixed_lookup prefix (storage : gmap string string) key :
  remove_prefixed prefix storage !! key
  = if startsWith key prefix then None else storage !! key.
Proof.
  unfold remove_prefixed. rewrite remove_keys_lookup.
  destruct (startsWith key prefix); simpl; [|done].
  case_bool_decide as Hin; [done|].
  destruct (storage !! key) as [v|] eqn:Hv; [|done]. destruct Hin.
  apply list_elem_of_fmap. exists (key, v). split; [done|].
  by apply elem_of_map_to_list.
Qed.

Lemma prefix_trans (a b c : string) :
  String.prefix a b = true → String.prefix b c = true → String.prefix a c = true.
Proof.
  revert b c. induction a as [|x a IH]; intros b c; [by destruct c|].
  destruct b as [|y b]; [done|]. destruct c as [|z c]; [done|].
  simpl. destruct (Ascii.ascii_dec x y) as [->|]; [|done].
  destruct (Ascii.ascii_dec y z) as [->|]; [|done]. apply IH.
Qed.

(** X19. [clearHistory] removes from [localStorage] every key that starts
    with "bunny-chat-history" and no other: the persisted theme and
    connections stay, and so do the theme and connections in use. *)
Theorem clearHistory_removes_history_only (s : Store) :
  (∀ key, localStorage (clearHistory s) !! key
          = if startsWith key "bunny-chat-history" then None
            else localStorage s !! key)
  ∧ localStorage (clearHistory s) !! "bunny-connections"
    = localStorage s !! "bunny-connections"
  ∧ localStorage (clearHistory s) !! "bunny-theme" = localStorage s !! "bunny-theme"
  ∧ connections (clearHistory s) = connections s
  ∧ theme (clearHistory s) = theme s
  ∧ reload_pending (clearHistory s) = reload_pending s.
Proof.
  split; [|split; [|split]].
  - intros key. apply remove_prefixed_lookup.
  - simpl. by rewrite remove_prefixed_lookup.
  - simpl. by rewrite remove_prefixed_lookup.
  - done.
Qed.

(** X20. [resetAllSettings] followed by the reload it schedules always
    yields a store: no connection is left, the theme is "dark" again,
    no notification is shown, and the keys of [localStorage] that do not
    start with "bunny-" are as they were. Until the reload the connections
    in use are untouched. *)
Theorem resetAllSettings_then_reload (s : Store) :
  reload_pending (resetAllSettings s) = true
  ∧ connections (resetAllSettings s) = connections s
  ∧ ∃ s', reload stringify parse (resetAllSettings s) = Some s'
          ∧ connections s' = ∅
          ∧ theme s' = "dark"
          ∧ toasts s' = []
          ∧ ∀ key, startsWith key "bunny-" = false →
                   localStorage s' !! key = localStorage s !! key.
Proof.
  split; [done|]. split; [done|].
  unfold reload, mount. simpl localStorage.
  rewrite !remove_prefixed_lookup. simpl.
  eexists. split; [reflexivity|]. simpl. repeat split.
  intros key Hkey.
  assert (key ≠ "bunny-connections") by (intros ->; done).
  assert (key ≠ "bunny-theme") by (intros ->; done).
  rewrite !lookup_insert_ne by done.
  by rewrite remove_prefixed_lookup, Hkey.
Qed.

(** X21. Resetting everything after clearing the history leaves
    [localStorage] as resetting everything alone does. *)
Theorem resetAllSettings_subsumes_clearHistory (s : Store) :
  localStorage (resetAllSettings (clearHistory s))
  = localStorage (resetAllSettings s).
Proof.
  simpl. apply map_eq. intros key. rewrite !remove_prefixed_lookup.
  destruct (startsWith key "bunny-") eqn:Hkey; [done|].
  destruct (startsWith key "bunny-chat-history") eqn:Hhist; [|done].
  assert (startsWith key "bunny-" = true); [|congruence].
  by apply (prefix_trans "bunny-" "bunny-chat-history" key).
Qed.


End ProviderFacts.


(** ** Connecting a service *)

Section SettingsFacts.
Import Js AIService Spec AdapterSpec.
Variable net : Network.
Variable stringify : gmap string AppContext.AIConnection → string.

(** What [handleConnect] stores, by the result of the test. *)
Lemma handleConnect_tested serviceId p apiKey isConnected log :
  truthy (SettingsPage.apiKeys p !! serviceId) = Some apiKey →
  testConnection net serviceId apiKey
    (or_opt (SettingsPage.modelNames p !! serviceId) (DEFAULT_MODELS !! serviceId))
    (SettingsPage.requests p) = (isConnected, log) →
  let p' := SettingsPage.handleConnect net stringify serviceId p in
  AppProviders.connections (SettingsPage.store p')
  = <[serviceId :=
        if isConnected then
          {| AppContext.id := serviceId; AppContext.status := AppContext.connected;
             AppContext.apiKey := Some apiKey; AppContext.email := None;
             AppContext.model := or_opt (SettingsPage.modelNames p !! serviceId)
                                        (DEFAULT_MODELS !! serviceId) |}
        else
          {| AppContext.id := serviceId; AppContext.status := AppContext.error;
             AppContext.apiKey := None; AppContext.email := None;
             AppContext.model := None |}]>
      (AppProviders.connections (SettingsPage.store p))
  ∧ SettingsPage.requests p' = log
  ∧ SettingsPage.loading p' !! serviceId = Some false
  ∧ SettingsPage.apiKeys p' = SettingsPage.apiKeys p.
Proof.
  intros Hkey Htest. unfold SettingsPage.handleConnect. rewrite Hkey.
  cbv zeta. simpl SettingsPage.requests. rewrite Htest.
  destruct isConnected; simpl; rewrite lookup_insert_eq; done.
Qed.

(** X23. [handleConnect] without a typed key only notifies. With a key,
    a well-formed answer to the test request stores the service as
    connected with that key and the model in effect, so that the key is
    found afterwards; a failed test request stores it in error without
    any key, whatever was stored before. Other services keep their
    connection. *)
Theorem handleConnect_outcome serviceId p :
  let p' := SettingsPage.handleConnect net stringify serviceId p in
  let model := or_opt (SettingsPage.modelNames p !! serviceId)
                      (DEFAULT_MODELS !! serviceId) in
  (truthy (SettingsPage.apiKeys p !! serviceId) = None →
     p' = SettingsPage.withStore
            (AppProviders.toast (GarageWorkflow.toast_error "Please enter an API key.")) p)
  ∧ (∀ apiKey text,
       truthy (SettingsPage.apiKeys p !! serviceId) = Some apiKey →
       Answered net (SettingsPage.requests p) "Hello" apiKey model None serviceId text →
       AppProviders.connections (SettingsPage.store p') !! serviceId
       = Some {| AppContext.id := serviceId; AppContext.status := AppContext.connected;
                 AppContext.apiKey := Some apiKey; AppContext.email := None;
                 AppContext.model := model |}
       ∧ truthy (AppProviders.connections (SettingsPage.store p') !! serviceId
                 ≫= AppContext.apiKey) = Some apiKey)
  ∧ (∀ apiKey error,
       truthy (SettingsPage.apiKeys p !! serviceId) = Some apiKey →
       Rejected net (SettingsPage.requests p) "Hello" apiKey model None serviceId error →
       AppProviders.connections (SettingsPage.store p') !! serviceId
       = Some {| AppContext.id := serviceId; AppContext.status := AppContext.error;
                 AppContext.apiKey := None; AppContext.email := None;
                 AppContext.model := None |})
  ∧ (∀ other, other ≠ serviceId →
       AppProviders.connections (SettingsPage.store p') !! other
       = AppProviders.connections (SettingsPage.store p) !! other).
Proof.
  intros p' model. split; [|split; [|split]].
  - intros Hnone. unfold p', SettingsPage.handleConnect. by rewrite Hnone.
  - intros apiKey text Hkey Hans.
    destruct (testConnection_true net _ _ _ _ _ Hans) as [req [Htest _]].
    destruct (handleConnect_tested serviceId p apiKey true _ Hkey Htest) as [Hc _].
    unfold p'. rewrite Hc, lookup_insert_eq. split; [done|].
    pose proof (proj1 (truthy_Some _ _) Hkey) as [_ Hne].
    simpl. by destruct (String.eqb_spec apiKey "").
  - intros apiKey error Hkey Hrej.
    destruct (testConnection_false net _ _ _ _ _ Hrej) as [req Htest].
    destruct (handleConnect_tested serviceId p apiKey false _ Hkey Htest) as [Hc _].
    unfold p'. by rewrite Hc, lookup_insert_eq.
  - intros other Hne. unfold p', SettingsPage.handleConnect.
    destruct (truthy (SettingsPage.apiKeys p !! serviceId)) as [apiKey|]; [|done].
    cbv zeta. destruct (testConnection net serviceId apiKey _ _) as [[] log];
      simpl; by rewrite lookup_insert_ne.
Qed.

(** [handleDisconnect] removes the connection and empties what was
    typed for the service, so that connecting again at once is refused
    for want of a key, without any request. *)
Lemma handleDisconnect_then_connect serviceId p :
  let p1 := SettingsPage.handleDisconnect stringify serviceId p in
  AppProviders.connections (SettingsPage.store p1) !! serviceId = None
  ∧ SettingsPage.apiKeys p1 !! serviceId = Some ""
  ∧ SettingsPage.modelNames p1 !! serviceId = Some ""
  ∧ SettingsPage.handleConnect net stringify serviceId p1
    = SettingsPage.withStore
        (AppProviders.toast (GarageWorkflow.toast_error "Please enter an API key.")) p1.
Proof.
  simpl. rewrite lookup_delete_eq. repeat split; try by rewrite lookup_insert_eq.
  unfold SettingsPage.handleConnect. simpl SettingsPage.apiKeys.
  by rewrite lookup_insert_eq.
Qed.

(** X24. The modal's [testConnection] refuses a key that is empty once
    trimmed, with a notification and no request. Otherwise it always ends
    with no test in progress; a well-formed answer stores the service as
    connected with the key and no model and empties the typed key; a failed
    request notifies "Connection failed: Connection test failed" and stores
    the service in error without a key. *)
Theorem modal_testConnection_outcome serviceId apiKey m :
  let m' := SettingsModal.testConnection net stringify serviceId apiKey m in
  (trim apiKey = "" →
     m' = SettingsModal.withStore
            (AppProviders.toast
               (GarageWorkflow.toast_error "Please enter an API key first")) m)
  ∧ (trim apiKey ≠ "" → SettingsModal.testingConnection m' = None)
  ∧ (∀ text,
       trim apiKey ≠ "" →
       Answered net (SettingsModal.requests m) "Hello" apiKey None None serviceId text →
       AppProviders.connections (SettingsModal.store m') !! serviceId
       = Some {| AppContext.id := serviceId; AppContext.status := AppContext.connected;
                 AppContext.apiKey := Some apiKey; AppContext.email := None;
                 AppContext.model := None |}
       ∧ SettingsModal.apiKeys m' !! serviceId = Some "")
  ∧ (∀ error,
       trim apiKey ≠ "" →
       Rejected net (SettingsModal.requests m) "Hello" apiKey None None serviceId error →
       AppProviders.connections (SettingsModal.store m') !! serviceId
       = Some {| AppContext.id := serviceId; AppContext.status := AppContext.error;
                 AppContext.apiKey := None; AppContext.email := None;
                 AppContext.model := None |}
       ∧ AppProviders.toasts (SettingsModal.store m')
         = AppProviders.toasts (SettingsModal.store m)
           ++ [GarageWorkflow.toast_error "Connection failed: Connection test failed"]).
Proof.
  intros m'. unfold m', SettingsModal.testConnection.
  split; [|split; [|split]].
  - by intros ->.
  - intros Hne. destruct (String.eqb_spec (trim apiKey) ""); [done|].
    cbv zeta. by destruct (testConnection net serviceId apiKey None _) as [[] log].
  - intros text Hne Hans. destruct (String.eqb_spec (trim apiKey) ""); [done|].
    destruct (testConnection_true net _ _ _ _ _ Hans) as [req [Htest _]].
    cbv zeta. simpl SettingsModal.requests. rewrite Htest. simpl.
    by rewrite !lookup_insert_eq.
  - intros error Hne Hrej. destruct (String.eqb_spec (trim apiKey) ""); [done|].
    destruct (testConnection_false net _ _ _ _ _ Hrej) as [req Htest].
    cbv zeta. simpl SettingsModal.requests. rewrite Htest. simpl.
    by rewrite !lookup_insert_eq.
Qed.

End SettingsFacts.

(** ** The page that sends one prompt to several services *)

Section MainPageFacts.
Import Js MainPage MainPageSpec.
Variable connections : gmap string AppContext.AIConnection.
Variable answers :
  string → string → string → option string → option AIService.File →
  Result AIService.AIResponse.
Variable now : string.

Local Abbreviation query := (query connections answers).
Local Abbreviation handleSubmit := (handleSubmit connections answers now).
Local Abbreviation initialResponse := (initialResponse now).
Local Abbreviation initialResponses := (initialResponses now).

Lemma includes_elem serviceId l : includes serviceId l = true ↔ serviceId ∈ l.
Proof.
  unfold includes. rewrite existsb_exists. split.
  - intros (x & Hx & Heq). apply String.eqb_eq in Heq as ->.
    by apply list_elem_of_In.
  - intros Hin. exists serviceId. split; [by apply list_elem_of_In|].
    apply String.eqb_refl.
Qed.

Lemma elem_of_servicesToQuery p s :
  s ∈ servicesToQuery p
  ↔ s ∈ AIServiceCatalog.AI_SERVICES ∧ AIServiceCatalog.id s ∈ selectedServices p.
Proof.
  unfold servicesToQuery. rewrite list_elem_of_In, filter_In, <- list_elem_of_In.
  by rewrite includes_elem.
Qed.

(** The ids of the catalogue are distinct, and so are those of any
    selection from it. *)
Lemma servicesToQuery_NoDup p :
  NoDup (map AIServiceCatalog.id (servicesToQuery p)).
Proof.
  unfold servicesToQuery, AIServiceCatalog.AI_SERVICES. simpl.
  repeat match goal with
         | |- context [includes ?x ?l] => destruct (includes x l)
         end;
    simpl; apply (bool_decide_unpack _); vm_compute; reflexivity.
Qed.

(** *** Cells *)

Lemma initialResponses_from (services : list AIServiceCatalog.AIService)
    (m : gmap string ChatResponse) key :
  key ∉ map AIServiceCatalog.id services →
  foldl (λ acc service, <[AIServiceCatalog.id service := initialResponse service]> acc)
        m services !! key = m !! key.
Proof.
  revert m. induction services as [|s l IH]; intros m Hkey; [done|].
  simpl. rewrite IH.
  - apply lookup_insert_ne. intros Heq. apply Hkey. simpl. rewrite Heq.
    apply elem_of_cons. by left.
  - intros Hin. apply Hkey. simpl. apply elem_of_cons. by right.
Qed.

Lemma initialResponses_lookup (services : list AIServiceCatalog.AIService) s :
  NoDup (map AIServiceCatalog.id services) → s ∈ services →
  initialResponses services !! AIServiceCatalog.id s = Some (initialResponse s).
Proof.
  unfold MainPage.initialResponses. generalize (∅ : gmap string ChatResponse).
  induction services as [|s' l IH]; intros m Hnd Hin.
  - by apply elem_of_nil in Hin.
  - simpl in Hnd. apply NoDup_cons in Hnd as [Hnot Hnd].
    apply elem_of_cons in Hin as [->|Hin]; simpl.
    + rewrite initialResponses_from by done. apply lookup_insert_eq.
    + by apply IH.
Qed.

Lemma initialResponses_other (services : list AIServiceCatalog.AIService) key :
  key ∉ map AIServiceCatalog.id services → initialResponses services !! key = None.
Proof.
  intros Hkey. unfold MainPage.initialResponses.
  by rewrite initialResponses_from.
Qed.

Local Abbreviation settle_all := (settle_all connections answers).

Lemma settle_all_cons cp ci s l p :
  settle_all cp ci (s :: l) p = settle_all cp ci l (settle s (query cp ci s) p).
Proof. done. Qed.

Lemma settle_responses_ne service outcome p key :
  key ≠ AIServiceCatalog.id service →
  responses (settle service outcome p) !! key = responses p !! key.
Proof. intros Hne. destruct outcome; simpl; by rewrite lookup_insert_ne. Qed.

Lemma settle_responses_eq service outcome p :
  responses (settle service outcome p) !! AIServiceCatalog.id service
  = Some (settled outcome (spread (responses p !! AIServiceCatalog.id service))).
Proof. destruct outcome; simpl; by rewrite lookup_insert_eq. Qed.

Lemma settle_all_other cp ci order p key :
  key ∉ map AIServiceCatalog.id order →
  responses (settle_all cp ci order p) !! key = responses p !! key.
Proof.
  revert p. induction order as [|s l IH]; intros p Hkey; [done|].
  rewrite settle_all_cons. rewrite IH.
  - apply settle_responses_ne. intros ->. apply Hkey. simpl.
    apply elem_of_cons. by left.
  - intros Hin. apply Hkey. simpl. apply elem_of_cons. by right.
Qed.

Lemma settle_all_lookup cp ci order p s :
  NoDup (map AIServiceCatalog.id order) → s ∈ order →
  responses (settle_all cp ci order p) !! AIServiceCatalog.id s
  = Some (settled (query cp ci s) (spread (responses p !! AIServiceCatalog.id s))).
Proof.
  revert p. induction order as [|s' l IH]; intros p Hnd Hin.
  - by apply elem_of_nil in Hin.
  - simpl in Hnd. apply NoDup_cons in Hnd as [Hnot Hnd].
    rewrite settle_all_cons.
    destruct (decide (AIServiceCatalog.id s = AIServiceCatalog.id s')) as [Heq|Hne].
    + apply elem_of_cons in Hin as [->|Hin].
      * rewrite settle_all_other by done. apply settle_responses_eq.
      * destruct Hnot. rewrite <- Heq. apply list_elem_of_fmap. by exists s.
    + apply elem_of_cons in Hin as [->|Hin]; [done|].
      rewrite IH by done. by rewrite settle_responses_ne.
Qed.

Lemma settle_all_toasts cp ci order p :
  toasts (settle_all cp ci order p)
  = toasts p ++ concat (map (λ s, notified s (query cp ci s)) order).
Proof.
  revert p. induction order as [|s l IH]; intros p.
  - simpl. by rewrite app_nil_r.
  - rewrite settle_all_cons, IH. rewrite map_cons, concat_cons.
    destruct (query cp ci s); simpl; [done|]. by rewrite <- app_assoc.
Qed.

Lemma settle_all_rest cp ci order p :
  selectedServices (settle_all cp ci order p) = selectedServices p
  ∧ prompt (settle_all cp ci order p) = prompt p
  ∧ isSubmitting (settle_all cp ci order p) = isSubmitting p
  ∧ selectedImage (settle_all cp ci order p) = selectedImage p
  ∧ imagePreview (settle_all cp ci order p) = imagePreview p.
Proof.
  revert p. induction order as [|s l IH]; intros p; [done|].
  rewrite settle_all_cons.
  destruct (IH (settle s (query cp ci s) p)) as (-> & -> & -> & -> & ->).
  by destruct (query cp ci s).
Qed.

(** What [handleSubmit] does once past its guards. *)
Lemma handleSubmit_runs order p :
  selectedServices p ≠ [] →
  trim (prompt p) ≠ "" ∨ is_Some (selectedImage p) →
  isSubmitting p = false →
  handleSubmit order p
  = setIsSubmitting false
      (settle_all (prompt p) (selectedImage p) order
         (setResponses (λ _, initialResponses (servicesToQuery p))
            (removeImage (setPrompt "" (setIsSubmitting true p))))).
Proof.
  intros Hsel Hinput Hidle. unfold MainPage.handleSubmit.
  destruct (length (selectedServices p)) eqn:Hlen;
    [by apply length_zero_iff_nil in Hlen|].
  simpl Nat.eqb. cbv iota. rewrite Hidle, orb_false_r.
  assert ((String.eqb (trim (prompt p)) "" && absent (selectedImage p)) = false)
    as ->; [|done].
  apply andb_false_iff. destruct Hinput as [Hp|[f Hf]].
  - left. by apply String.eqb_neq.
  - right. by rewrite Hf.
Qed.

(** X25. [handleSubmit] is refused with a notification when no service is
    selected, and does nothing at all, without notifying, when there is
    neither a prompt (once trimmed) nor a picture or when a submission is
    already under way. *)
Theorem handleSubmit_guards order p :
  (selectedServices p = [] →
     handleSubmit order p
     = toast (GarageWorkflow.toast_error
                "Please select at least one AI service to prompt!") p)
  ∧ (selectedServices p ≠ [] →
     (trim (prompt p) = "" ∧ selectedImage p = None) ∨ isSubmitting p = true →
     handleSubmit order p = p).
Proof.
  unfold MainPage.handleSubmit. split.
  - by intros ->.
  - intros Hsel Hguard. destruct (selectedServices p) as [|x l]; [done|].
    simpl length. simpl Nat.eqb. cbv iota.
    destruct Hguard as [[-> ->] | ->]; [done|]. by rewrite orb_true_r.
Qed.

(** X26. Once every call of a submission has settled, in whatever order,
    the prompt and the picture are cleared, no submission is under way,
    and there is exactly one cell per selected service of the catalogue:
    it is not loading, and it holds the answer's content and token count
    when the call returned, or an empty content and the error's message
    when it threw. Earlier results are gone. *)
Theorem handleSubmit_cells order p :
  selectedServices p ≠ [] →
  trim (prompt p) ≠ "" ∨ is_Some (selectedImage p) →
  isSubmitting p = false →
  order ≡ₚ servicesToQuery p →
  let p' := handleSubmit order p in
  isSubmitting p' = false ∧ prompt p' = "" ∧ selectedImage p' = None
  ∧ imagePreview p' = None
  ∧ (∀ s, s ∈ servicesToQuery p →
       ∃ cell,
         responses p' !! AIServiceCatalog.id s = Some cell
         ∧ cell = settled (query (prompt p) (selectedImage p) s) (initialResponse s)
         ∧ loading cell = false
         ∧ match query (prompt p) (selectedImage p) s with
           | Ok response =>
               content cell = AIService.content response
               ∧ tokens cell = AIService.tokens response ∧ error cell = None
           | Throw e => content cell = "" ∧ error cell = Some (message e)
           end)
  ∧ (∀ key, key ∉ map AIServiceCatalog.id (servicesToQuery p) →
       responses p' !! key = None).
Proof.
  intros Hsel Hinput Hidle Horder p'. unfold p'.
  rewrite (handleSubmit_runs order p Hsel Hinput Hidle).
  set (p0 := setResponses _ _).
  destruct (settle_all_rest (prompt p) (selectedImage p) order p0)
    as (_ & Hprompt & _ & Himage & Hpreview).
  assert (Hnd : NoDup (map AIServiceCatalog.id order)).
  { rewrite Horder. apply servicesToQuery_NoDup. }
  simpl. rewrite Hprompt, Himage, Hpreview. repeat split.
  - intros s Hs. eexists. split.
    + rewrite settle_all_lookup; [|done|by rewrite Horder].
      unfold p0. simpl responses.
      rewrite initialResponses_lookup; [done|apply servicesToQuery_NoDup|done].
    + simpl. split; [done|].
      destruct (query (prompt p) (selectedImage p) s); simpl; repeat split.
  - intros key Hkey. rewrite settle_all_other by (by rewrite Horder).
    unfold p0. simpl responses. by apply initialResponses_other.
Qed.

(** X27. The order in which the calls settle does not matter: two orders
    of the same distinct services leave the same cells and the same
    remaining state, and notify the same errors, possibly in another
    order. One service's failure touches no other service's cell. *)
Theorem handleSubmit_order_independent order1 order2 p :
  order1 ≡ₚ order2 →
  NoDup (map AIServiceCatalog.id order1) →
  let p1 := handleSubmit order1 p in
  let p2 := handleSubmit order2 p in
  responses p1 = responses p2
  ∧ toasts p1 ≡ₚ toasts p2
  ∧ selectedServices p1 = selectedServices p2
  ∧ prompt p1 = prompt p2
  ∧ isSubmitting p1 = isSubmitting p2
  ∧ selectedImage p1 = selectedImage p2
  ∧ imagePreview p1 = imagePreview p2.
Proof.
  intros Hperm Hnd1. simpl.
  assert (Hnd2 : NoDup (map AIServiceCatalog.id order2)) by by rewrite <- Hperm.
  unfold MainPage.handleSubmit.
  destruct (length (selectedServices p) =? 0); [done|].
  destruct ((_ && _) || _); [done|]. cbv zeta.
  set (p0 := setResponses _ _).
  fold (settle_all (prompt p) (selectedImage p) order1 p0).
  fold (settle_all (prompt p) (selectedImage p) order2 p0).
  destruct (settle_all_rest (prompt p) (selectedImage p) order1 p0)
    as (Hs1 & Hp1 & _ & Hi1 & Hv1).
  destruct (settle_all_rest (prompt p) (selectedImage p) order2 p0)
    as (Hs2 & Hp2 & _ & Hi2 & Hv2).
  simpl. rewrite Hs1, Hs2, Hp1, Hp2, Hi1, Hi2, Hv1, Hv2. repeat split.
  - apply map_eq. intros key.
    destruct (decide (key ∈ map AIServiceCatalog.id order1)) as [Hin|Hout].
    + apply list_elem_of_fmap in Hin as (s & -> & Hs).
      rewrite !settle_all_lookup; [done|done|by rewrite <- Hperm|done|done].
    + rewrite !settle_all_other; [done|by rewrite <- Hperm|done].
  - rewrite !settle_all_toasts. apply Permutation_app_head.
    by rewrite Hperm.
Qed.

(** X28. [handleServiceToggle] refuses, with a notification, a service
    that is not connected. For a connected one it flips membership in the
    selection and leaves the other services as they were. *)
Theorem handleServiceToggle_membership serviceId p :
  (isConnected connections serviceId = false →
     handleServiceToggle connections serviceId p
     = toast (GarageWorkflow.toast_error
                (show (AIServiceCatalog.name <$> AIServiceCatalog.find_service serviceId)
                 +:+ " is not connected.")) p)
  ∧ (isConnected connections serviceId = true →
     ∀ x, x ∈ selectedServices (handleServiceToggle connections serviceId p)
          ↔ (x = serviceId ∧ serviceId ∉ selectedServices p)
            ∨ (x ≠ serviceId ∧ x ∈ selectedServices p)).
Proof.
  unfold MainPage.handleServiceToggle. split.
  - by intros ->.
  - intros -> x. simpl.
    destruct (includes serviceId (selectedServices p)) eqn:Hinc.
    + apply includes_elem in Hinc.
      rewrite list_elem_of_In, filter_In, <- list_elem_of_In, negb_true_iff,
        String.eqb_neq. split.
      * intros [Hx Hne]. by right.
      * intros [[-> Hno] | [Hne Hx]]; done.
    + assert (serviceId ∉ selectedServices p) as Hno.
      { intros Hin. apply includes_elem in Hin. congruence. }
      rewrite elem_of_app, list_elem_of_singleton. split.
      * intros [Hx| ->]; [right|by left]. split; [|done]. by intros ->.
      * intros [[-> _] | [_ Hx]]; [by right|by left].
Qed.

(** X29. The services a submission queries are services of the catalogue
    that are selected, each once, and every one of them is supported by
    the adapter: a submission never meets "Unsupported AI service". *)
Theorem servicesToQuery_supported p :
  NoDup (map AIServiceCatalog.id (servicesToQuery p))
  ∧ ∀ s, s ∈ servicesToQuery p →
         AIServiceCatalog.id s ∈ selectedServices p
         ∧ Spec.supported (AIServiceCatalog.id s).
Proof.
  split; [apply servicesToQuery_NoDup|].
  intros s [Hcat Hsel]%elem_of_servicesToQuery. split; [done|].
  unfold AIServiceCatalog.AI_SERVICES in Hcat.
  apply supported_cases.
  repeat (apply elem_of_cons in Hcat as [->|Hcat]; [simpl; tauto|]).
  by apply elem_of_nil in Hcat.
Qed.

End MainPageFacts.

(** X30. A failed attempt to connect a service discards the credential
    that was stored for it: afterwards a stage whose role is assigned to
    that service does not run and "API key not found" is notified. *)
Theorem failed_connect_blocks_stage
    (net : AIService.Network)
    (stringify : gmap string AppContext.AIConnection → string)
    (serviceId : string) (p : SettingsPage.Page) (apiKey : string)
    (error : Js.Error)
    (selectedOption : GaragePage.GarageOption) (net' : AIService.Network)
    (env : GarageWorkflow.State) (i : nat) (inputPrompt : string)
    (w : GarageWorkflow.World) (step : GarageWorkflow.WorkflowStep) :
  Js.truthy (SettingsPage.apiKeys p !! serviceId) = Some apiKey →
  AdapterSpec.Rejected net (SettingsPage.requests p) "Hello" apiKey
    (Js.or_opt (SettingsPage.modelNames p !! serviceId)
               (AIService.DEFAULT_MODELS !! serviceId))
    None serviceId error →
  GarageWorkflow.workflowSteps env !! i = Some step →
  Js.truthy (GarageWorkflow.roleAssignments env !! GarageWorkflow.role step)
  = Some serviceId →
  GarageWorkflow.processStep selectedOption
    (AppProviders.connections
       (SettingsPage.store (SettingsPage.handleConnect net stringify serviceId p)))
    net' env i inputPrompt w
  = GarageWorkflow.toast
      (GarageWorkflow.toast_error ("API key not found for " +:+ serviceId)) w.
Proof.
  intros Hkey Hrej Hstep Hrole.
  destruct (testConnection_false net _ _ _ _ _ Hrej) as [req Htest].
  destruct (handleConnect_tested net stringify serviceId p apiKey false _ Hkey Htest)
    as [Hc _].
  apply (processStep_no_key _ _ _ _ _ _ _ _ _ Hstep Hrole).
  by rewrite Hc, lookup_insert_eq.
Qed.

Section PagesWitnesses.
Import Js AIService Spec AdapterSpec.

Local Ltac evaluate := vm_compute; reflexivity.

Lemma failed_connect_blocks_stage_witness :
  GarageWorkflow.processStep GaragePage.build
    (AppProviders.connections
       (SettingsPage.store
          (SettingsPage.handleConnect Sample.net SettingsSample.stringify "groq"
             SettingsSample.page)))
    Sample.net (GarageWorkflow.state (Sample.ready GaragePage.build)) 2
    "write the frontend" (Sample.ready GaragePage.build)
  = GarageWorkflow.toast
      (GarageWorkflow.toast_error ("API key not found for " +:+ "groq"))
      (Sample.ready GaragePage.build).
Proof.
  apply (failed_connect_blocks_stage Sample.net SettingsSample.stringify "groq"
           SettingsSample.page "gsk-1" AdapterSample.groq_rejection
           GaragePage.build Sample.net
           (GarageWorkflow.state (Sample.ready GaragePage.build)) 2
           "write the frontend" (Sample.ready GaragePage.build)
           (Sample.stage "C" "Frontend Designer")).
  - evaluate.
  - apply rejected_groq. evaluate.
  - evaluate.
  - evaluate.
Defined.

Lemma handleConnect_outcome_witness :
  (AppProviders.connections
     (SettingsPage.store
        (SettingsPage.handleConnect Sample.net SettingsSample.stringify "openai"
           SettingsSample.page)) !! "openai"
   = Some {| AppContext.id := "openai"; AppContext.status := AppContext.connected;
             AppContext.apiKey := Some "sk-1"; AppContext.email := None;
             AppContext.model := Some "gpt-4o" |})
  ∧ (AppProviders.connections
       (SettingsPage.store
          (SettingsPage.handleConnect Sample.net SettingsSample.stringify "groq"
             SettingsSample.page)) !! "groq"
     = Some {| AppContext.id := "groq"; AppContext.status := AppContext.error;
               AppContext.apiKey := None; AppContext.email := None;
               AppContext.model := None |})
  ∧ SettingsPage.handleConnect Sample.net SettingsSample.stringify "anthropic"
      SettingsSample.page
    = SettingsPage.withStore
        (AppProviders.toast (GarageWorkflow.toast_error "Please enter an API key."))
        SettingsSample.page.
Proof.
  destruct (handleConnect_outcome Sample.net SettingsSample.stringify "openai"
              SettingsSample.page) as (_ & Hok & _ & _).
  destruct (handleConnect_outcome Sample.net SettingsSample.stringify "groq"
              SettingsSample.page) as (_ & _ & Hfail & _).
  destruct (handleConnect_outcome Sample.net SettingsSample.stringify "anthropic"
              SettingsSample.page) as (Hnone & _ & _ & _).
  split; [|split].
  - apply (Hok "sk-1" (openai_text (Sample.openai_data (Some "refined")))); [evaluate|].
    apply (answered_openai Sample.net [] "Hello" "sk-1" (Some "gpt-4o") None
             (Sample.openai_data (Some "refined"))); [evaluate|].
    eexists. reflexivity.
  - apply (Hfail "gsk-1" AdapterSample.groq_rejection); [evaluate|].
    apply rejected_groq. evaluate.
  - apply Hnone. evaluate.
Defined.

Lemma modal_testConnection_outcome_witness :
  SettingsModal.testConnection Sample.net SettingsSample.stringify "openai" "   "
    SettingsSample.modal
  = SettingsModal.withStore
      (AppProviders.toast (GarageWorkflow.toast_error "Please enter an API key first"))
      SettingsSample.modal
  ∧ SettingsModal.testingConnection
      (SettingsModal.testConnection Sample.net SettingsSample.stringify "openai"
         "sk-2" SettingsSample.modal) = None
  ∧ AppProviders.connections
      (SettingsModal.store
         (SettingsModal.testConnection Sample.net SettingsSample.stringify "openai"
            "sk-2" SettingsSample.modal)) !! "openai"
    = Some {| AppContext.id := "openai"; AppContext.status := AppContext.connected;
              AppContext.apiKey := Some "sk-2"; AppContext.email := None;
              AppContext.model := None |}.
Proof.
  destruct (modal_testConnection_outcome Sample.net SettingsSample.stringify
              "openai" "   " SettingsSample.modal) as (Hblank & _ & _ & _).
  destruct (modal_testConnection_outcome Sample.net SettingsSample.stringify
              "openai" "sk-2" SettingsSample.modal) as (_ & Hdone & Hok & _).
  assert (Hkey : trim "sk-2" ≠ "") by (vm_compute; discriminate).
  split; [|split].
  - apply Hblank. evaluate.
  - apply Hdone, Hkey.
  - apply (Hok (openai_text (Sample.openai_data (Some "refined"))) Hkey).
    apply (answered_openai Sample.net [] "Hello" "sk-2" None None
             (Sample.openai_data (Some "refined"))); [evaluate|].
    eexists. reflexivity.
Defined.

Local Abbreviation conns := Sample.connections.
Local Abbreviation answers := MainPageSample.answers.
Local Abbreviation now := MainPageSample.now.

Lemma handleSubmit_guards_witness :
  MainPage.handleSubmit conns answers now [] MainPageSample.none_selected
  = MainPage.toast
      (GarageWorkflow.toast_error "Please select at least one AI service to prompt!")
      MainPageSample.none_selected
  ∧ MainPage.handleSubmit conns answers now [MainPageSample.openai] MainPageSample.blank
    = MainPageSample.blank.
Proof.
  split.
  - apply (handleSubmit_guards conns answers now [] MainPageSample.none_selected).
    reflexivity.
  - destruct (handleSubmit_guards conns answers now [MainPageSample.openai]
                MainPageSample.blank) as [_ Hblank].
    apply Hblank; [discriminate|]. left. split; evaluate.
Defined.

Lemma handleSubmit_cells_witness :
  let p := MainPageSample.page in
  let p' := MainPage.handleSubmit conns answers now
              [MainPageSample.groq; MainPageSample.openai; MainPageSample.anthropic] p in
  MainPage.isSubmitting p' = false ∧ MainPage.prompt p' = ""
  ∧ MainPage.selectedImage p' = None ∧ MainPage.imagePreview p' = None
  ∧ (∀ s, s ∈ MainPage.servicesToQuery p →
       ∃ cell,
         MainPage.responses p' !! AIServiceCatalog.id s = Some cell
         ∧ cell = MainPageSpec.settled
                    (MainPage.query conns answers (MainPage.prompt p)
                       (MainPage.selectedImage p) s)
                    (MainPage.initialResponse now s)
         ∧ MainPage.loading cell = false
         ∧ match MainPage.query conns answers (MainPage.prompt p)
                   (MainPage.selectedImage p) s with
           | Ok response =>
               MainPage.content cell = AIService.content response
               ∧ MainPage.tokens cell = AIService.tokens response
               ∧ MainPage.error cell = None
           | Throw e =>
               MainPage.content cell = "" ∧ MainPage.error cell = Some (message e)
           end)
  ∧ (∀ key, key ∉ map AIServiceCatalog.id (MainPage.servicesToQuery p) →
       MainPage.responses p' !! key = None).
Proof.
  apply (handleSubmit_cells conns answers now
           [MainPageSample.groq; MainPageSample.openai; MainPageSample.anthropic]
           MainPageSample.page).
  - discriminate.
  - left. vm_compute. discriminate.
  - reflexivity.
  - change (MainPage.servicesToQuery MainPageSample.page)
      with [MainPageSample.openai; MainPageSample.anthropic; MainPageSample.groq].
    exact (Permutation_app_comm [MainPageSample.groq]
             [MainPageSample.openai; MainPageSample.anthropic]).
Defined.

Lemma handleSubmit_order_independent_witness :
  let p1 := MainPage.handleSubmit conns answers now
              [MainPageSample.openai; MainPageSample.anthropic; MainPageSample.groq]
              MainPageSample.page in
  let p2 := MainPage.handleSubmit conns answers now
              [MainPageSample.groq; MainPageSample.openai; MainPageSample.anthropic]
              MainPageSample.page in
  MainPage.responses p1 = MainPage.responses p2
  ∧ MainPage.toasts p1 ≡ₚ MainPage.toasts p2
  ∧ MainPage.selectedServices p1 = MainPage.selectedServices p2
  ∧ MainPage.prompt p1 = MainPage.prompt p2
  ∧ MainPage.isSubmitting p1 = MainPage.isSubmitting p2
  ∧ MainPage.selectedImage p1 = MainPage.selectedImage p2
  ∧ MainPage.imagePreview p1 = MainPage.imagePreview p2.
Proof.
  apply (handleSubmit_order_independent conns answers now
           [MainPageSample.openai; MainPageSample.anthropic; MainPageSample.groq]
           [MainPageSample.groq; MainPageSample.openai; MainPageSample.anthropic]
           MainPageSample.page).
  - exact (Permutation_app_comm [MainPageSample.openai; MainPageSample.anthropic]
             [MainPageSample.groq]).
  - apply (bool_decide_unpack _). evaluate.
Defined.

Lemma handleServiceToggle_membership_witness :
  MainPage.handleServiceToggle conns "google" MainPageSample.page
  = MainPage.toast (GarageWorkflow.toast_error ("Gemini" +:+ " is not connected."))
      MainPageSample.page
  ∧ ("openai" ∈ MainPage.selectedServices
                  (MainPage.handleServiceToggle conns "openai" MainPageSample.page)
     ↔ ("openai" = "openai"
        ∧ "openai" ∉ MainPage.selectedServices MainPageSample.page)
       ∨ ("openai" ≠ "openai"
          ∧ "openai" ∈ MainPage.selectedServices MainPageSample.page)).
Proof.
  destruct (handleServiceToggle_membership conns "google" MainPageSample.page)
    as [Hoff _].
  destruct (handleServiceToggle_membership conns "openai" MainPageSample.page)
    as [_ Hon].
  split.
  - apply Hoff. evaluate.
  - apply Hon. evaluate.
Defined.

(** The submission of [MainPageSample.page]: ChatGPT and Claude answer,
    Groq fails, and only Groq's failure is notified. *)
Example compare_run :
  let p' := MainPage.handleSubmit conns answers now
              (MainPage.servicesToQuery MainPageSample.page) MainPageSample.page in
  (MainPage.content <$> MainPage.responses p' !! "openai") = Some "refined"
  ∧ (MainPage.content <$> MainPage.responses p' !! "anthropic") = Some "backend"
  ∧ (MainPage.error <$> MainPage.responses p' !! "groq")
    = Some (Some "Groq Error: Invalid API Key")
  ∧ MainPage.toasts p' = [GarageWorkflow.toast_error "Groq: Groq Error: Invalid API Key"].
Proof. vm_compute. repeat split. Qed.

End PagesWitnesses.
